(** * A shallow embedding of the chess rules engine

    The Python sources under [models/] and [engine/] are transcribed class
    by class: every Python class becomes a module of the same name, every
    method a definition of the same name.  Python integers are [Z], the
    8x8 [grid] is a list of rows, and a raised [ValueError] is the [Raise]
    branch of the [result] type. *)

From Stdlib Require Import ZArith Lia ZifyBool Bool String Ascii DecimalString.
From stdpp Require Import base list.

Open Scope Z_scope.

(** ** Exceptions *)

Inductive exn : Type := ValueError.

Inductive result (A : Type) : Type :=
| Ok (a : A)
| Raise (e : exn).

Arguments Ok {A} a.
Arguments Raise {A} e.

Definition bind {A B : Type} (r : result A) (k : A -> result B) : result B :=
  match r with
  | Ok a => k a
  | Raise e => Raise e
  end.

Notation "'try!' x ':=' r 'in' k" := (bind r (fun x => k))
  (at level 10, x name, r at level 100, k at level 200).

(** ** models/piece.py *)

Inductive PieceType : Type := PAWN | KNIGHT | BISHOP | ROOK | QUEEN | KING.

Inductive Color : Type := WHITE | BLACK.

#[global] Instance PieceType_eq_dec : EqDecision PieceType.
Proof. solve_decision. Defined.

#[global] Instance Color_eq_dec : EqDecision Color.
Proof. solve_decision. Defined.

Module Color.

Definition opposite (self : Color) : Color :=
  if decide (self = WHITE) then BLACK else WHITE.

End Color.

Module Piece.

Record t : Type := mk { piece_type : PieceType; color : Color }.

#[global] Instance eq_dec : EqDecision t.
Proof. solve_decision. Defined.

(** The [symbols] dictionary of [to_symbol]; every piece type is a key. *)
Definition symbols (piece_type : PieceType) : ascii :=
  match piece_type with
  | PAWN => "P" | KNIGHT => "N" | BISHOP => "B"
  | ROOK => "R" | QUEEN => "Q" | KING => "K"
  end%char.

(** [str.lower] on one ASCII character. *)
Definition lower (c : ascii) : ascii :=
  let n := nat_of_ascii c in
  if ((65 <=? n) && (n <=? 90))%nat then ascii_of_nat (n + 32) else c.

Definition to_symbol (self : t) : string :=
  let symbol := symbols (piece_type self) in
  if decide (color self = WHITE) then String symbol EmptyString
  else String (lower symbol) EmptyString.

End Piece.

Abbreviation Piece := Piece.t.

(** ** models/square.py *)

Module Square.

Record t : Type := mk { file : Z; rank : Z }.

#[global] Instance eq_dec : EqDecision t.
Proof. solve_decision. Defined.

(** The constructor: rejects coordinates outside 0..7. *)
Definition __init__ (file rank : Z) : result t :=
  if negb ((0 <=? file) && (file <=? 7)) then Raise ValueError
  else if negb ((0 <=? rank) && (rank <=? 7)) then Raise ValueError
  else Ok (mk file rank).

(** [str.lower] on one character.  Only the letters A-Z are mapped; the
    remaining characters are never mapped into a-h by Python either. *)
Definition lower (c : ascii) : ascii :=
  let n := nat_of_ascii c in
  if ((65 <=? n) && (n <=? 90))%nat then ascii_of_nat (n + 32) else c.

(** [c in s] for a one-character string [c]. *)
Fixpoint char_in (c : ascii) (s : string) : bool :=
  match s with
  | EmptyString => false
  | String d rest => if Ascii.eqb c d then true else char_in c rest
  end.

Definition ord (c : ascii) : Z := Z.of_nat (nat_of_ascii c).

(** [chr] on the code points the engine produces (below 256). *)
Definition chr (n : Z) : ascii := ascii_of_nat (Z.to_nat n).

(** [int] of a one-character decimal digit. *)
Definition int_of_digit (c : ascii) : Z := ord c - ord "0".

(** [str] of an integer. *)
Definition str (n : Z) : string := NilZero.string_of_int (Z.to_int n).

Definition from_algebraic (notation : string) : result t :=
  match notation with
  | String c0 (String c1 EmptyString) =>
      let file_char := lower c0 in
      let rank_char := c1 in
      if negb (char_in file_char "abcdefgh") then Raise ValueError
      else if negb (char_in rank_char "12345678") then Raise ValueError
      else
        let file := ord file_char - ord "a" in
        let rank := int_of_digit rank_char - 1 in
        __init__ file rank
  | _ => Raise ValueError
  end.

Definition to_algebraic (self : t) : string :=
  let file_char := chr (ord "a" + file self) in
  let rank_char := str (rank self + 1) in
  String file_char rank_char.

End Square.

Abbreviation Square := Square.t.

(** A square object that went through the constructor. *)
Definition valid_square (s : Square) : Prop :=
  0 <= Square.file s <= 7 /\ 0 <= Square.rank s <= 7.

(** [0 <= f <= 7 and 0 <= r <= 7]: the test under which the engine builds
    a square from computed coordinates; the constructor cannot raise
    below it, and such constructions are written [Square.mk]. *)
Definition in_bounds (f r : Z) : bool :=
  ((0 <=? f) && (f <=? 7)) && ((0 <=? r) && (r <=? 7)).

(** ** models/board.py *)

(** [for rank in range(8): for file in range(8)], as the squares visited. *)
Definition all_squares : list Square :=
  flat_map (fun r => map (fun f => Square.mk f r) (seqZ 0 8)) (seqZ 0 8).

Module Board.

(** [grid[rank][file]]; a row is a list of eight optional pieces. *)
Record t : Type := mk { grid : list (list (option Piece)) }.

Definition __init__ : t := mk (replicate 8 (replicate 8 None)).

(** Indexing outside the grid (an [IndexError] in Python) cannot occur for
    a square that went through the constructor on an 8x8 grid; the model
    reads [None] there. *)
Definition get_piece (self : t) (square : Square) : option Piece :=
  match grid self !! Z.to_nat (Square.rank square) with
  | Some row =>
      match row !! Z.to_nat (Square.file square) with
      | Some piece => piece
      | None => None
      end
  | None => None
  end.

(** [piece] is optional: castling stores back whatever it read from the
    rook's corner. *)
Definition set_piece (self : t) (square : Square) (piece : option Piece) : t :=
  mk (alter (fun row => <[Z.to_nat (Square.file square) := piece]> row)
            (Z.to_nat (Square.rank square)) (grid self)).

Definition remove_piece (self : t) (square : Square) : t :=
  set_piece self square None.

(** The dictionary is kept as the list of its items, in insertion order. *)
Definition get_all_pieces (self : t) (color : Color) : list (Square * Piece) :=
  flat_map (fun square =>
    match get_piece self square with
    | Some piece =>
        if decide (Piece.color piece = color) then [(square, piece)] else []
    | None => []
    end) all_squares.

Definition copy (self : t) : t :=
  fold_left (fun new_board square =>
    match get_piece self square with
    | Some piece =>
        set_piece new_board square
          (Some (Piece.mk (Piece.piece_type piece) (Piece.color piece)))
    | None => set_piece new_board square None
    end) all_squares __init__.

Definition piece_order : list PieceType :=
  [ROOK; KNIGHT; BISHOP; QUEEN; KING; BISHOP; KNIGHT; ROOK].

Definition setup_standard_position (self : t) : t :=
  let cleared := __init__ in
  let with_pieces :=
    fold_left (fun b '(file, piece_type) =>
      let b := set_piece b (Square.mk file 0) (Some (Piece.mk piece_type WHITE)) in
      set_piece b (Square.mk file 7) (Some (Piece.mk piece_type BLACK)))
      (zip (seqZ 0 8) piece_order) cleared in
  fold_left (fun b file =>
    let b := set_piece b (Square.mk file 1) (Some (Piece.mk PAWN WHITE)) in
    set_piece b (Square.mk file 6) (Some (Piece.mk PAWN BLACK)))
    (seqZ 0 8) with_pieces.

End Board.

Abbreviation Board := Board.t.

(** The grid is 8x8. *)
Definition board_wf (b : Board) : Prop :=
  length (Board.grid b) = 8%nat /\
  Forall (fun row => length row = 8%nat) (Board.grid b).

(** ** models/castling_rights.py *)

Module CastlingRights.

Record t : Type := mk {
  white_kingside : bool;
  white_queenside : bool;
  black_kingside : bool;
  black_queenside : bool
}.

Definition revoke_for_piece (self : t) (piece_type : PieceType) (color : Color)
    (square : Square) : t :=
  if decide (piece_type = KING) then
    if decide (color = WHITE) then
      mk false false (black_kingside self) (black_queenside self)
    else
      mk (white_kingside self) (white_queenside self) false false
  else if decide (piece_type = ROOK) then
    if decide (color = WHITE) then
      if (Square.file square =? 0) && (Square.rank square =? 0) then
        mk (white_kingside self) false (black_kingside self) (black_queenside self)
      else if (Square.file square =? 7) && (Square.rank square =? 0) then
        mk false (white_queenside self) (black_kingside self) (black_queenside self)
      else self
    else
      if (Square.file square =? 0) && (Square.rank square =? 7) then
        mk (white_kingside self) (white_queenside self) (black_kingside self) false
      else if (Square.file square =? 7) && (Square.rank square =? 7) then
        mk (white_kingside self) (white_queenside self) false (black_queenside self)
      else self
  else self.

Definition revoke_for_rook_capture (self : t) (square : Square) : t :=
  if (Square.file square =? 0) && (Square.rank square =? 0) then
    mk (white_kingside self) false (black_kingside self) (black_queenside self)
  else if (Square.file square =? 7) && (Square.rank square =? 0) then
    mk false (white_queenside self) (black_kingside self) (black_queenside self)
  else if (Square.file square =? 0) && (Square.rank square =? 7) then
    mk (white_kingside self) (white_queenside self) (black_kingside self) false
  else if (Square.file square =? 7) && (Square.rank square =? 7) then
    mk (white_kingside self) (white_queenside self) false (black_queenside self)
  else self.

Definition copy (self : t) : t :=
  mk (white_kingside self) (white_queenside self)
     (black_kingside self) (black_queenside self).

End CastlingRights.

Abbreviation CastlingRights := CastlingRights.t.

(** ** models/move.py *)

(** Looking a piece type up in a dictionary: the value found, or the
    [KeyError] Python raises for a missing key. *)
Inductive lookup (A : Type) : Type :=
| Found (a : A)
| KeyError (key : PieceType).

Arguments Found {A} a.
Arguments KeyError {A} key.

Module Move.

Record t : Type := mk {
  from_square : Square;
  to_square : Square;
  piece : Piece;
  captured_piece : option Piece;
  promotion_piece : option PieceType;
  is_castling : bool;
  is_en_passant : bool
}.

#[global] Instance eq_dec : EqDecision t.
Proof. solve_decision. Defined.

(** The [piece_letters] dictionary: no entry for the pawn. *)
Definition piece_letters (key : PieceType) : lookup string :=
  match key with
  | KNIGHT => Found "N" | BISHOP => Found "B" | ROOK => Found "R"
  | QUEEN => Found "Q" | KING => Found "K"
  | PAWN => KeyError PAWN
  end%string.

(** The [promotion_letters] dictionary: no entry for pawn and king. *)
Definition promotion_letters (key : PieceType) : lookup string :=
  match key with
  | KNIGHT => Found "N" | BISHOP => Found "B" | ROOK => Found "R"
  | QUEEN => Found "Q"
  | PAWN => KeyError PAWN | KING => KeyError KING
  end%string.

Definition check_suffix (is_check is_checkmate : bool) : string :=
  (if is_checkmate then "#" else if is_check then "+" else "")%string.

Definition is_capture_notation (self : t) : bool :=
  match captured_piece self with Some _ => true | None => false end ||
  is_en_passant self.

Definition to_algebraic_notation (self : t) (is_check is_checkmate : bool)
    (disambiguate_file disambiguate_rank : bool) : lookup string :=
  if is_castling self then
    let notation :=
      if Square.file (to_square self) =? 6 then "O-O"%string else "O-O-O"%string in
    Found (notation ++ check_suffix is_check is_checkmate)%string
  else
    let notation := EmptyString in
    let origin_file :=
      String (Square.chr (Square.ord "a" + Square.file (from_square self)))
             EmptyString in
    match
      (if decide (Piece.piece_type (piece self) = PAWN) then
         Found (if is_capture_notation self
                then (notation ++ origin_file)%string else notation)
       else
         match piece_letters (Piece.piece_type (piece self)) with
         | KeyError key => KeyError key
         | Found letter =>
             let notation := (notation ++ letter)%string in
             let notation :=
               if disambiguate_file then (notation ++ origin_file)%string
               else notation in
             Found (if disambiguate_rank
                    then (notation ++
                          Square.str (Square.rank (from_square self) + 1))%string
                    else notation)
         end)
    with
    | KeyError key => KeyError key
    | Found notation =>
        let notation :=
          if is_capture_notation self then (notation ++ "x")%string else notation in
        let notation := (notation ++ Square.to_algebraic (to_square self))%string in
        match
          match promotion_piece self with
          | Some promotion =>
              match promotion_letters promotion with
              | KeyError key => KeyError key
              | Found letter => Found (notation ++ "=" ++ letter)%string
              end
          | None => Found notation
          end
        with
        | KeyError key => KeyError key
        | Found notation =>
            Found (notation ++ check_suffix is_check is_checkmate)%string
        end
    end.

End Move.

Abbreviation Move := Move.t.

(** ** models/game_state.py *)

Inductive GameMode : Type := SINGLE_PLAYER | MULTIPLAYER.

(** Python's built-in [hash] on the two kinds of value the position hash
    feeds it: the tuple [(piece_type, color)] and a [Color] member.  Enum
    members hash through their names, so the values differ from one
    interpreter run to the next; within a run they are fixed. *)
Class BuiltinHash : Type := {
  hash_piece_tuple : PieceType -> Color -> Z;
  hash_color : Color -> Z
}.

Module GameState.

Record t : Type := mk {
  board : Board;
  current_player : Color;
  castling_rights : CastlingRights;
  en_passant_target : option Square;
  halfmove_clock : Z;
  fullmove_number : Z;
  move_history : list Move;
  position_history : list Z;
  game_mode : GameMode
}.

Section Hash.
Context `{BuiltinHash}.

Definition compute_position_hash (self : t) : Z :=
  let hash_value := 0 in
  let hash_value :=
    fold_left (fun hash_value square =>
      match Board.get_piece (board self) square with
      | Some piece =>
          let square_hash := Square.rank square * 8 + Square.file square in
          let piece_hash :=
            hash_piece_tuple (Piece.piece_type piece) (Piece.color piece) in
          Z.lxor hash_value (square_hash * 31 + piece_hash)
      | None => hash_value
      end) all_squares hash_value in
  let hash_value := Z.lxor hash_value (hash_color (current_player self) * 17) in
  let castling_hash :=
    Z.lor (Z.lor (Z.lor
      (if CastlingRights.white_kingside (castling_rights self) then 1 else 0)
      (if CastlingRights.white_queenside (castling_rights self) then 2 else 0))
      (if CastlingRights.black_kingside (castling_rights self) then 4 else 0))
      (if CastlingRights.black_queenside (castling_rights self) then 8 else 0) in
  let hash_value := Z.lxor hash_value (castling_hash * 13) in
  match en_passant_target self with
  | Some target =>
      let ep_hash := Square.rank target * 8 + Square.file target in
      Z.lxor hash_value (ep_hash * 19)
  | None => hash_value
  end.

Definition copy (self : t) : t :=
  mk (Board.copy (board self))
     (current_player self)
     (CastlingRights.copy (castling_rights self))
     (en_passant_target self)
     (halfmove_clock self)
     (fullmove_number self)
     (move_history self)
     (position_history self)
     (game_mode self).

Definition new_game (mode : GameMode) : t :=
  let board := Board.setup_standard_position Board.__init__ in
  let castling_rights := CastlingRights.mk true true true true in
  let state := mk board WHITE castling_rights None 0 1 [] [] mode in
  mk board WHITE castling_rights None 0 1 []
     (position_history state ++ [compute_position_hash state]) mode.

End Hash.

End GameState.

Abbreviation GameState := GameState.t.

(** A structurally valid game state: an 8x8 grid, and an en-passant target
    that is a square. *)
Definition state_wf (s : GameState) : Prop :=
  board_wf (GameState.board s) /\
  match GameState.en_passant_target s with
  | Some target => valid_square target
  | None => True
  end.

(** The squares of a move went through the constructor. *)
Definition move_wf (m : Move) : Prop :=
  valid_square (Move.from_square m) /\ valid_square (Move.to_square m).

(** ** engine/check_detector.py *)

Module CheckDetector.

Definition find_king_position (state : GameState) (color : Color) : option Square :=
  List.find (fun square =>
    match Board.get_piece (GameState.board state) square with
    | Some piece =>
        bool_decide (Piece.piece_type piece = KING) &&
        bool_decide (Piece.color piece = color)
    | None => false
    end) all_squares.

Definition _can_pawn_attack (from_square : Square) (piece : Piece)
    (target_square : Square) : bool :=
  let direction := if decide (Piece.color piece = WHITE) then 1 else -1 in
  let rank_diff := Square.rank target_square - Square.rank from_square in
  let file_diff := Z.abs (Square.file target_square - Square.file from_square) in
  (rank_diff =? direction) && (file_diff =? 1).

Definition _can_knight_attack (from_square target_square : Square) : bool :=
  let file_diff := Z.abs (Square.file target_square - Square.file from_square) in
  let rank_diff := Z.abs (Square.rank target_square - Square.rank from_square) in
  ((file_diff =? 2) && (rank_diff =? 1)) || ((file_diff =? 1) && (rank_diff =? 2)).

Definition _can_king_attack (from_square target_square : Square) : bool :=
  let file_diff := Z.abs (Square.file target_square - Square.file from_square) in
  let rank_diff := Z.abs (Square.rank target_square - Square.rank from_square) in
  (file_diff <=? 1) && (rank_diff <=? 1) &&
  (negb (file_diff =? 0) || negb (rank_diff =? 0)).

(** The [while] loop of [_is_path_clear]: [None] when the fuel runs out,
    otherwise what the loop returns or raises. *)
Fixpoint _is_path_clear_loop (fuel : nat) (state : GameState) (to_square : Square)
    (file_step rank_step current_file current_rank : Z) : option (result bool) :=
  match fuel with
  | O => None
  | S fuel =>
      if negb (current_file =? Square.file to_square) ||
         negb (current_rank =? Square.rank to_square) then
        match Square.__init__ current_file current_rank with
        | Raise e => Some (Raise e)
        | Ok square =>
            match Board.get_piece (GameState.board state) square with
            | Some _ => Some (Ok false)
            | None =>
                _is_path_clear_loop fuel state to_square file_step rank_step
                  (current_file + file_step) (current_rank + rank_step)
            end
        end
      else Some (Ok true)
  end.

(** Eight rounds always suffice: the eighth square of any walk that starts
    on the board lies outside it, where the constructor raises (lemma
    [_is_path_clear_loop_fuel]). *)
Definition _is_path_clear (state : GameState) (from_square to_square : Square)
    : result bool :=
  let file_diff := Square.file to_square - Square.file from_square in
  let rank_diff := Square.rank to_square - Square.rank from_square in
  let file_step := if file_diff =? 0 then 0 else if file_diff >? 0 then 1 else -1 in
  let rank_step := if rank_diff =? 0 then 0 else if rank_diff >? 0 then 1 else -1 in
  let current_file := Square.file from_square + file_step in
  let current_rank := Square.rank from_square + rank_step in
  match _is_path_clear_loop 8 state to_square file_step rank_step
          current_file current_rank with
  | Some r => r
  | None => Raise ValueError
  end.

Definition _can_bishop_attack (state : GameState) (from_square target_square : Square)
    : result bool :=
  let file_diff := Square.file target_square - Square.file from_square in
  let rank_diff := Square.rank target_square - Square.rank from_square in
  if negb (Z.abs file_diff =? Z.abs rank_diff) || (file_diff =? 0) then Ok false
  else _is_path_clear state from_square target_square.

Definition _can_rook_attack (state : GameState) (from_square target_square : Square)
    : result bool :=
  let file_diff := Square.file target_square - Square.file from_square in
  let rank_diff := Square.rank target_square - Square.rank from_square in
  if negb (((file_diff =? 0) && negb (rank_diff =? 0)) ||
           (negb (file_diff =? 0) && (rank_diff =? 0))) then Ok false
  else _is_path_clear state from_square target_square.

Definition _can_queen_attack (state : GameState) (from_square target_square : Square)
    : result bool :=
  try! as_bishop := _can_bishop_attack state from_square target_square in
  if as_bishop then Ok true
  else _can_rook_attack state from_square target_square.

Definition _can_piece_attack_square (state : GameState) (from_square : Square)
    (piece : Piece) (target_square : Square) : result bool :=
  match Piece.piece_type piece with
  | PAWN => Ok (_can_pawn_attack from_square piece target_square)
  | KNIGHT => Ok (_can_knight_attack from_square target_square)
  | BISHOP => _can_bishop_attack state from_square target_square
  | ROOK => _can_rook_attack state from_square target_square
  | QUEEN => _can_queen_attack state from_square target_square
  | KING => Ok (_can_king_attack from_square target_square)
  end.

(** The [for] loop of [is_square_attacked] over the items of [pieces]. *)
Fixpoint is_square_attacked_loop (state : GameState) (square : Square)
    (pieces : list (Square * Piece)) : result bool :=
  match pieces with
  | [] => Ok false
  | (piece_square, piece) :: rest =>
      try! hit := _can_piece_attack_square state piece_square piece square in
      if hit then Ok true else is_square_attacked_loop state square rest
  end.

Definition is_square_attacked (state : GameState) (square : Square)
    (by_color : Color) : result bool :=
  let pieces := Board.get_all_pieces (GameState.board state) by_color in
  is_square_attacked_loop state square pieces.

Definition is_check (state : GameState) (color : Color) : result bool :=
  match find_king_position state color with
  | None => Ok false
  | Some king_square =>
      let opponent_color := Color.opposite color in
      is_square_attacked state king_square opponent_color
  end.

End CheckDetector.

(** ** engine/move_generator.py *)

Module MoveGenerator.

Definition promotion_types : list PieceType := [QUEEN; ROOK; BISHOP; KNIGHT].

Definition _generate_pawn_moves (state : GameState) (square : Square) (piece : Piece)
    : list Move :=
  let direction := if decide (Piece.color piece = WHITE) then 1 else -1 in
  let start_rank := if decide (Piece.color piece = WHITE) then 1 else 6 in
  let forward_rank := Square.rank square + direction in
  let moves :=
    if (0 <=? forward_rank) && (forward_rank <=? 7) then
      let forward_square := Square.mk (Square.file square) forward_rank in
      match Board.get_piece (GameState.board state) forward_square with
      | None =>
          if (Square.rank forward_square =? 7) || (Square.rank forward_square =? 0) then
            map (fun promo_type =>
                   Move.mk square forward_square piece None (Some promo_type) false false)
                promotion_types
          else
            Move.mk square forward_square piece None None false false ::
            (if Square.rank square =? start_rank then
               (* on the start rank the rank two ahead is 3 or 4 *)
               let two_forward_square :=
                 Square.mk (Square.file square) (Square.rank square + 2 * direction) in
               match Board.get_piece (GameState.board state) two_forward_square with
               | None => [Move.mk square two_forward_square piece None None false false]
               | Some _ => []
               end
             else [])
      | Some _ => []
      end
    else [] in
  moves ++
  flat_map (fun file_offset =>
    let capture_file := Square.file square + file_offset in
    let capture_rank := Square.rank square + direction in
    if in_bounds capture_file capture_rank then
      let capture_square := Square.mk capture_file capture_rank in
      let target_piece := Board.get_piece (GameState.board state) capture_square in
      if match target_piece with
         | Some target => bool_decide (Piece.color target <> Piece.color piece)
         | None => false
         end
      then
        if (Square.rank capture_square =? 7) || (Square.rank capture_square =? 0) then
          map (fun promo_type =>
                 Move.mk square capture_square piece target_piece (Some promo_type)
                   false false)
              promotion_types
        else [Move.mk square capture_square piece target_piece None false false]
      else if match GameState.en_passant_target state with
              | Some target => bool_decide (capture_square = target)
              | None => false
              end
      then
        let captured_pawn_square :=
          Square.mk (Square.file capture_square) (Square.rank square) in
        let captured_pawn :=
          Board.get_piece (GameState.board state) captured_pawn_square in
        [Move.mk square capture_square piece captured_pawn None false true]
      else []
    else []) [-1; 1].

(** A fixed list of offsets, each tried in turn: knight and king steps. *)
Definition step_moves (state : GameState) (square : Square) (piece : Piece)
    (offsets : list (Z * Z)) : list Move :=
  flat_map (fun '(file_offset, rank_offset) =>
    let target_file := Square.file square + file_offset in
    let target_rank := Square.rank square + rank_offset in
    if in_bounds target_file target_rank then
      let target_square := Square.mk target_file target_rank in
      let target_piece := Board.get_piece (GameState.board state) target_square in
      if match target_piece with
         | None => true
         | Some target => bool_decide (Piece.color target <> Piece.color piece)
         end
      then [Move.mk square target_square piece target_piece None false false]
      else []
    else []) offsets.

Definition knight_offsets : list (Z * Z) :=
  [(2, 1); (2, -1); (-2, 1); (-2, -1); (1, 2); (1, -2); (-1, 2); (-1, -2)].

Definition _generate_knight_moves (state : GameState) (square : Square) (piece : Piece)
    : list Move :=
  step_moves state square piece knight_offsets.

(** The [while True] loop of [_generate_sliding_moves]; it leaves through
    a [break] within eight rounds, the fuel given below. *)
Fixpoint _generate_sliding_moves_loop (fuel : nat) (state : GameState)
    (square : Square) (piece : Piece) (file_dir rank_dir current_file current_rank : Z)
    : list Move :=
  match fuel with
  | O => []
  | S fuel =>
      if negb (in_bounds current_file current_rank) then []
      else
        let target_square := Square.mk current_file current_rank in
        match Board.get_piece (GameState.board state) target_square with
        | None =>
            Move.mk square target_square piece None None false false ::
            _generate_sliding_moves_loop fuel state square piece file_dir rank_dir
              (current_file + file_dir) (current_rank + rank_dir)
        | Some target =>
            if decide (Piece.color target <> Piece.color piece) then
              [Move.mk square target_square piece (Some target) None false false]
            else []
        end
  end.

Definition _generate_sliding_moves (state : GameState) (square : Square) (piece : Piece)
    (file_dir rank_dir : Z) : list Move :=
  _generate_sliding_moves_loop 8 state square piece file_dir rank_dir
    (Square.file square + file_dir) (Square.rank square + rank_dir).

Definition bishop_directions : list (Z * Z) := [(1, 1); (1, -1); (-1, 1); (-1, -1)].

Definition rook_directions : list (Z * Z) := [(1, 0); (-1, 0); (0, 1); (0, -1)].

Definition queen_directions : list (Z * Z) :=
  [(1, 0); (-1, 0); (0, 1); (0, -1); (1, 1); (1, -1); (-1, 1); (-1, -1)].

Definition _generate_bishop_moves (state : GameState) (square : Square) (piece : Piece)
    : list Move :=
  flat_map (fun '(file_dir, rank_dir) =>
    _generate_sliding_moves state square piece file_dir rank_dir) bishop_directions.

Definition _generate_rook_moves (state : GameState) (square : Square) (piece : Piece)
    : list Move :=
  flat_map (fun '(file_dir, rank_dir) =>
    _generate_sliding_moves state square piece file_dir rank_dir) rook_directions.

Definition _generate_queen_moves (state : GameState) (square : Square) (piece : Piece)
    : list Move :=
  flat_map (fun '(file_dir, rank_dir) =>
    _generate_sliding_moves state square piece file_dir rank_dir) queen_directions.

(** One wing of [_generate_castling_moves]: the right is held, the king is
    on [king_start_square], the squares of [between] are empty and a rook
    of the king's colour stands on [rook_square]. *)
Definition castling_wing (state : GameState) (square : Square) (piece : Piece)
    (right : bool) (king_start_square : Square) (between : list Square)
    (rook_square to_square : Square) (rook_color : Color) : list Move :=
  if right && bool_decide (square = king_start_square) then
    if forallb (fun sq =>
         match Board.get_piece (GameState.board state) sq with
         | None => true
         | Some _ => false
         end) between
    then
      match Board.get_piece (GameState.board state) rook_square with
      | Some rook =>
          if bool_decide (Piece.piece_type rook = ROOK) &&
             bool_decide (Piece.color rook = rook_color)
          then [Move.mk square to_square piece None None true false]
          else []
      | None => []
      end
    else []
  else [].

Definition _generate_castling_moves (state : GameState) (square : Square) (piece : Piece)
    : list Move :=
  let rights := GameState.castling_rights state in
  if decide (Piece.color piece = WHITE) then
    let king_start_square := Square.mk 4 0 in
    castling_wing state square piece (CastlingRights.white_kingside rights)
      king_start_square [Square.mk 5 0; Square.mk 6 0]
      (Square.mk 7 0) (Square.mk 6 0) WHITE ++
    castling_wing state square piece (CastlingRights.white_queenside rights)
      king_start_square [Square.mk 1 0; Square.mk 2 0; Square.mk 3 0]
      (Square.mk 0 0) (Square.mk 2 0) WHITE
  else
    let king_start_square := Square.mk 4 7 in
    castling_wing state square piece (CastlingRights.black_kingside rights)
      king_start_square [Square.mk 5 7; Square.mk 6 7]
      (Square.mk 7 7) (Square.mk 6 7) BLACK ++
    castling_wing state square piece (CastlingRights.black_queenside rights)
      king_start_square [Square.mk 1 7; Square.mk 2 7; Square.mk 3 7]
      (Square.mk 0 7) (Square.mk 2 7) BLACK.

Definition _generate_king_moves (state : GameState) (square : Square) (piece : Piece)
    : list Move :=
  step_moves state square piece queen_directions ++
  _generate_castling_moves state square piece.

Definition generate_piece_moves (state : GameState) (square : Square) : list Move :=
  match Board.get_piece (GameState.board state) square with
  | None => []
  | Some piece =>
      match Piece.piece_type piece with
      | PAWN => _generate_pawn_moves state square piece
      | KNIGHT => _generate_knight_moves state square piece
      | BISHOP => _generate_bishop_moves state square piece
      | ROOK => _generate_rook_moves state square piece
      | QUEEN => _generate_queen_moves state square piece
      | KING => _generate_king_moves state square piece
      end
  end.

Definition generate_pseudo_legal_moves (state : GameState) (color : Color) : list Move :=
  let pieces := Board.get_all_pieces (GameState.board state) color in
  flat_map (fun '(square, piece) => generate_piece_moves state square) pieces.

End MoveGenerator.

(** ** engine/move_validator.py *)

Module MoveValidator.

(** The rook's half of castling, shared by the validator's simulation and
    by the executor: the piece found in the corner is put two or three
    files inwards. *)
Definition relocate_rook (b : Board) (move : Move) : Board :=
  let rank := Square.rank (Move.from_square move) in
  if Square.file (Move.to_square move) =? 6 then
    let rook := Board.get_piece b (Square.mk 7 rank) in
    let b := Board.remove_piece b (Square.mk 7 rank) in
    Board.set_piece b (Square.mk 5 rank) rook
  else
    let rook := Board.get_piece b (Square.mk 0 rank) in
    let b := Board.remove_piece b (Square.mk 0 rank) in
    Board.set_piece b (Square.mk 3 rank) rook.

Definition with_board (state : GameState) (b : Board) : GameState :=
  GameState.mk b
    (GameState.current_player state) (GameState.castling_rights state)
    (GameState.en_passant_target state) (GameState.halfmove_clock state)
    (GameState.fullmove_number state) (GameState.move_history state)
    (GameState.position_history state) (GameState.game_mode state).

Definition _apply_move_temporarily (state : GameState) (move : Move) : GameState :=
  let temp_state := GameState.copy state in
  let b := GameState.board temp_state in
  let b := Board.remove_piece b (Move.from_square move) in
  let b :=
    if Move.is_en_passant move then
      let captured_pawn_square :=
        Square.mk (Square.file (Move.to_square move))
                  (Square.rank (Move.from_square move)) in
      Board.remove_piece b captured_pawn_square
    else b in
  let b := if Move.is_castling move then relocate_rook b move else b in
  let b :=
    match Move.promotion_piece move with
    | Some promotion =>
        let promoted_piece := Piece.mk promotion (Piece.color (Move.piece move)) in
        Board.set_piece b (Move.to_square move) (Some promoted_piece)
    | None => Board.set_piece b (Move.to_square move) (Some (Move.piece move))
    end in
  with_board temp_state b.

Definition would_leave_in_check (state : GameState) (move : Move) : result bool :=
  let temp_state := _apply_move_temporarily state move in
  CheckDetector.is_check temp_state (Piece.color (Move.piece move)).

Definition validate_castling (state : GameState) (move : Move) : result bool :=
  try! in_check := CheckDetector.is_check state (Piece.color (Move.piece move)) in
  if in_check then Ok false
  else
    let king_file := Square.file (Move.from_square move) in
    let target_file := Square.file (Move.to_square move) in
    let rank := Square.rank (Move.from_square move) in
    try! intermediate_square :=
      (if target_file >? king_file then Square.__init__ (king_file + 1) rank
       else Square.__init__ (king_file - 1) rank) in
    let opponent_color := Color.opposite (Piece.color (Move.piece move)) in
    try! attacked :=
      CheckDetector.is_square_attacked state intermediate_square opponent_color in
    if attacked then Ok false
    else
      try! leaves := would_leave_in_check state move in
      Ok (negb leaves).

Definition validate_en_passant (state : GameState) (move : Move) : result bool :=
  if match GameState.en_passant_target state with
     | None => true
     | Some target => bool_decide (Move.to_square move <> target)
     end
  then Ok false
  else
    try! leaves := would_leave_in_check state move in
    Ok (negb leaves).

Definition is_legal_move (state : GameState) (move : Move) : result bool :=
  if Move.is_castling move then validate_castling state move
  else if Move.is_en_passant move then validate_en_passant state move
  else
    try! leaves := would_leave_in_check state move in
    Ok (negb leaves).

(** The filtering [for] loop, used by [filter_legal_moves] and again by
    the engine's [get_legal_moves]. *)
Fixpoint filter_legal_moves (state : GameState) (pseudo_legal_moves : list Move)
    : result (list Move) :=
  match pseudo_legal_moves with
  | [] => Ok []
  | move :: rest =>
      try! legal := is_legal_move state move in
      try! legal_moves := filter_legal_moves state rest in
      Ok (if legal then move :: legal_moves else legal_moves)
  end.

End MoveValidator.

(** ** engine/chess_engine.py *)

Module ChessEngine.

Section Engine.
Context `{BuiltinHash}.

Definition initialize_game (mode : GameMode) : GameState := GameState.new_game mode.

Definition _execute_normal_move (b : Board) (move : Move) : Board :=
  match Move.promotion_piece move with
  | Some promotion =>
      let promoted_piece := Piece.mk promotion (Piece.color (Move.piece move)) in
      Board.set_piece b (Move.to_square move) (Some promoted_piece)
  | None => Board.set_piece b (Move.to_square move) (Some (Move.piece move))
  end.

Definition _execute_castling (b : Board) (move : Move) : Board :=
  let b := Board.set_piece b (Move.to_square move) (Some (Move.piece move)) in
  MoveValidator.relocate_rook b move.

Definition _execute_en_passant (b : Board) (move : Move) : Board :=
  let b := Board.set_piece b (Move.to_square move) (Some (Move.piece move)) in
  let captured_pawn_square :=
    Square.mk (Square.file (Move.to_square move))
              (Square.rank (Move.from_square move)) in
  Board.remove_piece b captured_pawn_square.

Definition _calculate_en_passant_target (move : Move) : result (option Square) :=
  if decide (Piece.piece_type (Move.piece move) <> PAWN) then Ok None
  else
    let rank_diff :=
      Z.abs (Square.rank (Move.to_square move) - Square.rank (Move.from_square move)) in
    if negb (rank_diff =? 2) then Ok None
    else if decide (Piece.color (Move.piece move) = WHITE) then
      try! target := Square.__init__ (Square.file (Move.from_square move))
                       (Square.rank (Move.from_square move) + 1) in
      Ok (Some target)
    else
      try! target := Square.__init__ (Square.file (Move.from_square move))
                       (Square.rank (Move.from_square move) - 1) in
      Ok (Some target).

Definition execute_move (state : GameState) (move : Move) : result GameState :=
  let new_state := GameState.copy state in
  let b := Board.remove_piece (GameState.board new_state) (Move.from_square move) in
  let b :=
    if Move.is_castling move then _execute_castling b move
    else if Move.is_en_passant move then _execute_en_passant b move
    else _execute_normal_move b move in
  let rights :=
    CastlingRights.revoke_for_piece (GameState.castling_rights new_state)
      (Piece.piece_type (Move.piece move)) (Piece.color (Move.piece move))
      (Move.from_square move) in
  let rights :=
    match Move.captured_piece move with
    | Some captured =>
        if decide (Piece.piece_type captured = ROOK) then
          CastlingRights.revoke_for_rook_capture rights (Move.to_square move)
        else rights
    | None => rights
    end in
  try! en_passant_target := _calculate_en_passant_target move in
  let halfmove_clock :=
    if bool_decide (Piece.piece_type (Move.piece move) = PAWN) ||
       match Move.captured_piece move with Some _ => true | None => false end
    then 0
    else GameState.halfmove_clock new_state + 1 in
  let fullmove_number :=
    if decide (GameState.current_player state = BLACK)
    then GameState.fullmove_number new_state + 1
    else GameState.fullmove_number new_state in
  let move_history := GameState.move_history new_state ++ [move] in
  let current_player := Color.opposite (GameState.current_player state) in
  let new_state :=
    GameState.mk b current_player rights en_passant_target halfmove_clock
      fullmove_number move_history (GameState.position_history new_state)
      (GameState.game_mode new_state) in
  Ok (GameState.mk b current_player rights en_passant_target halfmove_clock
        fullmove_number move_history
        (GameState.position_history new_state ++
           [GameState.compute_position_hash new_state])
        (GameState.game_mode new_state)).

Definition get_legal_moves (state : GameState) (color : Color) : result (list Move) :=
  let pseudo_legal_moves := MoveGenerator.generate_pseudo_legal_moves state color in
  MoveValidator.filter_legal_moves state pseudo_legal_moves.

Definition is_legal_move (state : GameState) (move : Move) : result bool :=
  MoveValidator.is_legal_move state move.

Definition is_checkmate (state : GameState) : result bool :=
  try! in_check :=
    CheckDetector.is_check state (GameState.current_player state) in
  if negb in_check then Ok false
  else
    try! legal_moves := get_legal_moves state (GameState.current_player state) in
    Ok (length legal_moves =? 0)%nat.

Definition is_stalemate (state : GameState) : result bool :=
  try! in_check :=
    CheckDetector.is_check state (GameState.current_player state) in
  if in_check then Ok false
  else
    try! legal_moves := get_legal_moves state (GameState.current_player state) in
    Ok (length legal_moves =? 0)%nat.

Definition is_threefold_repetition (state : GameState) : bool :=
  if (length (GameState.position_history state) <? 3)%nat then false
  else
    let current_position_hash := GameState.compute_position_hash state in
    let count :=
      length (filter (fun h => h = current_position_hash)
                     (GameState.position_history state)) in
    (3 <=? count)%nat.

Definition is_fifty_move_rule (state : GameState) : bool :=
  100 <=? GameState.halfmove_clock state.

(** The [counts] dictionary of [_count_pieces_by_type]: one entry per
    piece type and the entry ['total']. *)
Record piece_counts : Type := mk_counts {
  count_of : PieceType -> Z;
  total : Z
}.

Definition _count_pieces_by_type (pieces : list (Square * Piece)) : piece_counts :=
  fold_left (fun counts item =>
    let piece := snd item in
    mk_counts
      (fun key => if decide (key = Piece.piece_type piece)
                  then count_of counts key + 1 else count_of counts key)
      (total counts + 1))
    pieces (mk_counts (fun _ => 0) 0).

Definition _find_piece_square (pieces : list (Square * Piece)) (piece_type : PieceType)
    : option Square :=
  match List.find (fun item =>
          bool_decide (Piece.piece_type (snd item) = piece_type)) pieces with
  | Some item => Some (fst item)
  | None => None
  end.

Definition is_insufficient_material (state : GameState) : bool :=
  let white_pieces := Board.get_all_pieces (GameState.board state) WHITE in
  let black_pieces := Board.get_all_pieces (GameState.board state) BLACK in
  let white_counts := _count_pieces_by_type white_pieces in
  let black_counts := _count_pieces_by_type black_pieces in
  if (total white_counts =? 1) && (total black_counts =? 1) then true
  else if (total white_counts =? 2) && (count_of white_counts BISHOP =? 1) &&
          (total black_counts =? 1) then true
  else if (total black_counts =? 2) && (count_of black_counts BISHOP =? 1) &&
          (total white_counts =? 1) then true
  else if (total white_counts =? 2) && (count_of white_counts KNIGHT =? 1) &&
          (total black_counts =? 1) then true
  else if (total black_counts =? 2) && (count_of black_counts KNIGHT =? 1) &&
          (total white_counts =? 1) then true
  else if (total white_counts =? 2) && (count_of white_counts BISHOP =? 1) &&
          (total black_counts =? 2) && (count_of black_counts BISHOP =? 1) then
    match _find_piece_square white_pieces BISHOP,
          _find_piece_square black_pieces BISHOP with
    | Some white_bishop_square, Some black_bishop_square =>
        let white_square_color :=
          (Square.file white_bishop_square + Square.rank white_bishop_square) mod 2 in
        let black_square_color :=
          (Square.file black_bishop_square + Square.rank black_bishop_square) mod 2 in
        if white_square_color =? black_square_color then true else false
    | _, _ => false
    end
  else false.

Definition is_draw (state : GameState) : result bool :=
  try! stalemate := is_stalemate state in
  if stalemate then Ok true
  else if is_threefold_repetition state then Ok true
  else if is_fifty_move_rule state then Ok true
  else Ok (is_insufficient_material state).

Definition _get_disambiguation (state : GameState) (move : Move)
    : result (bool * bool) :=
  if bool_decide (Piece.piece_type (Move.piece move) = PAWN) ||
     bool_decide (Piece.piece_type (Move.piece move) = KING) then Ok (false, false)
  else if Move.is_castling move then Ok (false, false)
  else
    try! all_legal_moves := get_legal_moves state (GameState.current_player state) in
    let same_destination_moves :=
      List.filter (fun other_move =>
        bool_decide (Piece.piece_type (Move.piece other_move) =
                     Piece.piece_type (Move.piece move)) &&
        bool_decide (Move.to_square other_move = Move.to_square move) &&
        bool_decide (Move.from_square other_move <> Move.from_square move))
        all_legal_moves in
    match same_destination_moves with
    | [] => Ok (false, false)
    | _ :: _ =>
        let file_unique :=
          negb (existsb (fun other_move =>
                  Square.file (Move.from_square other_move) =?
                  Square.file (Move.from_square move)) same_destination_moves) in
        if file_unique then Ok (true, false)
        else
          let rank_unique :=
            negb (existsb (fun other_move =>
                    Square.rank (Move.from_square other_move) =?
                    Square.rank (Move.from_square move)) same_destination_moves) in
          if rank_unique then Ok (false, true) else Ok (true, true)
    end.

Definition get_algebraic_notation (state : GameState) (move : Move)
    : result (lookup string) :=
  try! new_state := execute_move state move in
  try! is_check :=
    CheckDetector.is_check new_state (GameState.current_player new_state) in
  try! is_checkmate := (if is_check then is_checkmate new_state else Ok false) in
  try! flags := _get_disambiguation state move in
  Ok (Move.to_algebraic_notation move is_check is_checkmate (fst flags) (snd flags)).

End Engine.

End ChessEngine.

(** ** ai/ai_opponent.py *)

Module AIOpponent.

Section Opponent.
Context `{BuiltinHash}.

(** The [PIECE_VALUES] dictionary; every piece type is a key. *)
Definition PIECE_VALUES (key : PieceType) : Z :=
  match key with
  | PAWN => 1 | KNIGHT => 3 | BISHOP => 3 | ROOK => 5 | QUEEN => 9 | KING => 0
  end.

(** [sum(PIECE_VALUES[piece.piece_type] for piece in pieces.values())]. *)
Definition material (pieces : list (Square * Piece)) : Z :=
  fold_left (fun acc item => acc + PIECE_VALUES (Piece.piece_type (snd item)))
    pieces 0.

Definition evaluate_position (state : GameState) : Z :=
  let current_pieces :=
    Board.get_all_pieces (GameState.board state) (GameState.current_player state) in
  let opponent_pieces :=
    Board.get_all_pieces (GameState.board state)
      (Color.opposite (GameState.current_player state)) in
  let current_material := material current_pieces in
  let opponent_material := material opponent_pieces in
  current_material - opponent_material.

Fixpoint find_checkmate_in_one (state : GameState) (legal_moves : list Move)
    : result (option Move) :=
  match legal_moves with
  | [] => Ok None
  | move :: rest =>
      try! new_state := ChessEngine.execute_move state move in
      try! mate := ChessEngine.is_checkmate new_state in
      if mate then Ok (Some move) else find_checkmate_in_one state rest
  end.

Definition _is_hanging (state : GameState) (square : Square) : result bool :=
  match Board.get_piece (GameState.board state) square with
  | None => Ok false
  | Some _ =>
      try! opponent_moves :=
        ChessEngine.get_legal_moves state (GameState.current_player state) in
      Ok (existsb (fun move =>
            bool_decide (Move.to_square move = square) &&
            match Move.captured_piece move with Some _ => true | None => false end)
          opponent_moves)
  end.

End Opponent.

End AIOpponent.

(** ** game_controller.py: the helpers that do not touch the controller's
    own fields *)

Module GameController.

Definition _find_move (legal_moves : list Move) (from_square to_square : Square)
    : option Move :=
  List.find (fun move =>
    bool_decide (Move.from_square move = from_square) &&
    bool_decide (Move.to_square move = to_square)) legal_moves.

Definition _is_promotion_move (move : Move) : bool :=
  if decide (Piece.piece_type (Move.piece move) <> PAWN) then false
  else if decide (Piece.color (Move.piece move) = WHITE) then
    Square.rank (Move.to_square move) =? 7
  else Square.rank (Move.to_square move) =? 0.

(** [self.state] is passed in: [None] while no game is in progress. *)
Definition _get_legal_moves_for_square (state : option GameState) (square : Square)
    : result (list Move) :=
  match state with
  | None => Ok []
  | Some state =>
      match Board.get_piece (GameState.board state) square with
      | None => Ok []
      | Some _ =>
          try! all_legal_moves :=
            ChessEngine.get_legal_moves state (GameState.current_player state) in
          Ok (List.filter (fun move =>
                bool_decide (Move.from_square move = square)) all_legal_moves)
      end
  end.

Section Results.
Context `{BuiltinHash}.

(** [color.value.capitalize()]: the values of the enum are "white" and
    "black". *)
Definition capitalized_value (c : Color) : string :=
  match c with WHITE => "White" | BLACK => "Black" end.

(** [self.state] is passed in, a game being in progress. *)
Definition _get_draw_reason (state : GameState) : result string :=
  try! stalemate := ChessEngine.is_stalemate state in
  if stalemate then Ok "stalemate"%string
  else if ChessEngine.is_threefold_repetition state then
    Ok "threefold repetition"%string
  else if ChessEngine.is_fifty_move_rule state then Ok "fifty-move rule"%string
  else if ChessEngine.is_insufficient_material state then
    Ok "insufficient material"%string
  else Ok "unknown reason"%string.

Definition _get_game_result (state : GameState) : result string :=
  try! checkmate := ChessEngine.is_checkmate state in
  if checkmate then
    let winner := Color.opposite (GameState.current_player state) in
    Ok ("Checkmate! " ++ capitalized_value winner ++ " wins!")%string
  else
    try! draw := ChessEngine.is_draw state in
    if draw then
      try! draw_reason := _get_draw_reason state in
      Ok ("Draw by " ++ draw_reason)%string
    else Ok "Game in progress"%string.

End Results.

End GameController.


(** * Auxiliary notions *)

(** ** Notions used in the statements about the detector *)

(** Two positions hold the same pieces except, possibly, on [hole]. *)
Definition same_except (hole : Square) (s1 s2 : GameState) : Prop :=
  forall sq, valid_square sq -> sq <> hole ->
    Board.get_piece (GameState.board s1) sq = Board.get_piece (GameState.board s2) sq.

Definition step_of (diff : Z) : Z :=
  if diff =? 0 then 0 else if diff >? 0 then 1 else -1.

Definition aligned (from_square to_square : Square) : Prop :=
  let file_diff := Square.file to_square - Square.file from_square in
  let rank_diff := Square.rank to_square - Square.rank from_square in
  (Z.abs file_diff = Z.abs rank_diff /\ file_diff <> 0) \/
  (file_diff = 0 /\ rank_diff <> 0) \/ (file_diff <> 0 /\ rank_diff = 0).

(** ** Notions used in the statements about generated moves *)

Definition pawn_direction (c : Color) : Z := if decide (c = WHITE) then 1 else -1.

Definition pawn_start_rank (c : Color) : Z := if decide (c = WHITE) then 1 else 6.

(** What every move generated for the piece [p] standing on [square] looks
    like. *)
Record generated_from (state : GameState) (square : Square) (p : Piece) (m : Move)
    : Prop := {
  gen_from : Move.from_square m = square;
  gen_piece : Move.piece m = p;
  gen_to_valid : valid_square (Move.to_square m);
  gen_castling :
    Move.is_castling m = true ->
    Piece.piece_type p = KING /\ Move.is_en_passant m = false /\
    Move.promotion_piece m = None /\ Move.captured_piece m = None /\
    Square.file square = 4 /\
    Square.rank (Move.to_square m) = Square.rank square /\
    (Square.file (Move.to_square m) = 6 \/ Square.file (Move.to_square m) = 2);
  gen_en_passant :
    Move.is_en_passant m = true ->
    Piece.piece_type p = PAWN /\ Move.promotion_piece m = None /\
    GameState.en_passant_target state = Some (Move.to_square m) /\
    Square.rank (Move.to_square m) = Square.rank square + pawn_direction (Piece.color p);
  gen_promotion :
    forall t, Move.promotion_piece m = Some t -> In t MoveGenerator.promotion_types;
  gen_pawn :
    Piece.piece_type p = PAWN ->
    Square.rank (Move.to_square m) = Square.rank square + pawn_direction (Piece.color p) \/
    (Square.rank (Move.to_square m) =
       Square.rank square + 2 * pawn_direction (Piece.color p) /\
     Square.rank square = pawn_start_rank (Piece.color p))
}.

Definition count_castling (l : list Move) : nat :=
  length (List.filter Move.is_castling l).

Definition home_rank (c : Color) : Z := if decide (c = WHITE) then 0 else 7.

Definition holds_both_rights (rights : CastlingRights) (c : Color) : Prop :=
  if decide (c = WHITE) then
    CastlingRights.white_kingside rights = true /\
    CastlingRights.white_queenside rights = true
  else
    CastlingRights.black_kingside rights = true /\
    CastlingRights.black_queenside rights = true.

(** King and both rooks of [c] on their home squares, nothing between
    them, and both castling rights of [c] still held. *)
Record castling_ready (p : GameState) (c : Color) : Prop := {
  ready_king :
    Board.get_piece (GameState.board p) (Square.mk 4 (home_rank c)) =
    Some (Piece.mk KING c);
  ready_rook_a :
    Board.get_piece (GameState.board p) (Square.mk 0 (home_rank c)) =
    Some (Piece.mk ROOK c);
  ready_rook_h :
    Board.get_piece (GameState.board p) (Square.mk 7 (home_rank c)) =
    Some (Piece.mk ROOK c);
  ready_b : Board.get_piece (GameState.board p) (Square.mk 1 (home_rank c)) = None;
  ready_c : Board.get_piece (GameState.board p) (Square.mk 2 (home_rank c)) = None;
  ready_d : Board.get_piece (GameState.board p) (Square.mk 3 (home_rank c)) = None;
  ready_f : Board.get_piece (GameState.board p) (Square.mk 5 (home_rank c)) = None;
  ready_g : Board.get_piece (GameState.board p) (Square.mk 6 (home_rank c)) = None;
  ready_rights : holds_both_rights (GameState.castling_rights p) c
}.

Definition no_king (p : GameState) (c : Color) : Prop :=
  forall sq, valid_square sq ->
    Board.get_piece (GameState.board p) sq <> Some (Piece.mk KING c).

(** ** The board and the counters the executor computes *)

Definition temp_board (b : Board) (m : Move) : Board :=
  let b := Board.remove_piece (Board.copy b) (Move.from_square m) in
  let b :=
    if Move.is_en_passant m then
      Board.remove_piece b
        (Square.mk (Square.file (Move.to_square m)) (Square.rank (Move.from_square m)))
    else b in
  let b := if Move.is_castling m then MoveValidator.relocate_rook b m else b in
  match Move.promotion_piece m with
  | Some promotion =>
      Board.set_piece b (Move.to_square m)
        (Some (Piece.mk promotion (Piece.color (Move.piece m))))
  | None => Board.set_piece b (Move.to_square m) (Some (Move.piece m))
  end.

Definition exec_board (b : Board) (m : Move) : Board :=
  let b := Board.remove_piece (Board.copy b) (Move.from_square m) in
  if Move.is_castling m then ChessEngine._execute_castling b m
  else if Move.is_en_passant m then ChessEngine._execute_en_passant b m
  else ChessEngine._execute_normal_move b m.

Definition exec_rights (rights : CastlingRights) (m : Move) : CastlingRights :=
  let rights :=
    CastlingRights.revoke_for_piece rights
      (Piece.piece_type (Move.piece m)) (Piece.color (Move.piece m))
      (Move.from_square m) in
  match Move.captured_piece m with
  | Some captured =>
      if decide (Piece.piece_type captured = ROOK) then
        CastlingRights.revoke_for_rook_capture rights (Move.to_square m)
      else rights
  | None => rights
  end.

Definition exec_halfmove_clock (clock : Z) (m : Move) : Z :=
  if bool_decide (Piece.piece_type (Move.piece m) = PAWN) ||
     match Move.captured_piece m with Some _ => true | None => false end
  then 0 else clock + 1.

Definition exec_fullmove_number (player : Color) (number : Z) : Z :=
  if decide (player = BLACK) then number + 1 else number.

Definition is_pawn_move (m : Move) : bool :=
  bool_decide (Piece.piece_type (Move.piece m) = PAWN).

Definition is_capture (m : Move) : bool :=
  match Move.captured_piece m with Some _ => true | None => false end.

(** The moved piece is a pawn and its rank changed by exactly two. *)
Definition moved_two_ranks (m : Move) : bool :=
  is_pawn_move m &&
  (Z.abs (Square.rank (Move.to_square m) - Square.rank (Move.from_square m)) =? 2).

(** The square between origin and destination, on the origin's file. *)
Definition square_passed_over (m : Move) : Square :=
  Square.mk (Square.file (Move.from_square m))
    ((Square.rank (Move.from_square m) + Square.rank (Move.to_square m)) / 2).

Definition expected_en_passant_target (m : Move) : option Square :=
  if moved_two_ranks m then Some (square_passed_over m) else None.

(** A pawn that changes rank by two does so towards the opponent. *)
Definition double_step_is_forward (m : Move) : Prop :=
  moved_two_ranks m = true ->
  Square.rank (Move.to_square m) =
  Square.rank (Move.from_square m) + 2 * pawn_direction (Piece.color (Move.piece m)).

(** Each right held in [after] was held in [before]. *)
Definition rights_le (after before : CastlingRights) : Prop :=
  (CastlingRights.white_kingside after = true ->
   CastlingRights.white_kingside before = true) /\
  (CastlingRights.white_queenside after = true ->
   CastlingRights.white_queenside before = true) /\
  (CastlingRights.black_kingside after = true ->
   CastlingRights.black_kingside before = true) /\
  (CastlingRights.black_queenside after = true ->
   CastlingRights.black_queenside before = true).

Definition kingside (rights : CastlingRights) (c : Color) : bool :=
  if decide (c = WHITE) then CastlingRights.white_kingside rights
  else CastlingRights.black_kingside rights.

Definition queenside (rights : CastlingRights) (c : Color) : bool :=
  if decide (c = WHITE) then CastlingRights.white_queenside rights
  else CastlingRights.black_queenside rights.

(** ** Playing a sequence of moves *)

Definition occurrences (x : Z) (l : list Z) : nat :=
  length (filter (fun h => h = x) l).

Definition Nf3 : Move :=
  Move.mk (Square.mk 6 0) (Square.mk 5 2) (Piece.mk KNIGHT WHITE) None None false false.

Definition Nf6 : Move :=
  Move.mk (Square.mk 6 7) (Square.mk 5 5) (Piece.mk KNIGHT BLACK) None None false false.

Definition Ng1 : Move :=
  Move.mk (Square.mk 5 2) (Square.mk 6 0) (Piece.mk KNIGHT WHITE) None None false false.

Definition Ng8 : Move :=
  Move.mk (Square.mk 5 5) (Square.mk 6 7) (Piece.mk KNIGHT BLACK) None None false false.

Definition knight_cycle : list Move := [Nf3; Nf6; Ng1; Ng8].

Section Play.
Context `{BuiltinHash}.

(** Executing a sequence of moves, one after the other. *)
Fixpoint play (p : GameState) (moves : list Move) : result GameState :=
  match moves with
  | [] => Ok p
  | m :: rest =>
      try! p' := ChessEngine.execute_move p m in
      play p' rest
  end.

(** The four fields the hash reads. *)
Definition position_of (p : GameState)
    : Board * Color * CastlingRights * option Square :=
  (GameState.board p, GameState.current_player p,
   GameState.castling_rights p, GameState.en_passant_target p).

End Play.

(** ** Notation of squares *)

(** Malformed the way the notation is usually described: wrong length, a
    file character outside a-h, or a rank character outside 1-8. *)
Definition malformed_as_written (s : string) : bool :=
  match s with
  | String c0 (String c1 EmptyString) =>
      negb (Square.char_in c0 "abcdefgh") || negb (Square.char_in c1 "12345678")
  | _ => true
  end.

(** Malformed for [from_algebraic]: the file character is looked up after
    lower-casing, so A-H pass as well. *)
Definition malformed (s : string) : bool :=
  match s with
  | String c0 (String c1 EmptyString) =>
      negb (Square.char_in (Square.lower c0) "abcdefgh") ||
      negb (Square.char_in c1 "12345678")
  | _ => true
  end.

Definition lower_file (s : string) : string :=
  match s with
  | String c0 rest => String (Square.lower c0) rest
  | EmptyString => EmptyString
  end.

(** ** Sample positions and moves *)

(** One possible run of the interpreter's hash. *)
Definition sample_hash : BuiltinHash := {|
  hash_piece_tuple := fun pt c =>
    match pt with
    | PAWN => 11 | KNIGHT => 23 | BISHOP => 37 | ROOK => 53 | QUEEN => 71 | KING => 97
    end * 1009 + match c with WHITE => 5 | BLACK => 9 end;
  hash_color := fun c => match c with WHITE => 1234577 | BLACK => -7654321 end
|}.

Definition sample_start : GameState := @GameState.new_game sample_hash MULTIPLAYER.

(** The built-in hash of CPython 3.11.2 on a 64-bit build (siphash13)
    started with [PYTHONHASHSEED=157]: the values of
    [hash((piece_type, color))] and of [hash(color)]. *)
Definition seed_157_hash : BuiltinHash := {|
  hash_piece_tuple := fun pt c =>
    match pt, c with
    | PAWN, WHITE => 1697468090487932901
    | PAWN, BLACK => 8264314126852893831
    | KNIGHT, WHITE => -7557080749622573156
    | KNIGHT, BLACK => -5388592096241980354
    | BISHOP, WHITE => 7662951675465260230
    | BISHOP, BLACK => -8615303744863698584
    | ROOK, WHITE => -5001040701596071060
    | ROOK, BLACK => -2832552048215478258
    | QUEEN, WHITE => 1120895211714197526
    | QUEEN, BLACK => 7687741248079158456
    | KING, WHITE => 7376463711381198755
    | KING, BLACK => -4503434325963391931
    end;
  hash_color := fun c =>
    match c with WHITE => 1788956455136682835 | BLACK => 697462666975565223 end
|}.

(** The initial position in that run of the interpreter. *)
Definition seed_157_start : GameState := @GameState.new_game seed_157_hash MULTIPLAYER.

Definition e2e4 : Move :=
  Move.mk (Square.mk 4 1) (Square.mk 4 3) (Piece.mk PAWN WHITE) None None false false.

Definition e2e3 : Move :=
  Move.mk (Square.mk 4 1) (Square.mk 4 2) (Piece.mk PAWN WHITE) None None false false.

Definition place (b : Board) (f r : Z) (pt : PieceType) (c : Color) : Board :=
  Board.set_piece b (Square.mk f r) (Some (Piece.mk pt c)).

(** White has a pawn on e2 and no king; Black has a king on e8. *)
Definition kingless_state : GameState :=
  GameState.mk (place (place Board.__init__ 4 1 PAWN WHITE) 4 7 KING BLACK)
    WHITE (CastlingRights.mk false false false false) None 0 1 [] [] MULTIPLAYER.

(** White king e1 and rooks a1, h1 with both rights; Black king e8. *)
Definition castle_state : GameState :=
  GameState.mk
    (place (place (place (place Board.__init__ 4 0 KING WHITE) 0 0 ROOK WHITE)
              7 0 ROOK WHITE) 4 7 KING BLACK)
    WHITE (CastlingRights.mk true true false false) None 0 1 [] [] MULTIPLAYER.

Definition castle_kingside : Move :=
  Move.mk (Square.mk 4 0) (Square.mk 6 0) (Piece.mk KING WHITE) None None true false.

(** The starting position with other clocks, history and mode. *)
Definition sample_start_later : GameState :=
  GameState.mk (GameState.board sample_start) WHITE
    (CastlingRights.mk true true true true) None 42 17 [e2e4; e2e3] [1; 2; 3]
    SINGLE_PLAYER.

(** The position after the move e2-e4 from [sample_start]. *)
Definition after_e2e4 : GameState :=
  match @ChessEngine.execute_move sample_hash sample_start e2e4 with
  | Ok p => p
  | Raise _ => sample_start
  end.

(** The position after the move e2-e3 from [sample_start]. *)
Definition after_e2e3 : GameState :=
  match @ChessEngine.execute_move sample_hash sample_start e2e3 with
  | Ok p => p
  | Raise _ => sample_start
  end.

(** The position after the four knight moves from [sample_start]. *)
Definition after_knight_cycle : GameState :=
  match @play sample_hash sample_start knight_cycle with
  | Ok p => p
  | Raise _ => sample_start
  end.

(** The two kings alone, on e1 and e8. *)
Definition bare_kings_state : GameState :=
  GameState.mk (place (place Board.__init__ 4 0 KING WHITE) 4 7 KING BLACK)
    WHITE (CastlingRights.mk false false false false) None 0 1 [] [] MULTIPLAYER.

(** ** Lines of the board *)

(** [to_square] lies [d] steps from [from_square] in the direction the
    walk of [_is_path_clear] takes, and the squares passed on the way are
    empty. *)
Definition clear_line (state : GameState) (from_square to_square : Square) : Prop :=
  let fs := step_of (Square.file to_square - Square.file from_square) in
  let rs := step_of (Square.rank to_square - Square.rank from_square) in
  exists d, 1 <= d /\
    Square.file to_square = Square.file from_square + d * fs /\
    Square.rank to_square = Square.rank from_square + d * rs /\
    forall k, 1 <= k < d ->
      Board.get_piece (GameState.board state)
        (Square.mk (Square.file from_square + k * fs)
                   (Square.rank from_square + k * rs)) = None.

(** The piece [p] on [from_square] attacks [target]: the movement pattern
    of its type, with a clear line for the sliding pieces. *)
Definition attacks (state : GameState) (from_square : Square) (p : Piece)
    (target : Square) : Prop :=
  let file_diff := Square.file target - Square.file from_square in
  let rank_diff := Square.rank target - Square.rank from_square in
  match Piece.piece_type p with
  | PAWN => rank_diff = pawn_direction (Piece.color p) /\ Z.abs file_diff = 1
  | KNIGHT =>
      (Z.abs file_diff = 2 /\ Z.abs rank_diff = 1) \/
      (Z.abs file_diff = 1 /\ Z.abs rank_diff = 2)
  | BISHOP =>
      Z.abs file_diff = Z.abs rank_diff /\ file_diff <> 0 /\
      clear_line state from_square target
  | ROOK =>
      ((file_diff = 0 /\ rank_diff <> 0) \/ (file_diff <> 0 /\ rank_diff = 0)) /\
      clear_line state from_square target
  | QUEEN =>
      ((Z.abs file_diff = Z.abs rank_diff /\ file_diff <> 0) \/
       (file_diff = 0 /\ rank_diff <> 0) \/ (file_diff <> 0 /\ rank_diff = 0)) /\
      clear_line state from_square target
  | KING =>
      Z.abs file_diff <= 1 /\ Z.abs rank_diff <= 1 /\
      (file_diff <> 0 \/ rank_diff <> 0)
  end.

(** ** What a generated move records *)

(** The capture and promotion fields of a move generated for the piece
    [p] standing on [square]. *)
Record generated_fields (state : GameState) (square : Square) (p : Piece) (m : Move)
    : Prop := {
  fields_capture :
    Move.is_en_passant m = false ->
    Move.captured_piece m =
      Board.get_piece (GameState.board state) (Move.to_square m);
  fields_not_own :
    Move.is_en_passant m = false ->
    forall q, Move.captured_piece m = Some q -> Piece.color q <> Piece.color p;
  fields_en_passant :
    Move.is_en_passant m = true ->
    Move.captured_piece m =
      Board.get_piece (GameState.board state)
        (Square.mk (Square.file (Move.to_square m)) (Square.rank square));
  fields_promotion_pawn :
    Piece.piece_type p = PAWN -> Move.is_en_passant m = false ->
    (Move.promotion_piece m <> None <->
     Square.rank (Move.to_square m) = 7 \/ Square.rank (Move.to_square m) = 0);
  fields_promotion_other :
    Piece.piece_type p <> PAWN -> Move.promotion_piece m = None
}.

(** ** What the legality filter and the executor are compared with *)

(** [is_legal_move] returned true. *)
Definition passes_validation (state : GameState) (m : Move) : bool :=
  match MoveValidator.is_legal_move state m with
  | Ok true => true
  | _ => false
  end.

(** What stands on square [s] after the move [m] was carried out on the
    board [b]: the moved (or promoted) piece on the destination, nothing
    on the origin, nothing where a pawn was taken en passant, the rook
    moved from its corner next to the king when castling, and what [b]
    held everywhere else. *)
Definition content_after (b : Board) (m : Move) (s : Square) : option Piece :=
  let rank := Square.rank (Move.from_square m) in
  if decide (s = Move.to_square m) then
    match Move.promotion_piece m with
    | Some promotion => Some (Piece.mk promotion (Piece.color (Move.piece m)))
    | None => Some (Move.piece m)
    end
  else if decide (s = Move.from_square m) then None
  else if Move.is_castling m then
    if Square.file (Move.to_square m) =? 6 then
      if decide (s = Square.mk 7 rank) then None
      else if decide (s = Square.mk 5 rank) then Board.get_piece b (Square.mk 7 rank)
      else Board.get_piece b s
    else
      if decide (s = Square.mk 0 rank) then None
      else if decide (s = Square.mk 3 rank) then Board.get_piece b (Square.mk 0 rank)
      else Board.get_piece b s
  else if Move.is_en_passant m &&
          bool_decide (s = Square.mk (Square.file (Move.to_square m)) rank)
  then None
  else Board.get_piece b s.

(** Neither a pawn move nor a capture. *)
Definition quiet (m : Move) : Prop := is_pawn_move m = false /\ is_capture m = false.

(** ** Counting pieces *)

(** The number of items of [pieces] whose piece has type [k]. *)
Definition count_type (k : PieceType) (pieces : list (Square * Piece)) : nat :=
  length (List.filter (fun item => bool_decide (Piece.piece_type (snd item) = k))
                      pieces).

(** One round of the loop of [_count_pieces_by_type]. *)
Definition count_step (counts : ChessEngine.piece_counts) (item : Square * Piece)
    : ChessEngine.piece_counts :=
  ChessEngine.mk_counts
    (fun key => if decide (key = Piece.piece_type (snd item))
                then ChessEngine.count_of counts key + 1
                else ChessEngine.count_of counts key)
    (ChessEngine.total counts + 1).

(** One side's pieces when the material is insufficient: a single piece,
    or two of which exactly one is a bishop, or exactly one a knight. *)
Definition small_side (pieces : list (Square * Piece)) : Prop :=
  length pieces = 1%nat \/
  (length pieces = 2%nat /\
   (count_type BISHOP pieces = 1%nat \/ count_type KNIGHT pieces = 1%nat)).

(** A king of colour [c] stands on the board. *)
Definition has_king (state : GameState) (c : Color) : Prop :=
  exists sq, valid_square sq /\
    Board.get_piece (GameState.board state) sq = Some (Piece.mk KING c).

(** ** Evaluation *)

(** The state [s] with the other side to move. *)
Definition with_opponent_to_move (s : GameState) : GameState :=
  GameState.mk (GameState.board s) (Color.opposite (GameState.current_player s))
    (GameState.castling_rights s) (GameState.en_passant_target s)
    (GameState.halfmove_clock s) (GameState.fullmove_number s)
    (GameState.move_history s) (GameState.position_history s)
    (GameState.game_mode s).

(** The material of a list of pieces, by the number of pieces of each
    type. *)
Definition material_by_count (pieces : list (Square * Piece)) : Z :=
  Z.of_nat (count_type PAWN pieces) + 3 * Z.of_nat (count_type KNIGHT pieces) +
  3 * Z.of_nat (count_type BISHOP pieces) + 5 * Z.of_nat (count_type ROOK pieces) +
  9 * Z.of_nat (count_type QUEEN pieces).

(** ** Moves that only relocate a piece *)

(** The move of [p] from [square] to [target] that records what stands on
    [target] as captured and nothing else. *)
Definition plain_move (state : GameState) (square : Square) (p : Piece)
    (target : Square) : Move :=
  Move.mk square target p (Board.get_piece (GameState.board state) target)
    None false false.

(** [target] holds no piece of the colour of [p]. *)
Definition may_land (state : GameState) (p : Piece) (target : Square) : Prop :=
  forall q, Board.get_piece (GameState.board state) target = Some q ->
            Piece.color q <> Piece.color p.

(** ** Pawn moves *)

(** The four kinds of pawn move from [square]: one step ahead onto an
    empty square; two steps ahead from the start rank over two empty
    squares; a diagonal step onto a piece of the other colour; a diagonal
    step onto the en-passant target when no piece of the other colour
    stands there. *)
Definition pawn_push (state : GameState) (square : Square) (p : Piece) (m : Move)
    : Prop :=
  Square.file (Move.to_square m) = Square.file square /\
  Square.rank (Move.to_square m) = Square.rank square + pawn_direction (Piece.color p) /\
  Board.get_piece (GameState.board state) (Move.to_square m) = None /\
  Move.captured_piece m = None /\ Move.is_en_passant m = false.

Definition pawn_double_push (state : GameState) (square : Square) (p : Piece)
    (m : Move) : Prop :=
  Square.file (Move.to_square m) = Square.file square /\
  Square.rank (Move.to_square m) =
    Square.rank square + 2 * pawn_direction (Piece.color p) /\
  Square.rank square = pawn_start_rank (Piece.color p) /\
  Board.get_piece (GameState.board state)
    (Square.mk (Square.file square)
               (Square.rank square + pawn_direction (Piece.color p))) = None /\
  Board.get_piece (GameState.board state) (Move.to_square m) = None /\
  Move.captured_piece m = None /\ Move.is_en_passant m = false.

Definition pawn_capture (state : GameState) (square : Square) (p : Piece) (m : Move)
    : Prop :=
  Z.abs (Square.file (Move.to_square m) - Square.file square) = 1 /\
  Square.rank (Move.to_square m) = Square.rank square + pawn_direction (Piece.color p) /\
  (exists q, Board.get_piece (GameState.board state) (Move.to_square m) = Some q /\
             Piece.color q <> Piece.color p /\ Move.captured_piece m = Some q) /\
  Move.is_en_passant m = false.

Definition pawn_en_passant (state : GameState) (square : Square) (p : Piece)
    (m : Move) : Prop :=
  Z.abs (Square.file (Move.to_square m) - Square.file square) = 1 /\
  Square.rank (Move.to_square m) = Square.rank square + pawn_direction (Piece.color p) /\
  (forall q, Board.get_piece (GameState.board state) (Move.to_square m) = Some q ->
             Piece.color q = Piece.color p) /\
  GameState.en_passant_target state = Some (Move.to_square m) /\
  Move.captured_piece m =
    Board.get_piece (GameState.board state)
      (Square.mk (Square.file (Move.to_square m)) (Square.rank square)) /\
  Move.is_en_passant m = true.

(** The promotion field of a pawn move: none for an en-passant capture and
    away from the first and last ranks, one of the four promotion types on
    those ranks. *)
Definition pawn_promotion (m : Move) : Prop :=
  if Move.is_en_passant m then Move.promotion_piece m = None
  else if bool_decide (Square.rank (Move.to_square m) = 7 \/
                       Square.rank (Move.to_square m) = 0)
  then exists t, In t MoveGenerator.promotion_types /\ Move.promotion_piece m = Some t
  else Move.promotion_piece m = None.

Record pawn_move (state : GameState) (square : Square) (p : Piece) (m : Move)
    : Prop := {
  pawn_from : Move.from_square m = square;
  pawn_piece : Move.piece m = p;
  pawn_not_castling : Move.is_castling m = false;
  pawn_to_valid : valid_square (Move.to_square m);
  pawn_promotes : pawn_promotion m;
  pawn_kind :
    pawn_push state square p m \/ pawn_double_push state square p m \/
    pawn_capture state square p m \/ pawn_en_passant state square p m
}.

(** ** Castling moves *)

(** The castling move [m] of colour [c] as the generator offers it: the
    king of [c] goes from the e-file square of its home rank to the g-file
    with the king-side right held, the f- and g-file squares empty and a
    rook of [c] in the h-file corner, or to the c-file with the queen-side
    right held, the b-, c- and d-file squares empty and a rook of [c] in
    the a-file corner. *)
Definition castling_move (state : GameState) (c : Color) (m : Move) : Prop :=
  let at_home file :=
    Board.get_piece (GameState.board state) (Square.mk file (home_rank c)) in
  Move.from_square m = Square.mk 4 (home_rank c) /\
  at_home 4 = Some (Move.piece m) /\
  Piece.piece_type (Move.piece m) = KING /\ Piece.color (Move.piece m) = c /\
  Move.captured_piece m = None /\ Move.promotion_piece m = None /\
  Move.is_en_passant m = false /\
  ((Move.to_square m = Square.mk 6 (home_rank c) /\
    kingside (GameState.castling_rights state) c = true /\
    at_home 5 = None /\ at_home 6 = None /\ at_home 7 = Some (Piece.mk ROOK c)) \/
   (Move.to_square m = Square.mk 2 (home_rank c) /\
    queenside (GameState.castling_rights state) c = true /\
    at_home 1 = None /\ at_home 2 = None /\ at_home 3 = None /\
    at_home 0 = Some (Piece.mk ROOK c))).

(** ** The position after castling *)

(** The square the king passes over: next to its origin, on the side of
    its destination. *)
Definition passed_over (m : Move) : Square :=
  Square.mk
    (if Square.file (Move.to_square m) >? Square.file (Move.from_square m)
     then Square.file (Move.from_square m) + 1
     else Square.file (Move.from_square m) - 1)
    (Square.rank (Move.from_square m)).

(** The corner the castling rook comes from: on the king's rank, on the
    side of the king's destination. *)
Definition rook_corner (m : Move) : Square :=
  Square.mk
    (if Square.file (Move.to_square m) >? Square.file (Move.from_square m)
     then 7 else 0)
    (Square.rank (Move.from_square m)).

(** [castled] holds the position [p] after the castling move [m] of colour
    [c], king and rook relocated: the king stands on its destination, the
    rook on the square the king passed over, the king's origin and the
    rook's corner are empty, and every other square holds what it holds
    in [p]. *)
Record castled_position (p : GameState) (c : Color) (m : Move) (castled : GameState)
    : Prop := {
  castled_wf : board_wf (GameState.board castled);
  castled_king :
    Board.get_piece (GameState.board castled) (Move.to_square m) =
    Some (Piece.mk KING c);
  castled_rook :
    Board.get_piece (GameState.board castled) (passed_over m) =
    Some (Piece.mk ROOK c);
  castled_origin :
    Board.get_piece (GameState.board castled) (Move.from_square m) = None;
  castled_corner :
    Board.get_piece (GameState.board castled) (rook_corner m) = None;
  castled_rest :
    forall sq, valid_square sq ->
      sq <> Move.to_square m -> sq <> passed_over m ->
      sq <> Move.from_square m -> sq <> rook_corner m ->
      Board.get_piece (GameState.board castled) sq =
      Board.get_piece (GameState.board p) sq
}.

(** * Properties *)

(** ** The result monad *)

Lemma bind_Ok {A B : Type} (r : result A) (k : A -> result B) (b : B) :
  bind r k = Ok b -> exists a, r = Ok a /\ k a = Ok b.
Proof. destruct r as [a|e]; simpl; [eauto | discriminate]. Qed.

(** ** Squares *)

Lemma Square_init_Ok (f r : Z) (sq : Square) :
  Square.__init__ f r = Ok sq -> sq = Square.mk f r /\ valid_square sq.
Proof.
  unfold Square.__init__, valid_square.
  destruct (0 <=? f) eqn:E1, (f <=? 7) eqn:E2; simpl; try discriminate.
  destruct (0 <=? r) eqn:E3, (r <=? 7) eqn:E4; simpl; try discriminate.
  intros [= <-]; simpl. split; [reflexivity | lia].
Qed.

Lemma Square_init_valid (f r : Z) :
  0 <= f <= 7 -> 0 <= r <= 7 -> Square.__init__ f r = Ok (Square.mk f r).
Proof.
  intros Hf Hr. unfold Square.__init__.
  destruct (0 <=? f) eqn:E1, (f <=? 7) eqn:E2; simpl; try lia.
  destruct (0 <=? r) eqn:E3, (r <=? 7) eqn:E4; simpl; try lia.
  reflexivity.
Qed.

Lemma Square_init_Raise (f r : Z) (e : exn) :
  Square.__init__ f r = Raise e -> ~ (0 <= f <= 7 /\ 0 <= r <= 7).
Proof.
  intros Hr [Hf Hk]. rewrite Square_init_valid in Hr by assumption. discriminate.
Qed.

Lemma in_bounds_true (f r : Z) :
  in_bounds f r = true <-> valid_square (Square.mk f r).
Proof. unfold in_bounds, valid_square; simpl. lia. Qed.

Lemma in_all_squares (sq : Square) : In sq all_squares <-> valid_square sq.
Proof.
  unfold all_squares, valid_square. rewrite in_flat_map. split.
  - intros (r & Hr & Hin). apply in_map_iff in Hin as (f & <- & Hf).
    apply list_elem_of_In, elem_of_seqZ in Hr.
    apply list_elem_of_In, elem_of_seqZ in Hf. simpl. lia.
  - intros [Hf Hr]. exists (Square.rank sq). split.
    + apply list_elem_of_In, elem_of_seqZ. lia.
    + apply in_map_iff. exists (Square.file sq). split.
      * destruct sq; reflexivity.
      * apply list_elem_of_In, elem_of_seqZ. lia.
Qed.

(** ** The board as an 8x8 array *)

Lemma board_wf_row (b : Board) (sq : Square) :
  board_wf b -> valid_square sq ->
  exists row, Board.grid b !! Z.to_nat (Square.rank sq) = Some row /\
              length row = 8%nat.
Proof.
  intros [Hlen Hrows] [_ Hr].
  destruct (lookup_lt_is_Some_2 (Board.grid b) (Z.to_nat (Square.rank sq)))
    as [row Hrow]; [lia|].
  exists row. split; [assumption|].
  rewrite Forall_lookup in Hrows. eauto.
Qed.

Lemma set_piece_wf (b : Board) (sq : Square) (p : option Piece) :
  board_wf b -> board_wf (Board.set_piece b sq p).
Proof.
  intros [Hlen Hrows]. unfold board_wf, Board.set_piece; simpl. split.
  - by rewrite length_alter.
  - apply Forall_alter; [assumption|]. intros row _ Hrow.
    rewrite Forall_lookup in Hrows.
    rewrite length_insert. eauto.
Qed.

Lemma remove_piece_wf (b : Board) (sq : Square) :
  board_wf b -> board_wf (Board.remove_piece b sq).
Proof. apply set_piece_wf. Qed.

Lemma get_set_piece (b : Board) (sq s : Square) (p : option Piece) :
  board_wf b -> valid_square sq -> valid_square s ->
  Board.get_piece (Board.set_piece b sq p) s =
  if decide (s = sq) then p else Board.get_piece b s.
Proof.
  intros Hwf Hsq Hs.
  destruct (board_wf_row b sq Hwf Hsq) as (row & Hrow & Hlen).
  unfold Board.get_piece, Board.set_piece; simpl.
  destruct (decide (s = sq)) as [-> | Hne].
  - rewrite list_lookup_alter_eq, Hrow; simpl.
    rewrite list_lookup_insert_eq; [reflexivity|].
    destruct Hsq as [Hf _]. lia.
  - destruct (decide (Square.rank s = Square.rank sq)) as [Er|Er].
    + rewrite Er, list_lookup_alter_eq, Hrow; simpl.
      rewrite list_lookup_insert_ne; [reflexivity|].
      intros E. apply Hne. destruct s, sq, Hs, Hsq; simpl in *.
      f_equal; lia.
    + rewrite list_lookup_alter_ne; [reflexivity|].
      destruct Hs, Hsq. lia.
Qed.

Lemma get_remove_piece (b : Board) (sq s : Square) :
  board_wf b -> valid_square sq -> valid_square s ->
  Board.get_piece (Board.remove_piece b sq) s =
  if decide (s = sq) then None else Board.get_piece b s.
Proof. apply get_set_piece. Qed.

(** Two 8x8 boards that hold the same piece on every square are equal. *)
Lemma board_ext (b1 b2 : Board) :
  board_wf b1 -> board_wf b2 ->
  (forall sq, valid_square sq -> Board.get_piece b1 sq = Board.get_piece b2 sq) ->
  b1 = b2.
Proof.
  intros Hwf1 Hwf2 Hget. destruct b1 as [g1], b2 as [g2]. f_equal.
  apply list_eq. intros i.
  destruct (decide (i < 8)%nat) as [Hi|Hi].
  - pose (sq0 := Square.mk 0 (Z.of_nat i)).
    assert (Hv0 : valid_square sq0) by (unfold valid_square; simpl; lia).
    destruct (board_wf_row _ sq0 Hwf1 Hv0) as (row1 & Hrow1 & Hlen1).
    destruct (board_wf_row _ sq0 Hwf2 Hv0) as (row2 & Hrow2 & Hlen2).
    simpl in Hrow1, Hrow2. rewrite Nat2Z.id in Hrow1, Hrow2.
    rewrite Hrow1, Hrow2. f_equal.
    apply list_eq. intros j.
    destruct (decide (j < 8)%nat) as [Hj|Hj].
    + pose (sq := Square.mk (Z.of_nat j) (Z.of_nat i)).
      assert (Hv : valid_square sq) by (unfold valid_square; simpl; lia).
      specialize (Hget sq Hv). unfold Board.get_piece in Hget; simpl in Hget.
      rewrite !Nat2Z.id, Hrow1, Hrow2 in Hget.
      destruct (lookup_lt_is_Some_2 row1 j) as [x1 Hx1]; [lia|].
      destruct (lookup_lt_is_Some_2 row2 j) as [x2 Hx2]; [lia|].
      rewrite Hx1, Hx2 in Hget |- *. by subst.
    + rewrite !lookup_ge_None_2 by lia. reflexivity.
  - destruct Hwf1 as [Hl1 _], Hwf2 as [Hl2 _]; simpl in *.
    rewrite !lookup_ge_None_2 by lia. reflexivity.
Qed.

Lemma board_init_wf : board_wf Board.__init__.
Proof.
  split; [reflexivity|]. unfold Board.__init__; simpl.
  repeat constructor.
Qed.

Lemma copy_step_wf (self : Board) (l : list Square) (nb : Board) :
  board_wf nb ->
  board_wf (fold_left (fun new_board square =>
    match Board.get_piece self square with
    | Some piece =>
        Board.set_piece new_board square
          (Some (Piece.mk (Piece.piece_type piece) (Piece.color piece)))
    | None => Board.set_piece new_board square None
    end) l nb).
Proof.
  revert nb. induction l as [|sq l IH]; intros nb Hwf; simpl; [assumption|].
  apply IH. destruct (Board.get_piece self sq); by apply set_piece_wf.
Qed.

Lemma copy_step_get (self : Board) (l : list Square) (nb : Board) (s : Square) :
  board_wf nb -> Forall valid_square l -> valid_square s ->
  Board.get_piece nb s = Board.get_piece self s \/ In s l ->
  Board.get_piece (fold_left (fun new_board square =>
    match Board.get_piece self square with
    | Some piece =>
        Board.set_piece new_board square
          (Some (Piece.mk (Piece.piece_type piece) (Piece.color piece)))
    | None => Board.set_piece new_board square None
    end) l nb) s = Board.get_piece self s.
Proof.
  revert nb. induction l as [|sq l IH]; intros nb Hwf Hl Hs Hor; simpl.
  - destruct Hor as [E|[]]. exact E.
  - inversion Hl as [|? ? Hsq Hl']; subst.
    apply IH; try assumption.
    + destruct (Board.get_piece self sq); by apply set_piece_wf.
    + destruct (decide (s = sq)) as [-> | Hne].
      * left. destruct (Board.get_piece self sq) as [[pt c]|];
          rewrite get_set_piece by assumption;
          rewrite decide_True by reflexivity; reflexivity.
      * destruct Hor as [E|[E|Hin]]; [left | congruence | right; assumption].
        destruct (Board.get_piece self sq);
          rewrite get_set_piece by assumption;
          rewrite decide_False by assumption; exact E.
Qed.

Lemma Forall_valid_all_squares : Forall valid_square all_squares.
Proof. apply List.Forall_forall. intros sq. apply in_all_squares. Qed.

(** Copying an 8x8 board rebuilds the same board. *)
Lemma board_copy_id (b : Board) : board_wf b -> Board.copy b = b.
Proof.
  intros Hwf. apply board_ext; [|assumption|].
  - apply copy_step_wf, board_init_wf.
  - intros sq Hsq. unfold Board.copy.
    apply copy_step_get; try assumption.
    + apply board_init_wf.
    + apply Forall_valid_all_squares.
    + right. by apply in_all_squares.
Qed.

Lemma castling_rights_copy_id (r : CastlingRights) : CastlingRights.copy r = r.
Proof. by destruct r. Qed.

Lemma game_state_copy_id (s : GameState) :
  board_wf (GameState.board s) -> GameState.copy s = s.
Proof.
  intros Hwf. destruct s; unfold GameState.copy; simpl in *.
  by rewrite board_copy_id, castling_rights_copy_id.
Qed.

(** ** The attack detector *)

Lemma _is_path_clear_loop_same_except (fuel : nat) (s1 s2 : GameState)
    (to_square : Square) (fs rs cf cr : Z) :
  same_except to_square s1 s2 ->
  CheckDetector._is_path_clear_loop fuel s1 to_square fs rs cf cr =
  CheckDetector._is_path_clear_loop fuel s2 to_square fs rs cf cr.
Proof.
  intros Hsame. revert cf cr.
  induction fuel as [|fuel IH]; intros cf cr; simpl; [reflexivity|].
  destruct (negb (cf =? Square.file to_square) || negb (cr =? Square.rank to_square))
    eqn:Hcond; [|reflexivity].
  destruct (Square.__init__ cf cr) as [sq|e] eqn:Hsq; [|reflexivity].
  apply Square_init_Ok in Hsq as [-> Hvalid].
  rewrite (Hsame (Square.mk cf cr) Hvalid).
  - destruct (Board.get_piece (GameState.board s2) (Square.mk cf cr));
      [reflexivity | apply IH].
  - intros E. rewrite <- E in Hcond. simpl in Hcond. lia.
Qed.

(** Fuel: the loop of [_is_path_clear] stops by itself within eight
    rounds, whatever the two squares are. *)
Lemma _is_path_clear_loop_fuel_aux (state : GameState) (from_square to_square : Square)
    (fs rs : Z) (n : nat) :
  valid_square from_square -> valid_square to_square ->
  (-1 <= fs <= 1) -> (-1 <= rs <= 1) ->
  (fs = 0 -> rs = 0 -> from_square = to_square) ->
  forall (k : Z) (fuel : nat),
    1 <= k -> 8 <= k + Z.of_nat n -> (n < fuel)%nat ->
    exists r, CheckDetector._is_path_clear_loop fuel state to_square fs rs
                (Square.file from_square + k * fs)
                (Square.rank from_square + k * rs) = Some r.
Proof.
  intros Hfrom Hto Hfs Hrs Hzero.
  induction n as [|n IH]; intros k fuel Hk Hkn Hfuel;
    (destruct fuel as [|fuel]; [lia|]); simpl.
  - destruct (negb _ || negb _) eqn:Hcond; [|eauto].
    destruct (Square.__init__ _ _) as [sq|e] eqn:Hsq; [|eauto].
    exfalso. apply Square_init_Ok in Hsq as [-> [Hf Hr]]. simpl in Hf, Hr.
    destruct Hfrom, Hto.
    assert (fs = 0) by nia. assert (rs = 0) by nia.
    rewrite <- Hzero in Hcond by assumption. subst. lia.
  - destruct (negb _ || negb _) eqn:Hcond; [|eauto].
    destruct (Square.__init__ _ _) as [sq|e] eqn:Hsq; [|eauto].
    destruct (Board.get_piece _ sq); [eauto|].
    replace (Square.file from_square + k * fs + fs)
      with (Square.file from_square + (k + 1) * fs) by lia.
    replace (Square.rank from_square + k * rs + rs)
      with (Square.rank from_square + (k + 1) * rs) by lia.
    apply IH; lia.
Qed.

Lemma step_of_cases (d : Z) :
  (d = 0 /\ step_of d = 0) \/ (0 < d /\ step_of d = 1) \/ (d < 0 /\ step_of d = -1).
Proof. unfold step_of. repeat case_match; lia. Qed.

Lemma _is_path_clear_loop_fuel (state : GameState) (from_square to_square : Square) :
  valid_square from_square -> valid_square to_square ->
  exists r,
    CheckDetector._is_path_clear_loop 8 state to_square
      (step_of (Square.file to_square - Square.file from_square))
      (step_of (Square.rank to_square - Square.rank from_square))
      (Square.file from_square + step_of (Square.file to_square - Square.file from_square))
      (Square.rank from_square + step_of (Square.rank to_square - Square.rank from_square))
    = Some r /\
    CheckDetector._is_path_clear state from_square to_square = r.
Proof.
  intros Hfrom Hto.
  set (fs := step_of (Square.file to_square - Square.file from_square)).
  set (rs := step_of (Square.rank to_square - Square.rank from_square)).
  pose proof (step_of_cases (Square.file to_square - Square.file from_square)) as Cf.
  pose proof (step_of_cases (Square.rank to_square - Square.rank from_square)) as Cr.
  fold fs in Cf. fold rs in Cr.
  assert (Hfs : -1 <= fs <= 1) by lia.
  assert (Hrs : -1 <= rs <= 1) by lia.
  assert (Hzero : fs = 0 -> rs = 0 -> from_square = to_square).
  { intros H1 H2. destruct from_square, to_square; simpl in *. f_equal; lia. }
  destruct (_is_path_clear_loop_fuel_aux state from_square to_square fs rs 7
              Hfrom Hto Hfs Hrs Hzero 1 8%nat) as [r Hr]; try lia.
  rewrite !Z.mul_1_l in Hr. exists r. split; [exact Hr|].
  unfold CheckDetector._is_path_clear.
  fold (step_of (Square.file to_square - Square.file from_square)).
  fold (step_of (Square.rank to_square - Square.rank from_square)).
  fold fs rs. by rewrite Hr.
Qed.

(** On a line between two squares of the board the loop never leaves the
    board: it returns, and does not raise. *)
Lemma _is_path_clear_loop_aligned (state : GameState) (from_square to_square : Square)
    (fs rs d : Z) (n : nat) :
  valid_square from_square -> valid_square to_square ->
  (-1 <= fs <= 1) -> (-1 <= rs <= 1) -> (fs <> 0 \/ rs <> 0) ->
  Square.file to_square = Square.file from_square + d * fs ->
  Square.rank to_square = Square.rank from_square + d * rs ->
  forall (k : Z) (fuel : nat),
    1 <= k <= d -> d - k <= Z.of_nat n -> (n < fuel)%nat ->
    exists b, CheckDetector._is_path_clear_loop fuel state to_square fs rs
                (Square.file from_square + k * fs)
                (Square.rank from_square + k * rs) = Some (Ok b).
Proof.
  intros Hfrom Hto Hfs Hrs Hstep Hfile Hrank.
  assert (Cf : fs = -1 \/ fs = 0 \/ fs = 1) by lia.
  assert (Cr : rs = -1 \/ rs = 0 \/ rs = 1) by lia.
  induction n as [|n IH]; intros k fuel Hk Hkn Hfuel;
    (destruct fuel as [|fuel]; [lia|]); simpl.
  - destruct (negb _ || negb _) eqn:Hcond; [|eauto].
    exfalso. assert (k = d) by lia. subst k.
    rewrite Hfile, Hrank in Hcond. lia.
  - destruct (negb _ || negb _) eqn:Hcond; [|eauto].
    assert (Hlt : k < d).
    { destruct (decide (k = d)) as [-> | ]; [|lia].
      rewrite Hfile, Hrank in Hcond. lia. }
    rewrite Square_init_valid.
    + destruct (Board.get_piece _ _); [eauto|].
      replace (Square.file from_square + k * fs + fs)
        with (Square.file from_square + (k + 1) * fs) by lia.
      replace (Square.rank from_square + k * rs + rs)
        with (Square.rank from_square + (k + 1) * rs) by lia.
      apply IH; lia.
    + destruct Hfrom as [Hf _], Hto as [Ht _]. rewrite Hfile in Ht.
      destruct Cf as [-> | [-> | ->]]; lia.
    + destruct Hfrom as [_ Hf], Hto as [_ Ht]. rewrite Hrank in Ht.
      destruct Cr as [-> | [-> | ->]]; lia.
Qed.

Lemma _is_path_clear_aligned (state : GameState) (from_square to_square : Square) :
  valid_square from_square -> valid_square to_square ->
  aligned from_square to_square ->
  exists b, CheckDetector._is_path_clear state from_square to_square = Ok b.
Proof.
  intros Hfrom Hto Hal.
  destruct (_is_path_clear_loop_fuel state from_square to_square Hfrom Hto)
    as (r & Hloop & <-).
  pose proof (step_of_cases (Square.file to_square - Square.file from_square)) as Cf.
  pose proof (step_of_cases (Square.rank to_square - Square.rank from_square)) as Cr.
  set (fs := step_of (Square.file to_square - Square.file from_square)) in *.
  set (rs := step_of (Square.rank to_square - Square.rank from_square)) in *.
  set (d := Z.max (Z.abs (Square.file to_square - Square.file from_square))
                  (Z.abs (Square.rank to_square - Square.rank from_square))).
  destruct (_is_path_clear_loop_aligned state from_square to_square fs rs d 7
              Hfrom Hto) with (k := 1) (fuel := 8%nat) as [b Hb];
    try (unfold aligned in Hal; destruct Hfrom, Hto; subst d; lia).
  rewrite !Z.mul_1_l in Hb. rewrite Hb in Hloop. injection Hloop as <-. eauto.
Qed.

Lemma _can_bishop_attack_total (state : GameState) (from_square target_square : Square) :
  valid_square from_square -> valid_square target_square ->
  exists b, CheckDetector._can_bishop_attack state from_square target_square = Ok b.
Proof.
  intros Hfrom Hto. unfold CheckDetector._can_bishop_attack.
  destruct (negb _ || _) eqn:Hcond; [eauto|].
  apply _is_path_clear_aligned; try assumption.
  left. lia.
Qed.

Lemma _can_rook_attack_total (state : GameState) (from_square target_square : Square) :
  valid_square from_square -> valid_square target_square ->
  exists b, CheckDetector._can_rook_attack state from_square target_square = Ok b.
Proof.
  intros Hfrom Hto. unfold CheckDetector._can_rook_attack.
  destruct (negb _) eqn:Hcond; [eauto|].
  apply _is_path_clear_aligned; try assumption.
  right. lia.
Qed.

Lemma _can_piece_attack_square_total (state : GameState) (from_square : Square)
    (piece : Piece) (target_square : Square) :
  valid_square from_square -> valid_square target_square ->
  exists b,
    CheckDetector._can_piece_attack_square state from_square piece target_square = Ok b.
Proof.
  intros Hfrom Hto. unfold CheckDetector._can_piece_attack_square.
  destruct (Piece.piece_type piece); eauto using
    _can_bishop_attack_total, _can_rook_attack_total.
  unfold CheckDetector._can_queen_attack.
  destruct (_can_bishop_attack_total state from_square target_square Hfrom Hto)
    as [[] ->]; simpl; eauto using _can_rook_attack_total.
Qed.

Lemma in_get_all_pieces (b : Board) (c : Color) (sq : Square) (p : Piece) :
  In (sq, p) (Board.get_all_pieces b c) <->
  valid_square sq /\ Board.get_piece b sq = Some p /\ Piece.color p = c.
Proof.
  unfold Board.get_all_pieces. rewrite in_flat_map. split.
  - intros (s & Hs & Hin). apply in_all_squares in Hs.
    destruct (Board.get_piece b s) as [q|] eqn:Hq; [|destruct Hin].
    destruct (decide (Piece.color q = c)); [|destruct Hin].
    destruct Hin as [[= <- <-]|[]]. auto.
  - intros (Hv & Hget & Hc). exists sq. split; [by apply in_all_squares|].
    rewrite Hget, decide_True by assumption. by left.
Qed.

Lemma is_square_attacked_loop_total (state : GameState) (square : Square)
    (pieces : list (Square * Piece)) :
  valid_square square ->
  Forall (fun item => valid_square (fst item)) pieces ->
  exists b, CheckDetector.is_square_attacked_loop state square pieces = Ok b.
Proof.
  intros Hsq. induction 1 as [|[s p] rest Hs _ IH]; simpl; [eauto|].
  destruct (_can_piece_attack_square_total state s p square Hs Hsq) as [[] ->];
    simpl; eauto.
Qed.

(** The attack query never raises on a square of the board. *)
Lemma is_square_attacked_total (state : GameState) (square : Square) (by_color : Color) :
  valid_square square ->
  exists b, CheckDetector.is_square_attacked state square by_color = Ok b.
Proof.
  intros Hsq. apply is_square_attacked_loop_total; [assumption|].
  apply List.Forall_forall. intros [s p] Hin.
  apply in_get_all_pieces in Hin. tauto.
Qed.

Lemma find_king_position_Some (state : GameState) (c : Color) (sq : Square) :
  CheckDetector.find_king_position state c = Some sq ->
  valid_square sq /\
  Board.get_piece (GameState.board state) sq = Some (Piece.mk KING c).
Proof.
  unfold CheckDetector.find_king_position. intros Hfind.
  apply find_some in Hfind as [Hin Hp]. split; [by apply in_all_squares|].
  destruct (Board.get_piece _ sq) as [[pt pc]|]; [|discriminate].
  simpl in Hp. apply andb_prop in Hp as [H1 H2].
  apply bool_decide_eq_true in H1, H2. by subst.
Qed.

Lemma find_king_position_None (state : GameState) (c : Color) :
  CheckDetector.find_king_position state c = None <->
  forall sq, valid_square sq ->
    Board.get_piece (GameState.board state) sq <> Some (Piece.mk KING c).
Proof.
  split.
  - intros Hfind sq Hsq Hget. unfold CheckDetector.find_king_position in Hfind.
    apply in_all_squares in Hsq.
    pose proof (find_none _ _ Hfind sq Hsq) as Hf. simpl in Hf.
    rewrite Hget in Hf. simpl in Hf.
    rewrite !bool_decide_eq_true_2 in Hf by reflexivity. discriminate.
  - intros Hno. destruct (CheckDetector.find_king_position state c) as [sq|] eqn:E;
      [|reflexivity].
    apply find_king_position_Some in E as [Hv Hget]. by destruct (Hno sq Hv).
Qed.

(** The check query never raises. *)
Lemma is_check_total (state : GameState) (c : Color) :
  exists b, CheckDetector.is_check state c = Ok b.
Proof.
  unfold CheckDetector.is_check.
  destruct (CheckDetector.find_king_position state c) as [sq|] eqn:E; [|eauto].
  apply find_king_position_Some in E as [Hv _].
  by apply is_square_attacked_total.
Qed.

(** A piece does not attack the square it stands on. *)
Lemma _can_piece_attack_square_self (state : GameState) (sq : Square) (p : Piece) :
  CheckDetector._can_piece_attack_square state sq p sq = Ok false.
Proof.
  unfold CheckDetector._can_piece_attack_square, CheckDetector._can_queen_attack,
    CheckDetector._can_bishop_attack, CheckDetector._can_rook_attack,
    CheckDetector._can_pawn_attack, CheckDetector._can_knight_attack,
    CheckDetector._can_king_attack.
  rewrite !Z.sub_diag. simpl.
  destruct (Piece.piece_type p); try reflexivity.
  by destruct (decide (Piece.color p = WHITE)).
Qed.

Lemma _is_path_clear_same_except (s1 s2 : GameState) (from_square to_square : Square) :
  same_except to_square s1 s2 ->
  CheckDetector._is_path_clear s1 from_square to_square =
  CheckDetector._is_path_clear s2 from_square to_square.
Proof.
  intros Hsame. unfold CheckDetector._is_path_clear.
  by rewrite (_is_path_clear_loop_same_except 8 s1 s2 to_square).
Qed.

Lemma _can_piece_attack_square_same_except (s1 s2 : GameState)
    (from_square : Square) (p : Piece) (target_square : Square) :
  same_except target_square s1 s2 ->
  CheckDetector._can_piece_attack_square s1 from_square p target_square =
  CheckDetector._can_piece_attack_square s2 from_square p target_square.
Proof.
  intros Hsame.
  unfold CheckDetector._can_piece_attack_square, CheckDetector._can_queen_attack,
    CheckDetector._can_bishop_attack, CheckDetector._can_rook_attack.
  by rewrite (_is_path_clear_same_except s1 s2 from_square target_square Hsame).
Qed.

Lemma is_square_attacked_same_except (s1 s2 : GameState) (square : Square)
    (by_color : Color) :
  valid_square square -> same_except square s1 s2 ->
  CheckDetector.is_square_attacked s1 square by_color =
  CheckDetector.is_square_attacked s2 square by_color.
Proof.
  intros Hsq Hsame.
  unfold CheckDetector.is_square_attacked, Board.get_all_pieces.
  pose proof Forall_valid_all_squares as Hall.
  induction Hall as [|s l Hs _ IH]; simpl; [reflexivity|].
  destruct (decide (s = square)) as [-> | Hne].
  - destruct (Board.get_piece (GameState.board s1) square) as [p1|];
      [destruct (decide (Piece.color p1 = by_color))|];
      (destruct (Board.get_piece (GameState.board s2) square) as [p2|];
        [destruct (decide (Piece.color p2 = by_color))|]);
      simpl; rewrite ?_can_piece_attack_square_self; simpl; exact IH.
  - rewrite (Hsame s Hs Hne).
    destruct (Board.get_piece (GameState.board s2) s) as [p|]; [|exact IH].
    destruct (decide (Piece.color p = by_color)); [|exact IH].
    simpl. rewrite (_can_piece_attack_square_same_except s1 s2 s p square Hsame).
    destruct (CheckDetector._can_piece_attack_square s2 s p square) as [[]|];
      simpl; [reflexivity | exact IH | reflexivity].
Qed.

(** The detector looks at the board only. *)
Lemma same_except_board (hole : Square) (s1 s2 : GameState) :
  GameState.board s1 = GameState.board s2 -> same_except hole s1 s2.
Proof. intros E sq _ _. by rewrite E. Qed.

Lemma find_king_position_board (s1 s2 : GameState) (c : Color) :
  GameState.board s1 = GameState.board s2 ->
  CheckDetector.find_king_position s1 c = CheckDetector.find_king_position s2 c.
Proof. intros E. unfold CheckDetector.find_king_position. by rewrite E. Qed.

Lemma is_check_board (s1 s2 : GameState) (c : Color) :
  GameState.board s1 = GameState.board s2 ->
  CheckDetector.is_check s1 c = CheckDetector.is_check s2 c.
Proof.
  intros E. unfold CheckDetector.is_check.
  rewrite (find_king_position_board s1 s2 c E).
  destruct (CheckDetector.find_king_position s2 c) as [sq|] eqn:Hk; [|reflexivity].
  apply find_king_position_Some in Hk as [Hv _].
  apply is_square_attacked_same_except; [assumption|].
  by apply same_except_board.
Qed.

(** ** The move generator *)

Ltac explode_in :=
  repeat match goal with
  | H : In _ (_ ++ _) |- _ => apply in_app_or in H as [H|H]
  | H : In _ [] |- _ => destruct H
  | H : In _ (_ :: _) |- _ => destruct H as [H|H]
  | H : In _ (if ?c then _ else _) |- _ => destruct c eqn:?
  | H : In _ (match ?x with _ => _ end) |- _ => destruct x eqn:?
  | H : In _ (map _ _) |- _ => apply in_map_iff in H as (? & H & ?)
  end.

Ltac bool_facts :=
  repeat match goal with
  | E : bool_decide _ = true |- _ => apply bool_decide_eq_true in E
  | E : bool_decide _ = false |- _ => apply bool_decide_eq_false in E
  | E : _ && _ = true |- _ => apply andb_prop in E as [? ?]
  end.

Lemma _generate_pawn_moves_shape (state : GameState) (square : Square) (p : Piece)
    (m : Move) :
  valid_square square -> Piece.piece_type p = PAWN ->
  In m (MoveGenerator._generate_pawn_moves state square p) ->
  generated_from state square p m.
Proof.
  intros [Hf Hr] Hp Hin. unfold MoveGenerator._generate_pawn_moves in Hin.
  simpl in Hin. unfold in_bounds in *.
  explode_in; repeat case_match; try discriminate; bool_facts; subst;
    constructor; simpl; try (intros; discriminate); try reflexivity;
    unfold valid_square, pawn_direction, pawn_start_rank; simpl;
    try (intros ? [= <-]; simpl; tauto);
    try (intros _; repeat split; try assumption; try congruence);
    repeat case_decide; try congruence; try lia.
Qed.

(** A plain move: no castling, no en passant, no promotion. *)
Lemma plain_move_shape (state : GameState) (square to_square : Square) (p : Piece)
    (captured : option Piece) :
  valid_square to_square -> Piece.piece_type p <> PAWN ->
  generated_from state square p
    (Move.mk square to_square p captured None false false).
Proof.
  intros Hto Hp. constructor; simpl; try reflexivity; try assumption;
    try (intros; discriminate); intros; congruence.
Qed.

Lemma step_moves_shape (state : GameState) (square : Square) (p : Piece)
    (offsets : list (Z * Z)) (m : Move) :
  Piece.piece_type p <> PAWN ->
  In m (MoveGenerator.step_moves state square p offsets) ->
  generated_from state square p m /\ Move.is_castling m = false.
Proof.
  intros Hp Hin. unfold MoveGenerator.step_moves in Hin.
  apply in_flat_map in Hin as ([fo ro] & _ & Hin).
  destruct (in_bounds _ _) eqn:Hb; [|destruct Hin].
  apply in_bounds_true in Hb.
  explode_in; subst m; (split; [by apply plain_move_shape | reflexivity]).
Qed.

Lemma _generate_sliding_moves_loop_shape (fuel : nat) (state : GameState)
    (square : Square) (p : Piece) (fd rd cf cr : Z) (m : Move) :
  Piece.piece_type p <> PAWN ->
  In m (MoveGenerator._generate_sliding_moves_loop fuel state square p fd rd cf cr) ->
  generated_from state square p m /\ Move.is_castling m = false.
Proof.
  intros Hp. revert cf cr.
  induction fuel as [|fuel IH]; intros cf cr Hin; simpl in Hin; [destruct Hin|].
  destruct (in_bounds cf cr) eqn:Hb; simpl in Hin; [|destruct Hin].
  apply in_bounds_true in Hb.
  destruct (Board.get_piece _ _) as [target|].
  - explode_in; subst m; (split; [by apply plain_move_shape | reflexivity]).
  - destruct Hin as [<-|Hin]; [|by eapply IH].
    split; [by apply plain_move_shape | reflexivity].
Qed.

(** Fuel: the sliding loop leaves through a [break] within eight rounds,
    so any larger amount of fuel gives the same list of moves. *)
Lemma _generate_sliding_moves_loop_fuel (state : GameState) (square : Square)
    (p : Piece) (fd rd : Z) :
  valid_square square -> -1 <= fd <= 1 -> -1 <= rd <= 1 -> (fd <> 0 \/ rd <> 0) ->
  forall (n m : nat) (k : Z),
    1 <= k -> 9 <= Z.of_nat n + k -> 9 <= Z.of_nat m + k ->
    MoveGenerator._generate_sliding_moves_loop n state square p fd rd
      (Square.file square + k * fd) (Square.rank square + k * rd) =
    MoveGenerator._generate_sliding_moves_loop m state square p fd rd
      (Square.file square + k * fd) (Square.rank square + k * rd).
Proof.
  intros [Hf Hr] Hfd Hrd Hdir.
  assert (Hout : forall k, 8 <= k ->
            in_bounds (Square.file square + k * fd) (Square.rank square + k * rd) = false).
  { intros k Hk. unfold in_bounds.
    assert (Cf : fd = -1 \/ fd = 0 \/ fd = 1) by lia.
    assert (Cr : rd = -1 \/ rd = 0 \/ rd = 1) by lia.
    destruct Cf as [-> | [-> | ->]], Cr as [-> | [-> | ->]]; lia. }
  induction n as [|n IH]; intros m k Hk Hn Hm.
  - destruct m as [|m]; [reflexivity|]. simpl. by rewrite Hout by lia.
  - destruct m as [|m]; simpl.
    + by rewrite Hout by lia.
    + destruct (in_bounds _ _); simpl; [|reflexivity].
      destruct (Board.get_piece _ _); [reflexivity|]. f_equal.
      replace (Square.file square + k * fd + fd)
        with (Square.file square + (k + 1) * fd) by lia.
      replace (Square.rank square + k * rd + rd)
        with (Square.rank square + (k + 1) * rd) by lia.
      apply IH; lia.
Qed.

Lemma _generate_sliding_moves_fuel (state : GameState) (square : Square)
    (p : Piece) (fd rd : Z) (n : nat) :
  valid_square square -> -1 <= fd <= 1 -> -1 <= rd <= 1 -> (fd <> 0 \/ rd <> 0) ->
  (8 <= n)%nat ->
  MoveGenerator._generate_sliding_moves_loop n state square p fd rd
    (Square.file square + fd) (Square.rank square + rd) =
  MoveGenerator._generate_sliding_moves state square p fd rd.
Proof.
  intros Hsq Hfd Hrd Hdir Hn. unfold MoveGenerator._generate_sliding_moves.
  pose proof (_generate_sliding_moves_loop_fuel state square p fd rd
                Hsq Hfd Hrd Hdir n 8%nat 1) as Hfuel.
  rewrite !Z.mul_1_l in Hfuel. apply Hfuel; lia.
Qed.

Lemma sliding_directions_shape (state : GameState) (square : Square) (p : Piece)
    (directions : list (Z * Z)) (m : Move) :
  Piece.piece_type p <> PAWN ->
  In m (flat_map (fun '(file_dir, rank_dir) =>
          MoveGenerator._generate_sliding_moves state square p file_dir rank_dir)
        directions) ->
  generated_from state square p m /\ Move.is_castling m = false.
Proof.
  intros Hp Hin. apply in_flat_map in Hin as ([fd rd] & _ & Hin).
  by eapply _generate_sliding_moves_loop_shape.
Qed.

Lemma castling_wing_shape (state : GameState) (square : Square) (p : Piece)
    (right : bool) (start : Square) (between : list Square)
    (rook_square to_square : Square) (rook_color : Color) (m : Move) :
  Piece.piece_type p = KING -> valid_square to_square ->
  Square.file start = 4 -> Square.rank to_square = Square.rank start ->
  (Square.file to_square = 6 \/ Square.file to_square = 2) ->
  In m (MoveGenerator.castling_wing state square p right start between
          rook_square to_square rook_color) ->
  generated_from state square p m /\ Move.is_castling m = true.
Proof.
  intros Hp Hto Hfile Hrank Hwing Hin. unfold MoveGenerator.castling_wing in Hin.
  explode_in; bool_facts; subst. split; [|reflexivity].
  constructor; simpl; try reflexivity; try assumption; try (intros; discriminate);
    try (intros; congruence).
  intros _. repeat split; assumption.
Qed.

Lemma _generate_castling_moves_shape (state : GameState) (square : Square) (p : Piece)
    (m : Move) :
  Piece.piece_type p = KING ->
  In m (MoveGenerator._generate_castling_moves state square p) ->
  generated_from state square p m /\ Move.is_castling m = true.
Proof.
  intros Hp Hin. unfold MoveGenerator._generate_castling_moves in Hin.
  destruct (decide (Piece.color p = WHITE));
    apply in_app_or in Hin as [Hin|Hin];
    (eapply castling_wing_shape; [exact Hp | | | | | exact Hin]);
    unfold valid_square; simpl; lia.
Qed.

Lemma generate_piece_moves_shape (state : GameState) (square : Square) (m : Move) :
  valid_square square ->
  In m (MoveGenerator.generate_piece_moves state square) ->
  exists p, Board.get_piece (GameState.board state) square = Some p /\
            generated_from state square p m.
Proof.
  intros Hsq Hin. unfold MoveGenerator.generate_piece_moves in Hin.
  destruct (Board.get_piece _ square) as [p|]; [|destruct Hin].
  exists p. split; [reflexivity|].
  destruct (Piece.piece_type p) eqn:Hp.
  - by apply _generate_pawn_moves_shape.
  - eapply step_moves_shape; [congruence | exact Hin].
  - eapply sliding_directions_shape; [congruence | exact Hin].
  - eapply sliding_directions_shape; [congruence | exact Hin].
  - eapply sliding_directions_shape; [congruence | exact Hin].
  - unfold MoveGenerator._generate_king_moves in Hin.
    apply in_app_or in Hin as [Hin|Hin].
    + eapply step_moves_shape; [congruence | exact Hin].
    + eapply _generate_castling_moves_shape; [exact Hp | exact Hin].
Qed.

(** Every pseudo-legal move of [c] moves a piece of [c] that stands on the
    board, from its square to a square of the board. *)
Lemma generate_pseudo_legal_moves_shape (state : GameState) (c : Color) (m : Move) :
  In m (MoveGenerator.generate_pseudo_legal_moves state c) ->
  valid_square (Move.from_square m) /\
  Board.get_piece (GameState.board state) (Move.from_square m) = Some (Move.piece m) /\
  Piece.color (Move.piece m) = c /\
  generated_from state (Move.from_square m) (Move.piece m) m.
Proof.
  intros Hin. unfold MoveGenerator.generate_pseudo_legal_moves in Hin.
  apply in_flat_map in Hin as ([sq p] & Hpiece & Hin).
  apply in_get_all_pieces in Hpiece as (Hv & Hget & Hc).
  apply generate_piece_moves_shape in Hin as (q & Hq & Hgen); [|assumption].
  assert (q = p) by congruence. subst q.
  rewrite (gen_from _ _ _ _ Hgen), (gen_piece _ _ _ _ Hgen).
  split; [|split; [|split]]; assumption.
Qed.

(** ** The validator's simulation and the executor's board *)

#[global] Arguments Board.copy : simpl never.
#[global] Arguments Board.set_piece : simpl never.
#[global] Arguments Board.get_piece : simpl never.
#[global] Arguments Board.remove_piece : simpl never.

Ltac solve_valid :=
  match goal with
  | |- valid_square _ =>
      first [ assumption
            | unfold valid_square in *; simpl in *; lia ]
  | |- board_wf _ =>
      repeat first [ assumption | apply set_piece_wf | apply remove_piece_wf ]
  end.

Ltac board_simp :=
  repeat first
    [ rewrite get_set_piece by solve_valid
    | rewrite get_remove_piece by solve_valid ].

Lemma relocate_rook_wf (b : Board) (m : Move) :
  board_wf b -> board_wf (MoveValidator.relocate_rook b m).
Proof.
  intros Hwf. unfold MoveValidator.relocate_rook.
  destruct (_ =? 6); solve_valid.
Qed.

Lemma _apply_move_temporarily_board (state : GameState) (m : Move) :
  GameState.board (MoveValidator._apply_move_temporarily state m) =
  temp_board (GameState.board state) m.
Proof.
  unfold MoveValidator._apply_move_temporarily, MoveValidator.with_board,
    GameState.copy, temp_board.
  cbn [GameState.board]. reflexivity.
Qed.

Lemma temp_board_wf (b : Board) (m : Move) :
  board_wf b -> board_wf (temp_board b m).
Proof.
  intros Hwf. unfold temp_board.
  rewrite board_copy_id by assumption.
  destruct (Move.promotion_piece m), (Move.is_castling m), (Move.is_en_passant m);
    repeat first [ assumption | apply set_piece_wf | apply remove_piece_wf
                 | apply relocate_rook_wf ].
Qed.

Lemma would_leave_in_check_total (state : GameState) (m : Move) :
  exists b, MoveValidator.would_leave_in_check state m = Ok b.
Proof. apply is_check_total. Qed.

Lemma is_legal_move_total (state : GameState) (c : Color) (m : Move) :
  In m (MoveGenerator.generate_pseudo_legal_moves state c) ->
  exists b, MoveValidator.is_legal_move state m = Ok b.
Proof.
  intros Hin. apply generate_pseudo_legal_moves_shape in Hin as (Hv & _ & _ & Hgen).
  unfold MoveValidator.is_legal_move.
  destruct (Move.is_castling m) eqn:Hc.
  - apply (gen_castling _ _ _ _ Hgen) in Hc as (_ & _ & _ & _ & Hfile & _ & _).
    unfold MoveValidator.validate_castling.
    destruct (is_check_total state (Piece.color (Move.piece m))) as [[] ->];
      simpl; [eauto|].
    set (inter := if _ >? _ then _ else _).
    assert (Hinter : exists sq, inter = Ok sq /\ valid_square sq).
    { subst inter. destruct Hv as [_ Hr]. rewrite Hfile.
      destruct (_ >? _); rewrite Square_init_valid by lia;
        (eexists; split; [reflexivity | unfold valid_square; simpl; lia]). }
    destruct Hinter as (sq & -> & Hsq). simpl.
    destruct (is_square_attacked_total state sq
                (Color.opposite (Piece.color (Move.piece m))) Hsq) as [[] ->];
      simpl; [eauto|].
    destruct (would_leave_in_check_total state m) as [b ->]. simpl. eauto.
  - destruct (Move.is_en_passant m).
    + unfold MoveValidator.validate_en_passant.
      destruct (match GameState.en_passant_target state with
                | Some target => _ | None => true end); [eauto|].
      destruct (would_leave_in_check_total state m) as [b ->]. simpl. eauto.
    + destruct (would_leave_in_check_total state m) as [b ->]. simpl. eauto.
Qed.

Lemma filter_legal_moves_total (state : GameState) (l : list Move) :
  (forall m, In m l -> exists b, MoveValidator.is_legal_move state m = Ok b) ->
  exists ms, MoveValidator.filter_legal_moves state l = Ok ms.
Proof.
  induction l as [|m l IH]; intros Hall; simpl; [eauto|].
  destruct (Hall m) as [b ->]; [by left|]. simpl.
  destruct IH as [ms ->]; [intros; apply Hall; by right|]. simpl. eauto.
Qed.

Lemma filter_legal_moves_In (state : GameState) (l ms : list Move) (m : Move) :
  MoveValidator.filter_legal_moves state l = Ok ms ->
  In m ms <-> In m l /\ MoveValidator.is_legal_move state m = Ok true.
Proof.
  revert ms. induction l as [|x l IH]; intros ms Hf; simpl in Hf.
  - injection Hf as <-. simpl. tauto.
  - apply bind_Ok in Hf as (b & Hb & Hf).
    apply bind_Ok in Hf as (tl & Htl & Hf). injection Hf as <-.
    specialize (IH tl Htl). destruct b; simpl; rewrite IH; split.
    + intros [<-|[? ?]]; auto.
    + intros [[<-|?] ?]; auto.
    + intros [? ?]; auto.
    + intros [[<-|?] ?]; [congruence | auto].
Qed.

(** All pseudo-legal moves pass the filter when each of them is legal. *)
Lemma filter_legal_moves_all (state : GameState) (l : list Move) :
  (forall m, In m l -> MoveValidator.is_legal_move state m = Ok true) ->
  MoveValidator.filter_legal_moves state l = Ok l.
Proof.
  induction l as [|m l IH]; intros Hall; simpl; [reflexivity|].
  rewrite Hall by (by left). simpl.
  rewrite IH by (intros; apply Hall; by right). reflexivity.
Qed.

Lemma exec_board_wf (b : Board) (m : Move) : board_wf b -> board_wf (exec_board b m).
Proof.
  intros Hwf. unfold exec_board, ChessEngine._execute_castling,
    ChessEngine._execute_en_passant, ChessEngine._execute_normal_move.
  rewrite board_copy_id by assumption.
  destruct (Move.promotion_piece m), (Move.is_castling m), (Move.is_en_passant m);
    repeat first [ assumption | apply set_piece_wf | apply remove_piece_wf
                 | apply relocate_rook_wf ].
Qed.

(** On a generated move the executor builds the board the validator
    simulated. *)
Lemma exec_board_eq_temp (state : GameState) (b : Board) (m : Move) :
  board_wf b -> valid_square (Move.from_square m) ->
  generated_from state (Move.from_square m) (Move.piece m) m ->
  exec_board b m = temp_board b m.
Proof.
  intros Hwf Hfrom Hgen. pose proof (gen_to_valid _ _ _ _ Hgen) as Hto.
  unfold exec_board, temp_board. rewrite board_copy_id by assumption.
  destruct (Move.is_castling m) eqn:Hc.
  - destruct (gen_castling _ _ _ _ Hgen Hc) as (_ & -> & -> & _ & Hfile & Hrank & Hwing).
    unfold ChessEngine._execute_castling, MoveValidator.relocate_rook.
    destruct (Move.from_square m) as [ff fr], (Move.to_square m) as [tf tr].
    simpl in *. subst ff tr.
    destruct (tf =? 6) eqn:E6; (apply board_ext; [solve_valid | solve_valid |]);
      intros s Hs; assert (tf = 6 \/ tf = 2) as [-> | ->] by lia; try discriminate;
      board_simp; repeat case_decide; congruence.
  - destruct (Move.is_en_passant m) eqn:He; [|reflexivity].
    destruct (gen_en_passant _ _ _ _ Hgen He) as (_ & -> & _ & Hrank).
    unfold ChessEngine._execute_en_passant.
    destruct (Move.from_square m) as [ff fr], (Move.to_square m) as [tf tr].
    simpl in *.
    assert (Hne : tr <> fr) by (unfold pawn_direction in Hrank; case_decide; lia).
    apply board_ext; [solve_valid | solve_valid |].
    intros s Hs. board_simp. repeat case_decide; congruence.
Qed.

Lemma is_legal_move_true (state : GameState) (m : Move) :
  MoveValidator.is_legal_move state m = Ok true ->
  MoveValidator.would_leave_in_check state m = Ok false.
Proof.
  unfold MoveValidator.is_legal_move, MoveValidator.validate_castling,
    MoveValidator.validate_en_passant.
  intros Hlegal.
  repeat match type of Hlegal with
  | (if ?c then _ else _) = _ => destruct c; try discriminate
  | bind _ _ = Ok _ => apply bind_Ok in Hlegal as (? & ? & Hlegal)
  end.
  all: injection Hlegal as Hneg; apply negb_true_iff in Hneg; congruence.
Qed.

Lemma _calculate_en_passant_target_generated (state : GameState) (m : Move) :
  valid_square (Move.from_square m) ->
  generated_from state (Move.from_square m) (Move.piece m) m ->
  exists ep, ChessEngine._calculate_en_passant_target m = Ok ep.
Proof.
  intros [Hf Hr] Hgen. unfold ChessEngine._calculate_en_passant_target.
  destruct (decide (Piece.piece_type (Move.piece m) <> PAWN)) as [|Hp]; [eauto|].
  assert (Hpawn : Piece.piece_type (Move.piece m) = PAWN).
  { destruct (decide (Piece.piece_type (Move.piece m) = PAWN)); [assumption|].
    by destruct Hp. }
  destruct (negb _) eqn:Hdiff; [eauto|].
  pose proof (gen_pawn _ _ _ _ Hgen Hpawn) as Hcases.
  unfold pawn_direction, pawn_start_rank in Hcases.
  destruct (decide (Piece.color (Move.piece m) = WHITE));
    rewrite Square_init_valid by lia; simpl; eauto.
Qed.

(** ** The executor *)

Section EngineProperties.
Context `{BuiltinHash}.

Lemma fold_left_ext_in {A B : Type} (f g : A -> B -> A) (l : list B) (a : A) :
  (forall a x, In x l -> f a x = g a x) -> fold_left f l a = fold_left g l a.
Proof.
  revert a. induction l as [|x l IH]; intros a Hext; simpl; [reflexivity|].
  rewrite Hext by (by left). apply IH. intros; apply Hext; by right.
Qed.

(** The hash reads the board, the side to move, the castling rights and
    the en-passant target, and nothing else. *)
Lemma compute_position_hash_ext (s1 s2 : GameState) :
  (forall sq, valid_square sq ->
     Board.get_piece (GameState.board s1) sq = Board.get_piece (GameState.board s2) sq) ->
  GameState.current_player s1 = GameState.current_player s2 ->
  GameState.castling_rights s1 = GameState.castling_rights s2 ->
  GameState.en_passant_target s1 = GameState.en_passant_target s2 ->
  GameState.compute_position_hash s1 = GameState.compute_position_hash s2.
Proof.
  intros Hboard Hplayer Hrights Hep. unfold GameState.compute_position_hash.
  rewrite Hplayer, Hrights, Hep.
  rewrite (fold_left_ext_in _
    (fun hash_value square =>
       match Board.get_piece (GameState.board s2) square with
       | Some piece =>
           Z.lxor hash_value
             ((Square.rank square * 8 + Square.file square) * 31 +
              hash_piece_tuple (Piece.piece_type piece) (Piece.color piece))
       | None => hash_value
       end)); [reflexivity|].
  intros a sq Hin. apply in_all_squares in Hin. by rewrite Hboard.
Qed.

Opaque Board.copy GameState.compute_position_hash.

Lemma execute_move_Ok (state : GameState) (m : Move) (state' : GameState) :
  ChessEngine.execute_move state m = Ok state' ->
  exists ep,
    ChessEngine._calculate_en_passant_target m = Ok ep /\
    GameState.board state' = exec_board (GameState.board state) m /\
    GameState.current_player state' = Color.opposite (GameState.current_player state) /\
    GameState.castling_rights state' = exec_rights (GameState.castling_rights state) m /\
    GameState.en_passant_target state' = ep /\
    GameState.halfmove_clock state' =
      exec_halfmove_clock (GameState.halfmove_clock state) m /\
    GameState.fullmove_number state' =
      exec_fullmove_number (GameState.current_player state)
        (GameState.fullmove_number state) /\
    GameState.move_history state' = GameState.move_history state ++ [m] /\
    GameState.position_history state' =
      GameState.position_history state ++ [GameState.compute_position_hash state'] /\
    GameState.game_mode state' = GameState.game_mode state.
Proof.
  unfold ChessEngine.execute_move. intros Hexec.
  apply bind_Ok in Hexec as (ep & Hep & Hexec). injection Hexec as <-.
  exists ep. unfold GameState.copy.
  cbn [GameState.board GameState.current_player GameState.castling_rights
       GameState.en_passant_target GameState.halfmove_clock
       GameState.fullmove_number GameState.move_history
       GameState.position_history GameState.game_mode].
  rewrite castling_rights_copy_id.
  split; [assumption|]. split; [reflexivity|]. split; [reflexivity|].
  split; [reflexivity|]. split; [reflexivity|]. split; [reflexivity|].
  split; [reflexivity|]. split; [reflexivity|]. split; [|reflexivity].
  apply (f_equal (fun h => GameState.position_history state ++ [h])).
  apply compute_position_hash_ext; reflexivity.
Qed.

Lemma execute_move_returns (state : GameState) (m : Move) (ep : option Square) :
  ChessEngine._calculate_en_passant_target m = Ok ep ->
  exists state', ChessEngine.execute_move state m = Ok state'.
Proof.
  intros Hep. unfold ChessEngine.execute_move. rewrite Hep. unfold bind. eauto.
Qed.

End EngineProperties.

(** ** Legal moves *)

Lemma get_legal_moves_total (p : GameState) (c : Color) :
  exists ms, ChessEngine.get_legal_moves p c = Ok ms.
Proof.
  apply filter_legal_moves_total. intros m Hin. by eapply is_legal_move_total.
Qed.

Lemma get_legal_moves_In (p : GameState) (c : Color) (ms : list Move) (m : Move) :
  ChessEngine.get_legal_moves p c = Ok ms ->
  In m ms <->
  In m (MoveGenerator.generate_pseudo_legal_moves p c) /\
  MoveValidator.is_legal_move p m = Ok true.
Proof. apply filter_legal_moves_In. Qed.

Section LegalMoves.
Context `{BuiltinHash}.

(** C1. No self-check escape: after executing any move returned by
    [get_legal_moves p c] on a structurally valid state, the executor
    returns a state in which the king of [c] is not in check. *)
Theorem legal_move_leaves_king_safe (p : GameState) (c : Color)
    (ms : list Move) (m : Move) :
  state_wf p ->
  ChessEngine.get_legal_moves p c = Ok ms ->
  In m ms ->
  exists p', ChessEngine.execute_move p m = Ok p' /\
             CheckDetector.is_check p' c = Ok false.
Proof.
  intros [Hwf _] Hms Hin.
  apply (get_legal_moves_In p c ms m Hms) in Hin as [Hgen Hlegal].
  apply generate_pseudo_legal_moves_shape in Hgen as (Hv & _ & Hc & Hgen).
  apply is_legal_move_true in Hlegal.
  destruct (_calculate_en_passant_target_generated p m Hv Hgen) as [ep Hep].
  destruct (execute_move_returns p m ep Hep) as [p' Hexec].
  exists p'. split; [exact Hexec|].
  apply execute_move_Ok in Hexec as (_ & _ & Hboard & _).
  unfold MoveValidator.would_leave_in_check in Hlegal. rewrite Hc in Hlegal.
  rewrite <- Hlegal. apply is_check_board.
  rewrite Hboard, _apply_move_temporarily_board.
  by eapply exec_board_eq_temp.
Qed.

End LegalMoves.

(** C2. On a structurally valid state the check query and the legal-move
    list are defined; [is_checkmate] answers "in check and no legal move",
    [is_stalemate] answers "not in check and no legal move", and the two
    are never both true. *)
Theorem checkmate_stalemate_characterisation (p : GameState) :
  state_wf p ->
  exists (in_check : bool) (legal_moves : list Move),
    CheckDetector.is_check p (GameState.current_player p) = Ok in_check /\
    ChessEngine.get_legal_moves p (GameState.current_player p) = Ok legal_moves /\
    ChessEngine.is_checkmate p = Ok (in_check && bool_decide (legal_moves = [])) /\
    ChessEngine.is_stalemate p = Ok (negb in_check && bool_decide (legal_moves = [])) /\
    ~ (ChessEngine.is_checkmate p = Ok true /\ ChessEngine.is_stalemate p = Ok true).
Proof.
  intros _.
  destruct (is_check_total p (GameState.current_player p)) as [in_check Hcheck].
  destruct (get_legal_moves_total p (GameState.current_player p)) as [ms Hms].
  exists in_check, ms.
  assert (Hlen : (length ms =? 0)%nat = bool_decide (ms = [])) by (by destruct ms).
  assert (Hmate : ChessEngine.is_checkmate p = Ok (in_check && bool_decide (ms = []))).
  { unfold ChessEngine.is_checkmate. rewrite Hcheck. simpl.
    destruct in_check; simpl; [|reflexivity]. rewrite Hms. simpl. by rewrite Hlen. }
  assert (Hstale : ChessEngine.is_stalemate p =
                   Ok (negb in_check && bool_decide (ms = []))).
  { unfold ChessEngine.is_stalemate. rewrite Hcheck. simpl.
    destruct in_check; simpl; [reflexivity|]. rewrite Hms. simpl. by rewrite Hlen. }
  repeat split; try assumption.
  rewrite Hmate, Hstale. intros [[= E1] [= E2]]. destruct in_check; discriminate.
Qed.

(** ** A side without a king *)

Lemma is_check_no_king (p : GameState) (c : Color) :
  no_king p c -> CheckDetector.is_check p c = Ok false.
Proof.
  intros Hno. unfold CheckDetector.is_check.
  by rewrite (proj2 (find_king_position_None p c) Hno).
Qed.

Lemma temp_board_no_king (p : GameState) (c : Color) (m : Move) :
  state_wf p -> no_king p c ->
  In m (MoveGenerator.generate_pseudo_legal_moves p c) ->
  no_king (MoveValidator._apply_move_temporarily p m) c /\
  Move.is_castling m = false.
Proof.
  intros [Hwf _] Hno Hin.
  apply generate_pseudo_legal_moves_shape in Hin as (Hv & Hget & Hc & Hgen).
  pose proof (gen_to_valid _ _ _ _ Hgen) as Hto.
  assert (Hnk : Move.piece m <> Piece.mk KING c).
  { intros E. rewrite E in Hget. by apply (Hno _ Hv). }
  assert (Hcastle : Move.is_castling m = false).
  { destruct (Move.is_castling m) eqn:E; [|reflexivity].
    destruct (gen_castling _ _ _ _ Hgen E) as (Hk & _).
    exfalso. apply Hnk. destruct (Move.piece m); simpl in *. by subst. }
  split; [|assumption].
  intros s Hs. rewrite _apply_move_temporarily_board. unfold temp_board.
  rewrite board_copy_id, Hcastle by assumption.
  destruct (Move.from_square m) as [ff fr] eqn:Hfrom,
           (Move.to_square m) as [tf tr] eqn:Hto'.
  assert (Hpromo : forall t, Move.promotion_piece m = Some t -> t <> KING).
  { intros t Ht. apply (gen_promotion _ _ _ _ Hgen) in Ht.
    simpl in Ht. intros ->. intuition discriminate. }
  destruct (Move.promotion_piece m) as [t|] eqn:Ht, (Move.is_en_passant m);
    simpl; board_simp; repeat case_decide; try discriminate;
    try (by apply Hno);
    try (intros [= E1 E2]; by apply (Hpromo t));
    try (intros [= E]; by apply Hnk).
Qed.

(** C4, as the code has it: on a structurally valid state without a king
    of colour [c], [is_check] returns false and [get_legal_moves] returns,
    without raising, every pseudo-legal move of [c]. *)
Theorem missing_king_queries (p : GameState) (c : Color) :
  state_wf p -> no_king p c ->
  CheckDetector.is_check p c = Ok false /\
  ChessEngine.get_legal_moves p c =
    Ok (MoveGenerator.generate_pseudo_legal_moves p c).
Proof.
  intros Hwf Hno. split; [by apply is_check_no_king|].
  apply filter_legal_moves_all. intros m Hin.
  destruct (temp_board_no_king p c m Hwf Hno Hin) as [Htemp Hcastle].
  apply generate_pseudo_legal_moves_shape in Hin as (Hv & Hget & Hc & Hgen).
  assert (Hleave : MoveValidator.would_leave_in_check p m = Ok false).
  { unfold MoveValidator.would_leave_in_check. rewrite Hc.
    by apply is_check_no_king. }
  unfold MoveValidator.is_legal_move. rewrite Hcastle.
  destruct (Move.is_en_passant m) eqn:Hep.
  - destruct (gen_en_passant _ _ _ _ Hgen Hep) as (_ & _ & Htarget & _).
    unfold MoveValidator.validate_en_passant. rewrite Htarget.
    rewrite bool_decide_eq_false_2 by (intros E; by apply E).
    by rewrite Hleave.
  - by rewrite Hleave.
Qed.

(** ** Castling *)

Lemma count_castling_app (l1 l2 : list Move) :
  count_castling (l1 ++ l2) = (count_castling l1 + count_castling l2)%nat.
Proof. unfold count_castling. by rewrite List.filter_app, length_app. Qed.

Lemma count_castling_none (l : list Move) :
  (forall m, In m l -> Move.is_castling m = false) -> count_castling l = 0%nat.
Proof.
  unfold count_castling. induction l as [|m l IH]; intros Hall; simpl; [reflexivity|].
  rewrite Hall by (by left). apply IH. intros; apply Hall; by right.
Qed.

Lemma castling_wing_off_home (state : GameState) (square : Square) (p : Piece)
    (right : bool) (start : Square) (between : list Square)
    (rook_square to_square : Square) (rook_color : Color) :
  square <> start ->
  MoveGenerator.castling_wing state square p right start between
    rook_square to_square rook_color = [].
Proof.
  intros Hne. unfold MoveGenerator.castling_wing.
  rewrite bool_decide_eq_false_2 by assumption. by rewrite andb_false_r.
Qed.

Lemma generate_piece_moves_count_off_home (state : GameState) (square : Square)
    (p : Piece) :
  valid_square square ->
  Board.get_piece (GameState.board state) square = Some p ->
  square <> Square.mk 4 (home_rank (Piece.color p)) ->
  count_castling (MoveGenerator.generate_piece_moves state square) = 0%nat.
Proof.
  intros Hv Hget Hne. apply count_castling_none. intros m Hin.
  unfold MoveGenerator.generate_piece_moves in Hin. rewrite Hget in Hin.
  destruct (Piece.piece_type p) eqn:Hp.
  - apply _generate_pawn_moves_shape in Hin; try assumption.
    destruct (Move.is_castling m) eqn:E; [|reflexivity].
    destruct (gen_castling _ _ _ _ Hin E) as (Hk & _). congruence.
  - eapply step_moves_shape; [|exact Hin]. congruence.
  - eapply sliding_directions_shape; [|exact Hin]. congruence.
  - eapply sliding_directions_shape; [|exact Hin]. congruence.
  - eapply sliding_directions_shape; [|exact Hin]. congruence.
  - unfold MoveGenerator._generate_king_moves in Hin.
    apply in_app_or in Hin as [Hin|Hin].
    + eapply step_moves_shape; [|exact Hin]. congruence.
    + unfold MoveGenerator._generate_castling_moves, home_rank in *.
      destruct (decide (Piece.color p = WHITE));
        rewrite !castling_wing_off_home in Hin by assumption; destruct Hin.
Qed.

Lemma generate_piece_moves_count_home (state : GameState) (c : Color) :
  castling_ready state c ->
  count_castling
    (MoveGenerator.generate_piece_moves state (Square.mk 4 (home_rank c))) = 2%nat.
Proof.
  intros [Hk Ha Hh Hb Hc Hd Hf Hg Hr].
  unfold MoveGenerator.generate_piece_moves. rewrite Hk. simpl.
  unfold MoveGenerator._generate_king_moves. rewrite count_castling_app.
  rewrite count_castling_none.
  2: { intros m Hin. eapply step_moves_shape; [|exact Hin]. simpl. congruence. }
  unfold MoveGenerator._generate_castling_moves, MoveGenerator.castling_wing,
    holds_both_rights, home_rank in *.
  destruct c; simpl in *; destruct Hr as [-> ->]; simpl;
    rewrite ?Hk, ?Ha, ?Hh, ?Hb, ?Hc, ?Hd, ?Hf, ?Hg; reflexivity.
Qed.

Lemma count_castling_squares (state : GameState) (c : Color) (l : list Square) :
  castling_ready state c -> Forall valid_square l ->
  count_castling
    (flat_map (fun '(square, piece) => MoveGenerator.generate_piece_moves state square)
       (flat_map (fun square =>
          match Board.get_piece (GameState.board state) square with
          | Some piece =>
              if decide (Piece.color piece = c) then [(square, piece)] else []
          | None => []
          end) l)) =
  (2 * length (filter (fun sq => sq = Square.mk 4 (home_rank c)) l))%nat.
Proof.
  intros Hready. induction 1 as [|sq l Hsq _ IH]; [reflexivity|].
  cbn [flat_map]. rewrite flat_map_app, count_castling_app, IH.
  rewrite filter_cons. destruct (decide (sq = Square.mk 4 (home_rank c))) as [-> | Hne].
  - rewrite (ready_king _ _ Hready). simpl.
    rewrite decide_True by reflexivity. simpl. rewrite app_nil_r.
    rewrite (generate_piece_moves_count_home state c Hready). simpl. lia.
  - destruct (Board.get_piece _ sq) as [q|] eqn:Hq; [|reflexivity].
    destruct (decide (Piece.color q = c)) as [Hc|]; [|reflexivity].
    simpl. rewrite app_nil_r.
    rewrite (generate_piece_moves_count_off_home state sq q); try assumption.
    + reflexivity.
    + by rewrite Hc.
Qed.

Lemma home_square_once (c : Color) :
  length (filter (fun sq => sq = Square.mk 4 (home_rank c)) all_squares) = 1%nat.
Proof. destruct c; vm_compute; reflexivity. Qed.

Lemma validate_castling_iff (p : GameState) (m : Move) (inter : Square) :
  (if Square.file (Move.to_square m) >? Square.file (Move.from_square m)
   then Square.__init__ (Square.file (Move.from_square m) + 1)
          (Square.rank (Move.from_square m))
   else Square.__init__ (Square.file (Move.from_square m) - 1)
          (Square.rank (Move.from_square m))) = Ok inter ->
  valid_square inter ->
  MoveValidator.validate_castling p m = Ok true <->
  CheckDetector.is_check p (Piece.color (Move.piece m)) = Ok false /\
  CheckDetector.is_square_attacked p inter
    (Color.opposite (Piece.color (Move.piece m))) = Ok false /\
  MoveValidator.would_leave_in_check p m = Ok false.
Proof.
  intros Hinter Hv. unfold MoveValidator.validate_castling. rewrite Hinter.
  destruct (is_check_total p (Piece.color (Move.piece m))) as [ic Hic].
  destruct (is_square_attacked_total p inter
              (Color.opposite (Piece.color (Move.piece m))) Hv) as [att Hatt].
  destruct (would_leave_in_check_total p m) as [wl Hwl].
  rewrite Hic. simpl. destruct ic; simpl.
  { split; [discriminate | intros (? & _); discriminate]. }
  rewrite Hatt. simpl. destruct att; simpl.
  { split; [discriminate | intros (_ & ? & _); discriminate]. }
  rewrite Hwl. simpl. destruct wl; simpl.
  { split; [discriminate | intros (_ & _ & ?); discriminate]. }
  tauto.
Qed.

(** The number of generated castling moves, and the legality of one in
    terms of the validator's own queries. *)
Lemma castling_gating_validator (p : GameState) (c : Color) :
  state_wf p ->
  (castling_ready p c ->
   count_castling (MoveGenerator.generate_pseudo_legal_moves p c) = 2%nat) /\
  (forall m,
     In m (MoveGenerator.generate_pseudo_legal_moves p c) ->
     Move.is_castling m = true ->
     exists (ms : list Move) (through : Square),
       ChessEngine.get_legal_moves p c = Ok ms /\
       through = Square.mk
         (if Square.file (Move.to_square m) >? Square.file (Move.from_square m)
          then Square.file (Move.from_square m) + 1
          else Square.file (Move.from_square m) - 1)
         (Square.rank (Move.from_square m)) /\
       (In m ms <->
        CheckDetector.is_check p c = Ok false /\
        CheckDetector.is_square_attacked p through (Color.opposite c) = Ok false /\
        MoveValidator.would_leave_in_check p m = Ok false)).
Proof.
  intros _. split.
  - intros Hready. unfold MoveGenerator.generate_pseudo_legal_moves, Board.get_all_pieces.
    rewrite (count_castling_squares p c all_squares Hready Forall_valid_all_squares).
    by rewrite home_square_once.
  - intros m Hin Hcastle.
    destruct (get_legal_moves_total p c) as [ms Hms].
    exists ms. eexists. split; [exact Hms|]. split; [reflexivity|].
    rewrite (get_legal_moves_In p c ms m Hms).
    pose proof Hin as Hshape.
    apply generate_pseudo_legal_moves_shape in Hshape as ([Hvf Hvr] & _ & Hc & Hgen).
    destruct (gen_castling _ _ _ _ Hgen Hcastle) as (_ & _ & _ & _ & Hfile & _ & _).
    subst c. unfold MoveValidator.is_legal_move. rewrite Hcastle.
    rewrite (validate_castling_iff p m
      (Square.mk
         (if Square.file (Move.to_square m) >? Square.file (Move.from_square m)
          then Square.file (Move.from_square m) + 1
          else Square.file (Move.from_square m) - 1)
         (Square.rank (Move.from_square m)))).
    + tauto.
    + destruct (_ >? _); apply Square_init_valid; lia.
    + unfold valid_square; simpl. destruct (_ >? _); lia.
Qed.

(** ** Counters, rights and the hash *)

Lemma revoke_for_piece_le (r : CastlingRights) (pt : PieceType) (c : Color)
    (sq : Square) :
  rights_le (CastlingRights.revoke_for_piece r pt c sq) r.
Proof.
  unfold CastlingRights.revoke_for_piece, rights_le.
  repeat case_match; simpl; repeat split; (discriminate || tauto).
Qed.

Lemma revoke_for_rook_capture_le (r : CastlingRights) (sq : Square) :
  rights_le (CastlingRights.revoke_for_rook_capture r sq) r.
Proof.
  unfold CastlingRights.revoke_for_rook_capture, rights_le.
  repeat case_match; simpl; repeat split; (discriminate || tauto).
Qed.

Lemma rights_le_trans (r1 r2 r3 : CastlingRights) :
  rights_le r1 r2 -> rights_le r2 r3 -> rights_le r1 r3.
Proof. unfold rights_le. tauto. Qed.

Lemma exec_rights_le (r : CastlingRights) (m : Move) : rights_le (exec_rights r m) r.
Proof.
  unfold exec_rights.
  destruct (Move.captured_piece m) as [cap|]; [|apply revoke_for_piece_le].
  destruct (decide (Piece.piece_type cap = ROOK)); [|apply revoke_for_piece_le].
  eapply rights_le_trans; [apply revoke_for_rook_capture_le | apply revoke_for_piece_le].
Qed.

Lemma revoke_for_rook_capture_keeps (r : CastlingRights) (sq : Square) (c : Color) :
  (kingside r c = false ->
   kingside (CastlingRights.revoke_for_rook_capture r sq) c = false) /\
  (queenside r c = false ->
   queenside (CastlingRights.revoke_for_rook_capture r sq) c = false).
Proof.
  pose proof (revoke_for_rook_capture_le r sq) as (H1 & H2 & H3 & H4).
  unfold kingside, queenside. destruct c; simpl; split; intros E;
    apply not_true_is_false; intros E'; auto; rewrite ?H1, ?H2, ?H3, ?H4 in E by assumption;
    discriminate.
Qed.

Lemma exec_rights_keeps_revoked (r : CastlingRights) (m : Move) (c : Color) :
  (kingside (CastlingRights.revoke_for_piece r (Piece.piece_type (Move.piece m))
      (Piece.color (Move.piece m)) (Move.from_square m)) c = false ->
   kingside (exec_rights r m) c = false) /\
  (queenside (CastlingRights.revoke_for_piece r (Piece.piece_type (Move.piece m))
      (Piece.color (Move.piece m)) (Move.from_square m)) c = false ->
   queenside (exec_rights r m) c = false).
Proof.
  unfold exec_rights.
  destruct (Move.captured_piece m) as [cap|]; [|tauto].
  destruct (decide (Piece.piece_type cap = ROOK)); [|tauto].
  apply revoke_for_rook_capture_keeps.
Qed.

Section Executor.
Context `{BuiltinHash}.

(** The counters for a move whose squares are on the board and in which a
    pawn that changes rank by two moves towards the opponent. *)
Lemma execute_move_counters_forward (p : GameState) (m : Move) :
  move_wf m -> double_step_is_forward m ->
  exists p',
    ChessEngine.execute_move p m = Ok p' /\
    GameState.en_passant_target p' = expected_en_passant_target m /\
    (moved_two_ranks m = true <-> GameState.en_passant_target p' <> None) /\
    GameState.halfmove_clock p' =
      (if is_pawn_move m || is_capture m then 0 else GameState.halfmove_clock p + 1) /\
    GameState.fullmove_number p' =
      (if decide (GameState.current_player p = BLACK)
       then GameState.fullmove_number p + 1 else GameState.fullmove_number p).
Proof.
  intros [[Hff Hfr] [Htf Htr]] Hfwd.
  assert (Hep : ChessEngine._calculate_en_passant_target m =
                Ok (expected_en_passant_target m)).
  { unfold ChessEngine._calculate_en_passant_target, expected_en_passant_target,
      double_step_is_forward, moved_two_ranks, is_pawn_move, square_passed_over,
      pawn_direction in *.
    destruct (decide (Piece.piece_type (Move.piece m) <> PAWN)) as [Hn|Hp].
    - by rewrite bool_decide_eq_false_2.
    - rewrite bool_decide_eq_true_2 in *
        by (destruct (decide (Piece.piece_type (Move.piece m) = PAWN));
            [assumption | by destruct Hp]).
      simpl in *. destruct (_ =? 2) eqn:E2; simpl; [|reflexivity].
      specialize (Hfwd eq_refl).
      destruct (decide (Piece.color (Move.piece m) = WHITE));
        rewrite Square_init_valid by lia; simpl; do 2 f_equal;
        rewrite Hfwd; f_equal; apply Z.div_unique with (r := 0); lia. }
  destruct (execute_move_returns p m _ Hep) as [p' Hexec].
  exists p'. split; [exact Hexec|].
  apply execute_move_Ok in Hexec
    as (ep & Hep' & _ & _ & _ & Htarget & Hhalf & Hfull & _).
  rewrite Hep in Hep'. injection Hep' as <-.
  rewrite Htarget, Hhalf, Hfull.
  split; [reflexivity|]. split; [|split; reflexivity].
  unfold expected_en_passant_target.
  destruct (moved_two_ranks m); split; congruence.
Qed.

(** C5.  Executor counters.  For every move the generator offers the side
    to move (every legal move is one), the executor returns a state in
    which the en-passant target is set exactly when the moved piece is a
    pawn that advanced two ranks, and is then the square it passed over;
    the halfmove clock is 0 after a pawn move or a capture and one more
    than before otherwise; and the fullmove number has grown by one
    exactly when the side that just moved was Black. *)
Theorem execute_move_counters (p : GameState) (m : Move) :
  In m (MoveGenerator.generate_pseudo_legal_moves p (GameState.current_player p)) ->
  exists p',
    ChessEngine.execute_move p m = Ok p' /\
    (moved_two_ranks m = true ->
     Square.rank (Move.to_square m) =
     Square.rank (Move.from_square m) + 2 * pawn_direction (Piece.color (Move.piece m))) /\
    (GameState.en_passant_target p' <> None <-> moved_two_ranks m = true) /\
    GameState.en_passant_target p' =
      (if moved_two_ranks m then Some (square_passed_over m) else None) /\
    GameState.halfmove_clock p' =
      (if is_pawn_move m || is_capture m then 0 else GameState.halfmove_clock p + 1) /\
    GameState.fullmove_number p' =
      (if decide (Piece.color (Move.piece m) = BLACK)
       then GameState.fullmove_number p + 1 else GameState.fullmove_number p).
Proof.
  intros Hin.
  apply generate_pseudo_legal_moves_shape in Hin as (Hv & _ & Hc & Hgen).
  assert (Hfwd : double_step_is_forward m).
  { unfold double_step_is_forward, moved_two_ranks, is_pawn_move.
    intros Htwo. apply andb_true_iff in Htwo as [Hp Habs].
    apply bool_decide_eq_true in Hp. apply Z.eqb_eq in Habs.
    destruct (gen_pawn _ _ _ _ Hgen Hp) as [Hone | [Htwo _]]; [|assumption].
    unfold pawn_direction in *. case_decide; lia. }
  destruct (execute_move_counters_forward p m) as (p' & Hexec & Hep & Hiff & Hhalf & Hfull).
  { split; [assumption | exact (gen_to_valid _ _ _ _ Hgen)]. }
  { assumption. }
  exists p'. split; [assumption|]. split; [exact Hfwd|].
  split; [tauto|]. split; [assumption|]. split; [assumption|].
  by rewrite Hfull, Hc.
Qed.

(** C6.  Castling rights only shrink: whenever the executor returns, each
    right held afterwards was held before; a king move clears both rights
    of its colour, a rook leaving a corner of its own back rank clears the
    right of that corner, and a rook captured on a corner clears the right
    of that corner.  A move of a piece other than a pawn always returns. *)
Theorem castling_rights_monotone (p : GameState) (m : Move) :
  (Piece.piece_type (Move.piece m) <> PAWN ->
   exists p', ChessEngine.execute_move p m = Ok p') /\
  (forall p', ChessEngine.execute_move p m = Ok p' ->
     let before := GameState.castling_rights p in
     let after := GameState.castling_rights p' in
     let c := Piece.color (Move.piece m) in
     rights_le after before /\
     (Piece.piece_type (Move.piece m) = KING ->
      kingside after c = false /\ queenside after c = false) /\
     (Piece.piece_type (Move.piece m) = ROOK ->
      Move.from_square m = Square.mk 7 (home_rank c) -> kingside after c = false) /\
     (Piece.piece_type (Move.piece m) = ROOK ->
      Move.from_square m = Square.mk 0 (home_rank c) -> queenside after c = false) /\
     (forall captured owner,
        Move.captured_piece m = Some captured ->
        Piece.piece_type captured = ROOK ->
        (Move.to_square m = Square.mk 7 (home_rank owner) ->
         kingside after owner = false) /\
        (Move.to_square m = Square.mk 0 (home_rank owner) ->
         queenside after owner = false))).
Proof.
  split.
  - intros Hp. apply (execute_move_returns p m None).
    unfold ChessEngine._calculate_en_passant_target.
    by rewrite decide_True.
  - intros p' Hexec.
    apply execute_move_Ok in Hexec as (_ & _ & _ & _ & Hrights & _).
    cbv zeta. rewrite Hrights.
    split; [apply exec_rights_le|].
    split; [|split; [|split]].
    + intros Hk.
      split; apply exec_rights_keeps_revoked; unfold CastlingRights.revoke_for_piece;
        rewrite Hk; simpl; unfold kingside, queenside;
        by destruct (Piece.color (Move.piece m)).
    + intros Hr Hfrom.
      apply exec_rights_keeps_revoked. unfold CastlingRights.revoke_for_piece.
      rewrite Hr, Hfrom. unfold kingside, home_rank.
      by destruct (Piece.color (Move.piece m)).
    + intros Hr Hfrom.
      apply exec_rights_keeps_revoked. unfold CastlingRights.revoke_for_piece.
      rewrite Hr, Hfrom. unfold queenside, home_rank.
      by destruct (Piece.color (Move.piece m)).
    + intros captured owner Hcap Hrook. unfold exec_rights.
      rewrite Hcap, decide_True by assumption.
      unfold CastlingRights.revoke_for_rook_capture, kingside, queenside, home_rank.
      split; intros ->; by destruct owner.
Qed.

(** C7.  The position hash is a function of the board, the side to move,
    the castling rights and the en-passant target: two states that agree
    on these four hash alike, whatever their histories, clocks and mode. *)
Theorem position_hash_depends_on_position_only (s1 s2 : GameState) :
  GameState.board s1 = GameState.board s2 ->
  GameState.current_player s1 = GameState.current_player s2 ->
  GameState.castling_rights s1 = GameState.castling_rights s2 ->
  GameState.en_passant_target s1 = GameState.en_passant_target s2 ->
  GameState.compute_position_hash s1 = GameState.compute_position_hash s2.
Proof.
  intros Hb Hc Hr He. apply compute_position_hash_ext; try assumption.
  intros sq _. by rewrite Hb.
Qed.

End Executor.

(** ** Threefold repetition *)

Section Threefold.
Context `{BuiltinHash}.

Lemma position_of_hash (s1 s2 : GameState) :
  position_of s1 = position_of s2 ->
  GameState.compute_position_hash s1 = GameState.compute_position_hash s2.
Proof.
  intros [= Hb Hc Hr He]. apply compute_position_hash_ext; try assumption.
  intros sq _. by rewrite Hb.
Qed.

Lemma execute_non_pawn (p : GameState) (m : Move) :
  Piece.piece_type (Move.piece m) <> PAWN ->
  exists p',
    ChessEngine.execute_move p m = Ok p' /\
    position_of p' =
      (exec_board (GameState.board p) m, Color.opposite (GameState.current_player p),
       exec_rights (GameState.castling_rights p) m, None) /\
    GameState.position_history p' =
      GameState.position_history p ++ [GameState.compute_position_hash p'].
Proof.
  intros Hp.
  assert (Hep : ChessEngine._calculate_en_passant_target m = Ok None).
  { unfold ChessEngine._calculate_en_passant_target. by rewrite decide_True. }
  destruct (execute_move_returns p m None Hep) as [p' Hexec].
  exists p'. split; [exact Hexec|].
  apply execute_move_Ok in Hexec
    as (ep & Hep' & Hb & Hc & Hr & He & _ & _ & _ & Hh & _).
  rewrite Hep in Hep'. injection Hep' as <-.
  unfold position_of. by rewrite Hb, Hc, Hr, He.
Qed.

Lemma new_game_position (mode : GameMode) :
  position_of (GameState.new_game mode) =
    (Board.setup_standard_position Board.__init__, WHITE,
     CastlingRights.mk true true true true, None) /\
  GameState.position_history (GameState.new_game mode) =
    [GameState.compute_position_hash (GameState.new_game mode)].
Proof.
  unfold GameState.new_game, position_of.
  cbn [GameState.board GameState.current_player GameState.castling_rights
       GameState.en_passant_target GameState.position_history app].
  split; [reflexivity|].
  apply (f_equal (fun h => [h])). apply compute_position_hash_ext; reflexivity.
Qed.

Lemma is_threefold_repetition_count (p : GameState) :
  ChessEngine.is_threefold_repetition p =
  (3 <=? length (GameState.position_history p))%nat &&
  (3 <=? occurrences (GameState.compute_position_hash p)
           (GameState.position_history p))%nat.
Proof.
  unfold ChessEngine.is_threefold_repetition, occurrences.
  destruct (length (GameState.position_history p) <? 3)%nat eqn:E.
  - apply Nat.ltb_lt in E. symmetry. apply andb_false_iff. left.
    apply Nat.leb_gt. lia.
  - apply Nat.ltb_ge in E. apply Nat.leb_le in E. by rewrite E.
Qed.

Lemma occurrences_le_length (x : Z) (l : list Z) : (occurrences x l <= length l)%nat.
Proof. unfold occurrences. apply length_filter. Qed.

End Threefold.

Section ThreefoldCycle.
Context `{BuiltinHash}.

Lemma execute_non_pawn_position (p : GameState) (m : Move)
    (b : Board) (c : Color) (r : CastlingRights) (e : option Square) :
  position_of p = (b, c, r, e) ->
  Piece.piece_type (Move.piece m) <> PAWN ->
  exists p',
    ChessEngine.execute_move p m = Ok p' /\
    position_of p' = (exec_board b m, Color.opposite c, exec_rights r m, None) /\
    GameState.position_history p' =
      GameState.position_history p ++ [GameState.compute_position_hash p'].
Proof.
  intros [= <- <- <- <-] Hp. by apply execute_non_pawn.
Qed.

Ltac normalise_position Hpos :=
  match type of Hpos with
  | _ = ?rhs =>
      let v := eval vm_compute in rhs in
      let E := fresh "E" in
      assert (E : rhs = v) by (vm_compute; reflexivity);
      rewrite E in Hpos; clear E
  end.

Ltac knight_step p Hpos m p' E' Hpos' Hh' :=
  destruct (execute_non_pawn_position p m _ _ _ _ Hpos) as (p' & E' & Hpos' & Hh');
  [discriminate|]; normalise_position Hpos'.

Ltac count_hashes :=
  unfold occurrences; rewrite ?filter_cons, ?filter_nil;
  repeat case_decide; try congruence; try reflexivity.

(** For every value of the built-in hash: [is_threefold_repetition] is
    true exactly when the hash of the current position occurs at least
    three times in the recorded history, and playing Nf3 Nf6 Ng1 Ng8 twice
    from the initial position gives true. *)
Lemma knight_cycle_twice_is_threefold :
  (forall p,
     ChessEngine.is_threefold_repetition p = true <->
     (3 <= occurrences (GameState.compute_position_hash p)
             (GameState.position_history p))%nat) /\
  exists p4 p8,
    play (GameState.new_game MULTIPLAYER) knight_cycle = Ok p4 /\
    play p4 knight_cycle = Ok p8 /\
    ChessEngine.is_threefold_repetition p8 = true.
Proof.
  split.
  - intros p. rewrite is_threefold_repetition_count, andb_true_iff, !Nat.leb_le.
    pose proof (occurrences_le_length (GameState.compute_position_hash p)
                  (GameState.position_history p)). lia.
  - destruct (new_game_position MULTIPLAYER) as [Hpos0 Hh0].
    remember (GameState.new_game MULTIPLAYER) as p0 eqn:Hp0. clear Hp0.
    normalise_position Hpos0.
    knight_step p0 Hpos0 Nf3 p1 E1 Hpos1 Hh1.
    knight_step p1 Hpos1 Nf6 p2 E2 Hpos2 Hh2.
    knight_step p2 Hpos2 Ng1 p3 E3 Hpos3 Hh3.
    knight_step p3 Hpos3 Ng8 p4 E4 Hpos4 Hh4.
    knight_step p4 Hpos4 Nf3 p5 E5 Hpos5 Hh5.
    knight_step p5 Hpos5 Nf6 p6 E6 Hpos6 Hh6.
    knight_step p6 Hpos6 Ng1 p7 E7 Hpos7 Hh7.
    knight_step p7 Hpos7 Ng8 p8 E8 Hpos8 Hh8.
    assert (H40 : GameState.compute_position_hash p4 = GameState.compute_position_hash p0)
      by (apply position_of_hash; congruence).
    assert (H80 : GameState.compute_position_hash p8 = GameState.compute_position_hash p0)
      by (apply position_of_hash; congruence).
    rewrite Hh7, Hh6, Hh5 in Hh8. rewrite Hh3, Hh2, Hh1, Hh0 in Hh4.
    rewrite Hh4 in Hh8. cbn [app] in Hh4, Hh8.
    exists p4, p8. unfold knight_cycle, play.
    rewrite E1; cbn [bind]. rewrite E2; cbn [bind].
    rewrite E3; cbn [bind]. rewrite E4; cbn [bind].
    rewrite E5; cbn [bind]. rewrite E6; cbn [bind].
    rewrite E7; cbn [bind]. rewrite E8; cbn [bind].
    split; [reflexivity|]. split; [reflexivity|].
    rewrite is_threefold_repetition_count, Hh8, H40, H80.
    cbn [length]. count_hashes.
Qed.

End ThreefoldCycle.

(** C8.  The code at the failing input.  With the values the built-in hash
    takes under [PYTHONHASHSEED=157], none of the three positions inside
    the knight cycle is the initial position, yet the position after
    Nf3 Nf6 has the hash of the initial position.  After the cycle played
    once the recorded history therefore holds the hash of the current
    position three times, and [is_threefold_repetition] answers true
    although the position has occurred twice. *)
Theorem knight_cycle_once_is_reported_threefold :
  (forall k, (1 <= k <= 3)%nat ->
     exists q, @play seed_157_hash seed_157_start (take k knight_cycle) = Ok q /\
               position_of q <> position_of seed_157_start) /\
  exists p2 p4,
    @play seed_157_hash seed_157_start [Nf3; Nf6] = Ok p2 /\
    @GameState.compute_position_hash seed_157_hash p2 =
      @GameState.compute_position_hash seed_157_hash seed_157_start /\
    @play seed_157_hash seed_157_start knight_cycle = Ok p4 /\
    position_of p4 = position_of seed_157_start /\
    GameState.position_history p4 =
      [-29620594444887223840; -11066325718308078843; -29620594444887223840;
       -11066325718308078843; -29620594444887223840] /\
    @ChessEngine.is_threefold_repetition seed_157_hash p4 = true.
Proof.
  split.
  - intros k Hk.
    assert (Ck : k = 1%nat \/ k = 2%nat \/ k = 3%nat) by lia.
    destruct Ck as [-> | [-> | ->]]; eexists;
      (split; [vm_compute; reflexivity|]); intros E; vm_compute in E;
      discriminate E.
  - eexists _, _. split; [vm_compute; reflexivity|].
    split; [vm_compute; reflexivity|]. split; [vm_compute; reflexivity|].
    split; [vm_compute; reflexivity|]. split; vm_compute; reflexivity.
Qed.

(** ** Algebraic notation of squares *)

Lemma char_in_cases (c : ascii) (s : string) :
  Square.char_in c s = true -> In c (list_ascii_of_string s).
Proof.
  induction s as [|d s IH]; simpl; [discriminate|].
  destruct (Ascii.eqb_spec c d) as [-> | _]; [by left | right; auto].
Qed.

Lemma from_algebraic_accepts (c0 c1 : ascii) :
  Square.char_in (Square.lower c0) "abcdefgh" = true ->
  Square.char_in c1 "12345678" = true ->
  let sq := Square.mk (Square.ord (Square.lower c0) - Square.ord "a")
                      (Square.int_of_digit c1 - 1) in
  Square.from_algebraic (String c0 (String c1 EmptyString)) = Ok sq /\
  valid_square sq /\
  Square.to_algebraic sq = String (Square.lower c0) (String c1 EmptyString).
Proof.
  intros Hf Hr. cbv zeta. unfold Square.from_algebraic. rewrite Hf, Hr. simpl.
  apply char_in_cases in Hf, Hr. simpl in Hf, Hr.
  destruct Hf as [<-|[<-|[<-|[<-|[<-|[<-|[<-|[<-|[]]]]]]]]];
    destruct Hr as [<-|[<-|[<-|[<-|[<-|[<-|[<-|[<-|[]]]]]]]]];
    vm_compute; repeat split; discriminate.
Qed.

(** C9, as the code has it.  On the 64 valid pairs the constructor
    succeeds and [from_algebraic] undoes [to_algebraic]; [from_algebraic]
    raises exactly on the strings of the wrong length, with a file
    character outside a-h and A-H, or with a rank character outside 1-8;
    and when it succeeds the square is on the board and is the one the
    string, with its file letter lower-cased, denotes. *)
Theorem algebraic_round_trip :
  (forall f r, 0 <= f <= 7 -> 0 <= r <= 7 ->
     Square.__init__ f r = Ok (Square.mk f r) /\
     Square.from_algebraic (Square.to_algebraic (Square.mk f r)) = Ok (Square.mk f r)) /\
  (forall s, Square.from_algebraic s = Raise ValueError <-> malformed s = true) /\
  (forall s sq, Square.from_algebraic s = Ok sq ->
     valid_square sq /\ Square.to_algebraic sq = lower_file s).
Proof.
  split; [|split].
  - intros f r Hf Hr. split; [by apply Square_init_valid|].
    assert (Cf : f = 0 \/ f = 1 \/ f = 2 \/ f = 3 \/ f = 4 \/ f = 5 \/ f = 6 \/ f = 7)
      by lia.
    assert (Cr : r = 0 \/ r = 1 \/ r = 2 \/ r = 3 \/ r = 4 \/ r = 5 \/ r = 6 \/ r = 7)
      by lia.
    destruct Cf as [->|[->|[->|[->|[->|[->|[->| ->]]]]]]];
      destruct Cr as [->|[->|[->|[->|[->|[->|[->| ->]]]]]]]; reflexivity.
  - intros s. unfold malformed.
    destruct s as [|c0 [|c1 [|c2 s]]]; try (simpl; tauto).
    destruct (Square.char_in (Square.lower c0) "abcdefgh") eqn:Hf.
    + destruct (Square.char_in c1 "12345678") eqn:Hr.
      * destruct (from_algebraic_accepts c0 c1 Hf Hr) as (-> & _). simpl.
        split; discriminate.
      * unfold Square.from_algebraic. rewrite Hf, Hr. simpl. tauto.
    + unfold Square.from_algebraic. rewrite Hf. simpl. tauto.
  - intros s sq Hs.
    destruct s as [|c0 [|c1 [|c2 s]]]; try discriminate.
    unfold Square.from_algebraic in Hs.
    destruct (Square.char_in (Square.lower c0) "abcdefgh") eqn:Hf; [|discriminate].
    destruct (Square.char_in c1 "12345678") eqn:Hr; [|discriminate].
    destruct (from_algebraic_accepts c0 c1 Hf Hr) as (Hok & Hv & Hto).
    unfold Square.from_algebraic in Hok. rewrite Hf, Hr in Hok.
    simpl in Hs, Hok. rewrite Hok in Hs. injection Hs as <-.
    split; assumption.
Qed.

(** ** The attacked square itself *)

(** C10.  [is_square_attacked] never reads the queried square: two valid
    states whose boards differ on that square only give the same answer;
    in particular, putting any piece on the square, or emptying it, does
    not change the answer, and the query returns without raising. *)
Theorem attack_ignores_target_square (s : GameState) (square : Square)
    (by_color : Color) :
  state_wf s -> valid_square square ->
  (forall s', same_except square s s' ->
     CheckDetector.is_square_attacked s' square by_color =
     CheckDetector.is_square_attacked s square by_color) /\
  (forall content,
     CheckDetector.is_square_attacked
       (MoveValidator.with_board s (Board.set_piece (GameState.board s) square content))
       square by_color =
     CheckDetector.is_square_attacked s square by_color) /\
  exists attacked, CheckDetector.is_square_attacked s square by_color = Ok attacked.
Proof.
  intros [Hwf _] Hsq. split; [|split].
  - intros s' Hsame. symmetry. by apply is_square_attacked_same_except.
  - intros content. symmetry. apply is_square_attacked_same_except; [assumption|].
    intros sq Hv Hne. unfold MoveValidator.with_board. cbn [GameState.board].
    rewrite get_set_piece by assumption. by rewrite decide_False.
  - by apply is_square_attacked_total.
Qed.

(** ** Worked examples *)

Ltac solve_concrete_wf :=
  split; [split; [reflexivity | vm_compute; repeat constructor] | exact I].

Ltac pick_member := vm_compute; repeat first [left; reflexivity | right].

(** The initial position has 20 legal moves for White: 16 by the pawns
    and 4 by the knights. *)
Example initial_position_legal_moves :
  exists ms, ChessEngine.get_legal_moves sample_start WHITE = Ok ms /\
             length ms = 20%nat /\
             length (List.filter (fun m => bool_decide
                       (Piece.piece_type (Move.piece m) = PAWN)) ms) = 16%nat.
Proof. eexists. split; [vm_compute; reflexivity|]. split; reflexivity. Qed.

Lemma legal_move_leaves_king_safe_witness :
  exists p', @ChessEngine.execute_move sample_hash sample_start e2e4 = Ok p' /\
             CheckDetector.is_check p' WHITE = Ok false.
Proof.
  eapply (@legal_move_leaves_king_safe sample_hash sample_start WHITE).
  - solve_concrete_wf.
  - vm_compute. reflexivity.
  - pick_member.
Defined.

Lemma checkmate_stalemate_characterisation_witness :
  exists (in_check : bool) (legal_moves : list Move),
    CheckDetector.is_check sample_start (GameState.current_player sample_start) =
      Ok in_check /\
    ChessEngine.get_legal_moves sample_start (GameState.current_player sample_start) =
      Ok legal_moves /\
    ChessEngine.is_checkmate sample_start =
      Ok (in_check && bool_decide (legal_moves = [])) /\
    ChessEngine.is_stalemate sample_start =
      Ok (negb in_check && bool_decide (legal_moves = [])) /\
    ~ (ChessEngine.is_checkmate sample_start = Ok true /\
       ChessEngine.is_stalemate sample_start = Ok true).
Proof.
  apply (checkmate_stalemate_characterisation sample_start). solve_concrete_wf.
Defined.

(** C4 as written fails: without a white king the pawn on e2 still has
    its two pushes as legal moves. *)
Lemma kingless_side_has_legal_moves :
  state_wf kingless_state /\
  CheckDetector.find_king_position kingless_state WHITE = None /\
  ChessEngine.get_legal_moves kingless_state WHITE = Ok [e2e3; e2e4].
Proof. split; [solve_concrete_wf | split; vm_compute; reflexivity]. Qed.

Lemma missing_king_queries_witness :
  CheckDetector.is_check kingless_state WHITE = Ok false /\
  ChessEngine.get_legal_moves kingless_state WHITE =
    Ok (MoveGenerator.generate_pseudo_legal_moves kingless_state WHITE).
Proof.
  apply (missing_king_queries kingless_state WHITE).
  - solve_concrete_wf.
  - assert (E : CheckDetector.find_king_position kingless_state WHITE = None)
      by (vm_compute; reflexivity).
    exact (proj1 (find_king_position_None kingless_state WHITE) E).
Defined.

Lemma execute_move_counters_witness :
  exists p',
    @ChessEngine.execute_move sample_hash sample_start e2e4 = Ok p' /\
    (moved_two_ranks e2e4 = true ->
     Square.rank (Move.to_square e2e4) =
     Square.rank (Move.from_square e2e4) +
     2 * pawn_direction (Piece.color (Move.piece e2e4))) /\
    (GameState.en_passant_target p' <> None <-> moved_two_ranks e2e4 = true) /\
    GameState.en_passant_target p' =
      (if moved_two_ranks e2e4 then Some (square_passed_over e2e4) else None) /\
    GameState.halfmove_clock p' =
      (if is_pawn_move e2e4 || is_capture e2e4 then 0
       else GameState.halfmove_clock sample_start + 1) /\
    GameState.fullmove_number p' =
      (if decide (Piece.color (Move.piece e2e4) = BLACK)
       then GameState.fullmove_number sample_start + 1
       else GameState.fullmove_number sample_start).
Proof.
  apply (@execute_move_counters sample_hash sample_start e2e4). pick_member.
Defined.

Lemma position_hash_depends_on_position_only_witness :
  @GameState.compute_position_hash sample_hash sample_start =
  @GameState.compute_position_hash sample_hash sample_start_later.
Proof.
  apply (@position_hash_depends_on_position_only sample_hash);
    vm_compute; reflexivity.
Defined.

(** C9 as written fails: the file letter E lies outside a-h, and the
    string is accepted all the same. *)
Lemma upper_case_file_is_accepted :
  malformed_as_written "E4" = true /\
  Square.from_algebraic "E4" = Ok (Square.mk 4 3).
Proof. split; reflexivity. Qed.

Lemma algebraic_round_trip_witness :
  Square.__init__ 4 3 = Ok (Square.mk 4 3) /\
  Square.from_algebraic (Square.to_algebraic (Square.mk 4 3)) = Ok (Square.mk 4 3).
Proof. apply (proj1 algebraic_round_trip 4 3); lia. Defined.

Lemma attack_ignores_target_square_witness :
  (forall s', same_except (Square.mk 5 2) sample_start s' ->
     CheckDetector.is_square_attacked s' (Square.mk 5 2) WHITE =
     CheckDetector.is_square_attacked sample_start (Square.mk 5 2) WHITE) /\
  (forall content,
     CheckDetector.is_square_attacked
       (MoveValidator.with_board sample_start
          (Board.set_piece (GameState.board sample_start) (Square.mk 5 2) content))
       (Square.mk 5 2) WHITE =
     CheckDetector.is_square_attacked sample_start (Square.mk 5 2) WHITE) /\
  exists attacked,
    CheckDetector.is_square_attacked sample_start (Square.mk 5 2) WHITE = Ok attacked.
Proof.
  apply (attack_ignores_target_square sample_start (Square.mk 5 2) WHITE).
  - solve_concrete_wf.
  - unfold valid_square. simpl. lia.
Defined.

Lemma castling_rights_monotone_witness :
  exists p',
    @ChessEngine.execute_move sample_hash castle_state castle_kingside = Ok p' /\
    rights_le (GameState.castling_rights p') (GameState.castling_rights castle_state) /\
    kingside (GameState.castling_rights p') WHITE = false /\
    queenside (GameState.castling_rights p') WHITE = false.
Proof.
  destruct (@castling_rights_monotone sample_hash castle_state castle_kingside)
    as [Hreturns Hrights].
  destruct Hreturns as [p' Hp']; [discriminate|].
  exists p'. split; [exact Hp'|].
  destruct (Hrights p' Hp') as (Hle & Hking & _).
  split; [exact Hle|]. by apply Hking.
Defined.

(** * Further properties of the models and the engine *)

(** ** The board *)

(** X1.  Writing a square and reading any square back: on an 8x8 board
    [set_piece] changes the written square and no other, and keeps the
    grid 8x8; [remove_piece] is the same with an empty square. *)
Theorem board_write_then_read (b : Board) (sq s : Square) (content : option Piece) :
  board_wf b -> valid_square sq -> valid_square s ->
  board_wf (Board.set_piece b sq content) /\
  Board.get_piece (Board.set_piece b sq content) s =
    (if decide (s = sq) then content else Board.get_piece b s) /\
  Board.get_piece (Board.remove_piece b sq) s =
    (if decide (s = sq) then None else Board.get_piece b s).
Proof.
  intros Hwf Hsq Hs. split; [by apply set_piece_wf|].
  split; [by apply get_set_piece | by apply get_remove_piece].
Qed.

(** X2.  [Board.copy] of an 8x8 board is a board equal to the original,
    and so is [GameState.copy] of a state with such a board: later writes
    to the copy leave the original's squares as they were. *)
Theorem copies_are_equal (s : GameState) (sq : Square) (content : option Piece) :
  board_wf (GameState.board s) -> valid_square sq ->
  Board.copy (GameState.board s) = GameState.board s /\
  GameState.copy s = s /\
  (forall q, valid_square q -> q <> sq ->
     Board.get_piece (Board.set_piece (Board.copy (GameState.board s)) sq content) q =
     Board.get_piece (GameState.board s) q).
Proof.
  intros Hwf Hsq. split; [by apply board_copy_id|].
  split; [by apply game_state_copy_id|].
  intros q Hq Hne. rewrite board_copy_id by assumption.
  rewrite get_set_piece by assumption. by rewrite decide_False.
Qed.

Lemma NoDup_all_squares : List.NoDup all_squares.
Proof.
  apply NoDup_ListNoDup.
  assert (E : bool_decide (NoDup all_squares) = true) by (vm_compute; reflexivity).
  by apply bool_decide_eq_true in E.
Qed.

Lemma get_all_pieces_keys (b : Board) (c : Color) (l : list Square) :
  List.NoDup l ->
  List.NoDup (map fst
    (flat_map (fun square =>
       match Board.get_piece b square with
       | Some piece =>
           if decide (Piece.color piece = c) then [(square, piece)] else []
       | None => []
       end) l)) /\
  forall sq, In sq (map fst
    (flat_map (fun square =>
       match Board.get_piece b square with
       | Some piece =>
           if decide (Piece.color piece = c) then [(square, piece)] else []
       | None => []
       end) l)) -> In sq l.
Proof.
  induction 1 as [|x l Hx Hnd [IH1 IH2]]; simpl; [split; [constructor | tauto]|].
  destruct (Board.get_piece b x) as [p|]; [destruct (decide (Piece.color p = c))|];
    simpl; (split; [|intros sq Hin]).
  - constructor; [|assumption]. intros Hin. apply Hx. by apply IH2.
  - destruct Hin as [->|Hin]; [by left | right; auto].
  - assumption.
  - right; auto.
  - assumption.
  - right; auto.
Qed.

(** X3.  [get_all_pieces] lists exactly the occupied squares of the given
    colour, each with the piece standing on it, and no square twice. *)
Theorem get_all_pieces_spec (b : Board) (c : Color) :
  (forall sq p,
     In (sq, p) (Board.get_all_pieces b c) <->
     valid_square sq /\ Board.get_piece b sq = Some p /\ Piece.color p = c) /\
  List.NoDup (map fst (Board.get_all_pieces b c)).
Proof.
  split; [intros; apply in_get_all_pieces|].
  apply get_all_pieces_keys, NoDup_all_squares.
Qed.

(** ** The attack detector, by geometry *)

Lemma _is_path_clear_loop_true (state : GameState) (from_square to_square : Square)
    (fs rs : Z) :
  valid_square from_square -> valid_square to_square ->
  -1 <= fs <= 1 -> -1 <= rs <= 1 -> (fs <> 0 \/ rs <> 0) ->
  forall (fuel : nat) (k : Z),
    1 <= k -> 9 <= Z.of_nat fuel + k ->
    CheckDetector._is_path_clear_loop fuel state to_square fs rs
      (Square.file from_square + k * fs) (Square.rank from_square + k * rs)
    = Some (Ok true) <->
    exists d, k <= d /\
      Square.file to_square = Square.file from_square + d * fs /\
      Square.rank to_square = Square.rank from_square + d * rs /\
      forall j, k <= j < d ->
        Board.get_piece (GameState.board state)
          (Square.mk (Square.file from_square + j * fs)
                     (Square.rank from_square + j * rs)) = None.
Proof.
  intros [Hff Hfr] [Htf Htr] Hfs Hrs Hstep.
  assert (Cf : fs = -1 \/ fs = 0 \/ fs = 1) by lia.
  assert (Cr : rs = -1 \/ rs = 0 \/ rs = 1) by lia.
  induction fuel as [|fuel IH]; intros k Hk Hfuel; simpl.
  - split; [discriminate|]. intros (d & Hd & Ef & Er & _). exfalso.
    destruct Cf as [-> | [-> | ->]], Cr as [-> | [-> | ->]]; lia.
  - destruct (negb _ || negb _) eqn:Hcond.
    + destruct (Square.__init__ _ _) as [sq|e] eqn:Hsq.
      * apply Square_init_Ok in Hsq as [-> Hv].
        destruct (Board.get_piece _ _) eqn:Hget.
        -- split; [discriminate|]. intros (d & Hd & Ef & Er & Hempty). exfalso.
           assert (d <> k) by (intros ->; lia).
           rewrite Hempty in Hget by lia. discriminate.
        -- replace (Square.file from_square + k * fs + fs)
             with (Square.file from_square + (k + 1) * fs) by lia.
           replace (Square.rank from_square + k * rs + rs)
             with (Square.rank from_square + (k + 1) * rs) by lia.
           rewrite IH by lia. split.
           ++ intros (d & Hd & Ef & Er & Hempty). exists d.
              repeat split; try assumption; try lia.
              intros j Hj. destruct (decide (j = k)) as [-> | ]; [assumption|].
              apply Hempty. lia.
           ++ intros (d & Hd & Ef & Er & Hempty). exists d.
              assert (d <> k) by (intros ->; lia).
              repeat split; try assumption; try lia.
              intros j Hj. apply Hempty. lia.
      * split; [discriminate|]. intros (d & Hd & Ef & Er & _). exfalso.
        assert (d <> k) by (intros ->; lia).
        apply Square_init_Raise in Hsq. apply Hsq.
        destruct Cf as [-> | [-> | ->]], Cr as [-> | [-> | ->]]; lia.
    + split; [|reflexivity]. intros _. exists k.
      repeat split; try lia.
Qed.

Lemma _is_path_clear_true (state : GameState) (from_square to_square : Square) :
  valid_square from_square -> valid_square to_square ->
  CheckDetector._is_path_clear state from_square to_square = Ok true <->
  clear_line state from_square to_square.
Proof.
  intros Hfrom Hto.
  destruct (_is_path_clear_loop_fuel state from_square to_square Hfrom Hto)
    as (r & Hloop & Hr).
  rewrite Hr. unfold clear_line.
  pose proof (step_of_cases (Square.file to_square - Square.file from_square)) as Cf.
  pose proof (step_of_cases (Square.rank to_square - Square.rank from_square)) as Cr.
  set (fs := step_of (Square.file to_square - Square.file from_square)) in *.
  set (rs := step_of (Square.rank to_square - Square.rank from_square)) in *.
  destruct (decide (fs = 0 /\ rs = 0)) as [[Zf Zr] | Hnz].
  - rewrite Zf, Zr in Hloop. simpl in Hloop.
    assert (Ef : Square.file from_square + 0 = Square.file to_square) by lia.
    assert (Er : Square.rank from_square + 0 = Square.rank to_square) by lia.
    rewrite Ef, Er, !Z.eqb_refl in Hloop. simpl in Hloop. injection Hloop as <-.
    split; [|reflexivity]. intros _. exists 1. rewrite Zf, Zr.
    repeat split; try lia.
  - pose proof (_is_path_clear_loop_true state from_square to_square fs rs
                  Hfrom Hto ltac:(lia) ltac:(lia) ltac:(lia) 8%nat 1
                  ltac:(lia) ltac:(lia)) as Hspec.
    rewrite !Z.mul_1_l in Hspec. rewrite Hloop in Hspec.
    split.
    + intros ->. by apply Hspec.
    + intros Hline. apply Hspec in Hline. congruence.
Qed.

(** X4.  [_is_path_clear] between two squares of the board answers true
    exactly when the second lies on the line the walk follows and every
    square strictly between them is empty; for squares on a common rank,
    file or diagonal it returns and does not raise. *)
Theorem _is_path_clear_spec (state : GameState) (from_square to_square : Square) :
  valid_square from_square -> valid_square to_square ->
  (CheckDetector._is_path_clear state from_square to_square = Ok true <->
   clear_line state from_square to_square) /\
  (aligned from_square to_square ->
   exists b, CheckDetector._is_path_clear state from_square to_square = Ok b).
Proof.
  intros Hfrom Hto.
  split; [by apply _is_path_clear_true | by apply _is_path_clear_aligned].
Qed.

Lemma Ok_true_iff (b : bool) : @Ok bool b = Ok true <-> b = true.
Proof. split; [by intros [= ->] | by intros ->]. Qed.

Lemma _can_bishop_attack_spec (state : GameState) (from_square target : Square) :
  valid_square from_square -> valid_square target ->
  CheckDetector._can_bishop_attack state from_square target = Ok true <->
  Z.abs (Square.file target - Square.file from_square) =
    Z.abs (Square.rank target - Square.rank from_square) /\
  Square.file target - Square.file from_square <> 0 /\
  clear_line state from_square target.
Proof.
  intros Hfrom Hto. unfold CheckDetector._can_bishop_attack.
  destruct (negb _ || _) eqn:Hcond.
  - split; [discriminate|]. intros (? & ? & _). lia.
  - rewrite (_is_path_clear_true state from_square target Hfrom Hto).
    split; [intros ?; repeat split; (assumption || lia) | tauto].
Qed.

Lemma _can_rook_attack_spec (state : GameState) (from_square target : Square) :
  valid_square from_square -> valid_square target ->
  CheckDetector._can_rook_attack state from_square target = Ok true <->
  ((Square.file target - Square.file from_square = 0 /\
    Square.rank target - Square.rank from_square <> 0) \/
   (Square.file target - Square.file from_square <> 0 /\
    Square.rank target - Square.rank from_square = 0)) /\
  clear_line state from_square target.
Proof.
  intros Hfrom Hto. unfold CheckDetector._can_rook_attack.
  destruct (negb _) eqn:Hcond.
  - split; [discriminate|]. intros (? & _). lia.
  - rewrite (_is_path_clear_true state from_square target Hfrom Hto).
    split; [intros ?; split; (assumption || lia) | tauto].
Qed.

Lemma _can_piece_attack_square_spec (state : GameState) (from_square : Square)
    (p : Piece) (target : Square) :
  valid_square from_square -> valid_square target ->
  CheckDetector._can_piece_attack_square state from_square p target = Ok true <->
  attacks state from_square p target.
Proof.
  intros Hfrom Hto. unfold CheckDetector._can_piece_attack_square, attacks.
  destruct (Piece.piece_type p).
  - rewrite Ok_true_iff. unfold CheckDetector._can_pawn_attack, pawn_direction.
    case_decide; lia.
  - rewrite Ok_true_iff. unfold CheckDetector._can_knight_attack. lia.
  - by apply _can_bishop_attack_spec.
  - by apply _can_rook_attack_spec.
  - unfold CheckDetector._can_queen_attack.
    pose proof (_can_bishop_attack_spec state from_square target Hfrom Hto) as Hb.
    pose proof (_can_rook_attack_spec state from_square target Hfrom Hto) as Hr.
    destruct (_can_bishop_attack_total state from_square target Hfrom Hto)
      as [[] Eb]; rewrite Eb in *; simpl.
    + split; [|reflexivity]. intros _.
      destruct (proj1 Hb eq_refl) as (? & ? & ?). split; [left|]; auto.
    + rewrite Hr. split.
      * intros [Hshape Hline]. split; [right|]; assumption.
      * intros [[Hdiag | Hstraight] Hline]; [|split; assumption].
        exfalso. destruct Hdiag.
        assert (@Ok bool false = Ok true) by (apply Hb; auto). discriminate.
  - rewrite Ok_true_iff. unfold CheckDetector._can_king_attack. lia.
Qed.

Lemma is_square_attacked_loop_spec (state : GameState) (square : Square)
    (pieces : list (Square * Piece)) :
  valid_square square ->
  Forall (fun item => valid_square (fst item)) pieces ->
  CheckDetector.is_square_attacked_loop state square pieces = Ok true <->
  exists item, In item pieces /\ attacks state (fst item) (snd item) square.
Proof.
  intros Hsq. induction 1 as [|[s p] rest Hs _ IH]; simpl.
  - split; [discriminate | intros (? & [] & _)].
  - pose proof (_can_piece_attack_square_spec state s p square Hs Hsq) as Hspec.
    destruct (_can_piece_attack_square_total state s p square Hs Hsq) as [[] E];
      rewrite E in *; simpl.
    + split; [|reflexivity]. intros _. exists (s, p). split; [by left|].
      by apply Hspec.
    + rewrite IH. split.
      * intros (item & Hin & Hatt). exists item. split; [by right | assumption].
      * intros (item & [<- | Hin] & Hatt); [|by exists item].
        simpl in Hatt. apply Hspec in Hatt. discriminate.
Qed.

(** X5.  [is_square_attacked] answers true exactly when some piece of the
    attacking colour stands on a square from which its movement pattern
    reaches the queried square (pawns by their forward diagonals, knights
    by the L, kings by adjacency, sliding pieces along a clear line); and
    [is_check] answers true exactly when the king it finds is attacked in
    this sense by the other colour. *)
Theorem is_square_attacked_spec (state : GameState) (square : Square) (c : Color) :
  valid_square square ->
  (CheckDetector.is_square_attacked state square c = Ok true <->
   exists s p, valid_square s /\
     Board.get_piece (GameState.board state) s = Some p /\ Piece.color p = c /\
     attacks state s p square) /\
  (CheckDetector.is_check state c = Ok true <->
   exists king_square s p,
     CheckDetector.find_king_position state c = Some king_square /\
     valid_square s /\
     Board.get_piece (GameState.board state) s = Some p /\
     Piece.color p = Color.opposite c /\
     attacks state s p king_square).
Proof.
  intros Hsq.
  assert (Hatt : forall t col, valid_square t ->
    CheckDetector.is_square_attacked state t col = Ok true <->
    exists s p, valid_square s /\
      Board.get_piece (GameState.board state) s = Some p /\ Piece.color p = col /\
      attacks state s p t).
  { intros t col Ht. unfold CheckDetector.is_square_attacked.
    rewrite is_square_attacked_loop_spec; [|assumption|].
    - split.
      + intros ([s p] & Hin & Ha). apply in_get_all_pieces in Hin as (? & ? & ?).
        exists s, p. auto.
      + intros (s & p & Hv & Hget & Hc & Ha). exists (s, p).
        split; [|assumption]. by apply in_get_all_pieces.
    - apply List.Forall_forall. intros [s p] Hin.
      apply in_get_all_pieces in Hin. tauto. }
  split; [by apply Hatt|].
  unfold CheckDetector.is_check.
  destruct (CheckDetector.find_king_position state c) as [k|] eqn:Hk.
  - pose proof (find_king_position_Some state c k Hk) as [Hv _].
    rewrite (Hatt k (Color.opposite c) Hv). split.
    + intros (s & p & ?). exists k, s, p. tauto.
    + intros (k' & s & p & [= <-] & ?). exists s, p. tauto.
  - split; [discriminate|]. intros (k' & s & p & Hfalse & _). discriminate.
Qed.

(** ** What the generator records in a move *)

Lemma _generate_pawn_moves_fields (state : GameState) (square : Square) (p : Piece)
    (m : Move) :
  Piece.piece_type p = PAWN ->
  In m (MoveGenerator._generate_pawn_moves state square p) ->
  generated_fields state square p m.
Proof.
  intros Hp Hin. unfold MoveGenerator._generate_pawn_moves in Hin.
  simpl in Hin. unfold in_bounds in *.
  explode_in; repeat case_match; try discriminate; bool_facts; subst;
    constructor; simpl; try (intros; discriminate); try (intros; congruence);
    try reflexivity;
    try (intros _ _; split; [intros _; lia | intros _; discriminate]);
    try (intros _ _; split; [intros N; by destruct N | intros; lia]);
    try (intros _; symmetry; assumption);
    try (intros _ ? [= <-]; assumption).
Qed.

Lemma plain_move_fields (state : GameState) (square to_square : Square) (p : Piece) :
  Piece.piece_type p <> PAWN ->
  match Board.get_piece (GameState.board state) to_square with
  | None => True
  | Some target => Piece.color target <> Piece.color p
  end ->
  generated_fields state square p
    (Move.mk square to_square p
       (Board.get_piece (GameState.board state) to_square) None false false).
Proof.
  intros Hp Htarget. constructor; simpl; try reflexivity; try (intros; discriminate);
    try (intros; congruence).
  intros _ q Hq. by rewrite Hq in Htarget.
Qed.

Lemma step_moves_fields (state : GameState) (square : Square) (p : Piece)
    (offsets : list (Z * Z)) (m : Move) :
  Piece.piece_type p <> PAWN ->
  In m (MoveGenerator.step_moves state square p offsets) ->
  generated_fields state square p m.
Proof.
  intros Hp Hin. unfold MoveGenerator.step_moves in Hin.
  apply in_flat_map in Hin as ([fo ro] & _ & Hin).
  destruct (in_bounds _ _); [|destruct Hin].
  destruct (Board.get_piece _ _) as [target|] eqn:Hget; simpl in Hin.
  - destruct (bool_decide _) eqn:Hc; [|destruct Hin].
    destruct Hin as [<- | []]. rewrite <- Hget. apply plain_move_fields; [assumption|].
    rewrite Hget. by apply bool_decide_eq_true in Hc.
  - destruct Hin as [<- | []]. rewrite <- Hget. apply plain_move_fields; [assumption|].
    by rewrite Hget.
Qed.

Lemma _generate_sliding_moves_loop_fields (fuel : nat) (state : GameState)
    (square : Square) (p : Piece) (fd rd cf cr : Z) (m : Move) :
  Piece.piece_type p <> PAWN ->
  In m (MoveGenerator._generate_sliding_moves_loop fuel state square p fd rd cf cr) ->
  generated_fields state square p m.
Proof.
  intros Hp. revert cf cr.
  induction fuel as [|fuel IH]; intros cf cr Hin; simpl in Hin; [destruct Hin|].
  destruct (in_bounds cf cr); simpl in Hin; [|destruct Hin].
  destruct (Board.get_piece _ _) as [target|] eqn:Hget.
  - destruct (decide _) as [Hc|]; [|destruct Hin].
    destruct Hin as [<- | []]. rewrite <- Hget. apply plain_move_fields; [assumption|].
    by rewrite Hget.
  - destruct Hin as [<- | Hin]; [|by eapply IH].
    rewrite <- Hget. apply plain_move_fields; [assumption|]. by rewrite Hget.
Qed.

Lemma castling_wing_fields (state : GameState) (square : Square) (p : Piece)
    (right : bool) (start : Square) (between : list Square)
    (rook_square to_square : Square) (rook_color : Color) (m : Move) :
  Piece.piece_type p = KING -> In to_square between ->
  In m (MoveGenerator.castling_wing state square p right start between
          rook_square to_square rook_color) ->
  generated_fields state square p m.
Proof.
  intros Hp Hbetween Hin. unfold MoveGenerator.castling_wing in Hin.
  destruct (right && _); [|destruct Hin].
  destruct (forallb _ between) eqn:Hempty; [|destruct Hin].
  rewrite forallb_forall in Hempty. specialize (Hempty _ Hbetween).
  destruct (Board.get_piece _ to_square) eqn:Hto; [discriminate|].
  explode_in; subst.
  constructor; simpl; try (intros; discriminate); try (intros; congruence).
Qed.

Lemma generate_piece_moves_fields (state : GameState) (square : Square) (p : Piece)
    (m : Move) :
  Board.get_piece (GameState.board state) square = Some p ->
  In m (MoveGenerator.generate_piece_moves state square) ->
  generated_fields state square p m.
Proof.
  intros Hget Hin. unfold MoveGenerator.generate_piece_moves in Hin.
  rewrite Hget in Hin.
  destruct (Piece.piece_type p) eqn:Hp.
  - by apply _generate_pawn_moves_fields.
  - eapply step_moves_fields; [congruence | exact Hin].
  - apply in_flat_map in Hin as ([fd rd] & _ & Hin).
    eapply _generate_sliding_moves_loop_fields; [congruence | exact Hin].
  - apply in_flat_map in Hin as ([fd rd] & _ & Hin).
    eapply _generate_sliding_moves_loop_fields; [congruence | exact Hin].
  - apply in_flat_map in Hin as ([fd rd] & _ & Hin).
    eapply _generate_sliding_moves_loop_fields; [congruence | exact Hin].
  - unfold MoveGenerator._generate_king_moves in Hin.
    apply in_app_or in Hin as [Hin|Hin].
    + eapply step_moves_fields; [congruence | exact Hin].
    + unfold MoveGenerator._generate_castling_moves in Hin.
      destruct (decide (Piece.color p = WHITE));
        apply in_app_or in Hin as [Hin|Hin];
        (eapply castling_wing_fields; [exact Hp | | exact Hin]);
        simpl; tauto.
Qed.

Lemma generate_pseudo_legal_moves_fields (state : GameState) (c : Color) (m : Move) :
  In m (MoveGenerator.generate_pseudo_legal_moves state c) ->
  generated_fields state (Move.from_square m) (Move.piece m) m.
Proof.
  intros Hin. pose proof (generate_pseudo_legal_moves_shape state c m Hin)
    as (_ & Hget & _ & _).
  unfold MoveGenerator.generate_pseudo_legal_moves in Hin.
  apply in_flat_map in Hin as ([sq p] & Hpiece & Hin).
  apply in_get_all_pieces in Hpiece as (Hv & Hget' & Hc).
  pose proof (generate_piece_moves_shape state sq m Hv Hin) as (q & Hq & Hgen).
  rewrite <- (gen_from _ _ _ _ Hgen) in Hin.
  by apply generate_piece_moves_fields.
Qed.

(** X6.  Every pseudo-legal move of a colour moves a piece of that colour
    from the square it stands on to a square of the board.  Unless it is
    an en-passant capture, its [captured_piece] is what stands on the
    destination, which is never a piece of the mover's colour; an
    en-passant capture lands on the state's en-passant target and records
    what stands beside the pawn, on its own rank and the target's file. *)
Theorem generated_move_fields (state : GameState) (c : Color) (m : Move) :
  In m (MoveGenerator.generate_pseudo_legal_moves state c) ->
  valid_square (Move.from_square m) /\ valid_square (Move.to_square m) /\
  Board.get_piece (GameState.board state) (Move.from_square m) = Some (Move.piece m) /\
  Piece.color (Move.piece m) = c /\
  (Move.is_en_passant m = false ->
   Move.captured_piece m =
     Board.get_piece (GameState.board state) (Move.to_square m) /\
   forall q, Board.get_piece (GameState.board state) (Move.to_square m) = Some q ->
             Piece.color q <> c) /\
  (Move.is_en_passant m = true ->
   GameState.en_passant_target state = Some (Move.to_square m) /\
   Piece.piece_type (Move.piece m) = PAWN /\
   Move.captured_piece m =
     Board.get_piece (GameState.board state)
       (Square.mk (Square.file (Move.to_square m))
                  (Square.rank (Move.from_square m)))).
Proof.
  intros Hin.
  pose proof (generate_pseudo_legal_moves_fields state c m Hin) as Hfields.
  apply generate_pseudo_legal_moves_shape in Hin as (Hv & Hget & Hc & Hgen).
  split; [assumption|]. split; [exact (gen_to_valid _ _ _ _ Hgen)|].
  split; [assumption|]. split; [assumption|]. split.
  - intros Hep. split; [exact (fields_capture _ _ _ _ Hfields Hep)|].
    intros q Hq. rewrite <- Hc.
    apply (fields_not_own _ _ _ _ Hfields Hep).
    by rewrite (fields_capture _ _ _ _ Hfields Hep).
  - intros Hep. destruct (gen_en_passant _ _ _ _ Hgen Hep) as (Hp & _ & Ht & _).
    split; [assumption|]. split; [assumption|].
    exact (fields_en_passant _ _ _ _ Hfields Hep).
Qed.

(** X7.  Promotion.  A pseudo-legal move carries a promotion type only if
    it is a pawn move, and then the type is queen, rook, bishop or knight;
    a pawn move other than an en-passant capture carries one exactly when
    it lands on the first or the last rank, which is exactly when the
    controller's [_is_promotion_move] holds of it. *)
Theorem generated_promotions (state : GameState) (c : Color) (m : Move) :
  In m (MoveGenerator.generate_pseudo_legal_moves state c) ->
  (forall t, Move.promotion_piece m = Some t ->
     Piece.piece_type (Move.piece m) = PAWN /\
     (t = QUEEN \/ t = ROOK \/ t = BISHOP \/ t = KNIGHT)) /\
  (Move.is_en_passant m = true -> Move.promotion_piece m = None) /\
  (Piece.piece_type (Move.piece m) = PAWN -> Move.is_en_passant m = false ->
   (Move.promotion_piece m <> None <->
    Square.rank (Move.to_square m) = 7 \/ Square.rank (Move.to_square m) = 0)) /\
  (Move.is_en_passant m = false ->
   (GameController._is_promotion_move m = true <-> Move.promotion_piece m <> None)).
Proof.
  intros Hin.
  pose proof (generate_pseudo_legal_moves_fields state c m Hin) as Hfields.
  apply generate_pseudo_legal_moves_shape in Hin as ([_ Hr] & _ & _ & Hgen).
  pose proof (gen_to_valid _ _ _ _ Hgen) as [_ Htr].
  split; [|split; [|split]].
  - intros t Ht. split.
    + destruct (decide (Piece.piece_type (Move.piece m) = PAWN)) as [|Hn];
        [assumption|].
      rewrite (fields_promotion_other _ _ _ _ Hfields Hn) in Ht. discriminate.
    + pose proof (gen_promotion _ _ _ _ Hgen t Ht) as Ht'. simpl in Ht'.
      intuition auto.
  - intros Hep. by destruct (gen_en_passant _ _ _ _ Hgen Hep) as (_ & ? & _).
  - exact (fields_promotion_pawn _ _ _ _ Hfields).
  - intros Hep. unfold GameController._is_promotion_move.
    destruct (decide (Piece.piece_type (Move.piece m) <> PAWN)) as [Hn|Hp].
    + rewrite (fields_promotion_other _ _ _ _ Hfields Hn).
      split; [discriminate | intros N; by destruct N].
    + assert (Hpawn : Piece.piece_type (Move.piece m) = PAWN).
      { destruct (decide (Piece.piece_type (Move.piece m) = PAWN)); [assumption|].
        by destruct Hp. }
      rewrite (fields_promotion_pawn _ _ _ _ Hfields Hpawn Hep).
      pose proof (gen_pawn _ _ _ _ Hgen Hpawn) as Hstep.
      unfold pawn_direction, pawn_start_rank in Hstep.
      destruct (decide (Piece.color (Move.piece m) = WHITE)); lia.
Qed.

Section EnPassantWindow.
Context `{BuiltinHash}.

(** X8.  The en-passant window.  When the state has no en-passant target
    no pseudo-legal move of either colour is an en-passant capture; and
    after executing any move that is not a pawn changing rank by two the
    new state has no target, so it offers no en-passant capture. *)
Theorem en_passant_window (p : GameState) (m : Move) (p' : GameState) :
  ChessEngine.execute_move p m = Ok p' ->
  (forall c m', GameState.en_passant_target p = None ->
     In m' (MoveGenerator.generate_pseudo_legal_moves p c) ->
     Move.is_en_passant m' = false) /\
  (moved_two_ranks m = false ->
   GameState.en_passant_target p' = None /\
   forall c m', In m' (MoveGenerator.generate_pseudo_legal_moves p' c) ->
                Move.is_en_passant m' = false).
Proof.
  intros Hexec.
  assert (Hnone : forall s c m', GameState.en_passant_target s = None ->
            In m' (MoveGenerator.generate_pseudo_legal_moves s c) ->
            Move.is_en_passant m' = false).
  { intros s c m' Hs Hin.
    apply generate_pseudo_legal_moves_shape in Hin as (_ & _ & _ & Hgen).
    destruct (Move.is_en_passant m') eqn:Hep; [|reflexivity].
    destruct (gen_en_passant _ _ _ _ Hgen Hep) as (_ & _ & Ht & _). congruence. }
  split; [intros c m'; apply Hnone|].
  intros Hquiet.
  assert (Hep : GameState.en_passant_target p' = None).
  { apply execute_move_Ok in Hexec as (ep & Hcalc & _ & _ & _ & -> & _).
    unfold ChessEngine._calculate_en_passant_target, moved_two_ranks, is_pawn_move
      in *.
    destruct (decide (Piece.piece_type (Move.piece m) <> PAWN)) as [|Hp];
      [congruence|].
    rewrite bool_decide_eq_true_2 in Hquiet
      by (destruct (decide (Piece.piece_type (Move.piece m) = PAWN));
          [assumption | by destruct Hp]).
    simpl in Hquiet. rewrite Hquiet in Hcalc. simpl in Hcalc. congruence. }
  split; [assumption|]. intros c m'. by apply Hnone.
Qed.

End EnPassantWindow.

(** ** Legal moves as a filter *)

Lemma filter_legal_moves_filter (state : GameState) (l : list Move) :
  (forall m, In m l -> exists b, MoveValidator.is_legal_move state m = Ok b) ->
  MoveValidator.filter_legal_moves state l =
  Ok (List.filter (passes_validation state) l).
Proof.
  induction l as [|m l IH]; intros Hall; simpl; [reflexivity|].
  unfold passes_validation at 1.
  destruct (Hall m) as [b ->]; [by left|]. simpl.
  rewrite IH by (intros; apply Hall; by right). simpl. by destruct b.
Qed.

(** X9.  [get_legal_moves] never raises, and its result is the list of
    pseudo-legal moves with the moves failing [is_legal_move] removed:
    the legal moves keep the generator's order and multiplicity. *)
Theorem get_legal_moves_is_filter (p : GameState) (c : Color) :
  ChessEngine.get_legal_moves p c =
    Ok (List.filter (passes_validation p)
          (MoveGenerator.generate_pseudo_legal_moves p c)) /\
  (length (List.filter (passes_validation p)
             (MoveGenerator.generate_pseudo_legal_moves p c)) <=
   length (MoveGenerator.generate_pseudo_legal_moves p c))%nat.
Proof.
  split.
  - apply filter_legal_moves_filter. intros m Hin. by eapply is_legal_move_total.
  - apply List.filter_length_le.
Qed.

(** ** The executor: errors, board and bookkeeping *)

Section ExecutorMore.
Context `{BuiltinHash}.

(** X10.  [execute_move] raises in one situation only: the moved piece is
    a pawn whose rank changes by two and which stands on the far edge it
    cannot advance from (rank index 7 for White, 0 for Black), where the
    en-passant target would fall off the board.  Every other move between
    squares of the board is executed. *)
Theorem execute_move_raises (p : GameState) (m : Move) :
  move_wf m ->
  (ChessEngine.execute_move p m = Raise ValueError <->
   moved_two_ranks m = true /\
   Square.rank (Move.from_square m) =
     (if decide (Piece.color (Move.piece m) = WHITE) then 7 else 0)) /\
  (ChessEngine.execute_move p m <> Raise ValueError ->
   exists p', ChessEngine.execute_move p m = Ok p').
Proof.
  intros [[Hff Hfr] _]. split.
  - unfold ChessEngine.execute_move, ChessEngine._calculate_en_passant_target,
      moved_two_ranks, is_pawn_move.
    destruct (decide (Piece.piece_type (Move.piece m) <> PAWN)) as [Hn|Hp].
    + rewrite bool_decide_eq_false_2 by assumption. simpl.
      split; [discriminate | intros [? _]; discriminate].
    + rewrite bool_decide_eq_true_2
        by (destruct (decide (Piece.piece_type (Move.piece m) = PAWN));
            [assumption | by destruct Hp]).
      simpl. destruct (_ =? 2) eqn:E2; simpl.
      * destruct (decide (Piece.color (Move.piece m) = WHITE)).
        -- destruct (decide (Square.rank (Move.from_square m) = 7)) as [E7|N7].
           ++ unfold Square.__init__. rewrite E7.
              destruct (negb _); simpl; [tauto|]. tauto.
           ++ rewrite Square_init_valid by lia. simpl.
              split; [discriminate | intros [_ ?]; lia].
        -- destruct (decide (Square.rank (Move.from_square m) = 0)) as [E0|N0].
           ++ unfold Square.__init__. rewrite E0.
              destruct (negb _); simpl; [tauto|]. tauto.
           ++ rewrite Square_init_valid by lia. simpl.
              split; [discriminate | intros [_ ?]; lia].
      * split; [discriminate | intros [? _]; discriminate].
  - intros Hne. destruct (ChessEngine.execute_move p m) as [p'|[]]; [eauto|].
    by destruct Hne.
Qed.

Lemma play_cons (p : GameState) (m : Move) (rest : list Move) (q : GameState) :
  play p (m :: rest) = Ok q ->
  exists p1, ChessEngine.execute_move p m = Ok p1 /\ play p1 rest = Ok q.
Proof. simpl. intros Hplay. by apply bind_Ok in Hplay. Qed.

Lemma play_bookkeeping_from (moves : list Move) :
  forall p0 p, play p0 moves = Ok p ->
    GameState.move_history p = GameState.move_history p0 ++ moves /\
    length (GameState.position_history p) =
      (length (GameState.position_history p0) + length moves)%nat /\
    GameState.game_mode p = GameState.game_mode p0 /\
    GameState.current_player p =
      (if Nat.even (length moves) then GameState.current_player p0
       else Color.opposite (GameState.current_player p0)) /\
    GameState.fullmove_number p =
      GameState.fullmove_number p0 +
      (if decide (GameState.current_player p0 = WHITE)
       then Z.of_nat (length moves) / 2
       else (Z.of_nat (length moves) + 1) / 2) /\
    (moves <> [] ->
     last (GameState.position_history p) = Some (GameState.compute_position_hash p)).
Proof.
  induction moves as [|m rest IH]; intros p0 p Hplay.
  - simpl in Hplay. injection Hplay as <-. simpl.
    rewrite app_nil_r, Nat.add_0_r.
    split; [reflexivity|]. split; [reflexivity|]. split; [reflexivity|].
    split; [reflexivity|]. split; [case_decide; simpl; Z.div_mod_to_equations; lia|].
    intros N. by destruct N.
  - apply play_cons in Hplay as (p1 & Hexec & Hplay).
    apply execute_move_Ok in Hexec
      as (_ & _ & _ & Hc & _ & _ & _ & Hfull & Hmoves & Hhist & Hmode).
    destruct (IH p1 p Hplay) as (IHm & IHl & IHg & IHc & IHf & IHh).
    rewrite Hmoves in IHm. rewrite Hhist, length_app in IHl. simpl in IHl.
    rewrite Hmode in IHg. rewrite Hc in IHc, IHf. rewrite Hfull in IHf.
    split; [by rewrite IHm, <- app_assoc|].
    split; [simpl; lia|]. split; [assumption|].
    split.
    { change (length (m :: rest)) with (S (length rest)).
      rewrite Nat.even_succ, <- Nat.negb_even.
      rewrite IHc. destruct (Nat.even (length rest)); simpl; [reflexivity|].
      by destruct (GameState.current_player p0). }
    split.
    { rewrite IHf. unfold exec_fullmove_number.
      change (length (m :: rest)) with (S (length rest)).
      rewrite Nat2Z.inj_succ.
      destruct (GameState.current_player p0); simpl; Z.div_mod_to_equations; lia. }
    intros _. destruct rest as [|m' rest'].
    + simpl in Hplay. injection Hplay as <-. rewrite Hhist. apply last_snoc.
    + apply IHh. discriminate.
Qed.

(** X11.  Bookkeeping along a game.  After any sequence of moves executed
    from a new game, the move history is that sequence, the position
    history has one entry more than there were moves and ends with the
    hash of the current position, the mode is the one the game was started
    in, White is to move after an even number of moves and Black after an
    odd number, and the fullmove number is one plus the number of moves
    Black has made. *)
Theorem play_bookkeeping (mode : GameMode) (moves : list Move) (p : GameState) :
  play (GameState.new_game mode) moves = Ok p ->
  GameState.move_history p = moves /\
  length (GameState.position_history p) = S (length moves) /\
  last (GameState.position_history p) = Some (GameState.compute_position_hash p) /\
  GameState.game_mode p = mode /\
  GameState.current_player p = (if Nat.even (length moves) then WHITE else BLACK) /\
  GameState.fullmove_number p = 1 + Z.of_nat (length moves) / 2.
Proof.
  intros Hplay.
  destruct (play_bookkeeping_from moves _ _ Hplay)
    as (Hm & Hl & Hg & Hc & Hf & Hh).
  destruct (new_game_position mode) as [_ Hhist0].
  assert (Hcur : GameState.current_player (GameState.new_game mode) = WHITE)
    by reflexivity.
  assert (Hmode0 : GameState.game_mode (GameState.new_game mode) = mode)
    by reflexivity.
  assert (Hmoves0 : GameState.move_history (GameState.new_game mode) = [])
    by reflexivity.
  assert (Hfull0 : GameState.fullmove_number (GameState.new_game mode) = 1)
    by reflexivity.
  rewrite Hmoves0 in Hm. rewrite Hhist0 in Hl. rewrite Hmode0 in Hg.
  rewrite Hcur in Hc, Hf. rewrite Hfull0 in Hf.
  rewrite decide_True in Hf by reflexivity.
  split; [assumption|]. split; [simpl in Hl; lia|]. split.
  - destruct moves as [|m rest]; [|apply Hh; discriminate].
    simpl in Hplay. injection Hplay as <-. by rewrite Hhist0.
  - split; [assumption|]. split; [|assumption].
    rewrite Hc. by destruct (Nat.even (length moves)).
Qed.

End ExecutorMore.

Lemma exec_board_content (state : GameState) (b : Board) (m : Move) (s : Square) :
  board_wf b -> valid_square (Move.from_square m) ->
  generated_from state (Move.from_square m) (Move.piece m) m ->
  valid_square s ->
  Board.get_piece (exec_board b m) s = content_after b m s.
Proof.
  intros Hwf Hfrom Hgen Hs. pose proof (gen_to_valid _ _ _ _ Hgen) as Hto.
  unfold exec_board, content_after. rewrite board_copy_id by assumption.
  destruct (Move.is_castling m) eqn:Hc.
  - destruct (gen_castling _ _ _ _ Hgen Hc)
      as (_ & Hep & Hpromo & _ & Hfile & Hrank & Hwing).
    rewrite ?Hep, ?Hpromo.
    unfold ChessEngine._execute_castling, MoveValidator.relocate_rook.
    destruct (Move.from_square m) as [ff fr], (Move.to_square m) as [tf tr].
    simpl in *. subst ff tr.
    assert (tf = 6 \/ tf = 2) as [-> | ->] by lia; simpl;
      board_simp; repeat case_decide; congruence.
  - destruct (Move.is_en_passant m) eqn:He.
    + destruct (gen_en_passant _ _ _ _ Hgen He) as (_ & Hpromo & _ & Hrank).
      rewrite ?Hpromo.
      unfold ChessEngine._execute_en_passant.
      destruct (Move.from_square m) as [ff fr], (Move.to_square m) as [tf tr].
      simpl in *.
      assert (Hne : tr <> fr) by (unfold pawn_direction in Hrank; case_decide; lia).
      board_simp. simpl. repeat case_decide; try congruence;
        try (rewrite bool_decide_eq_true_2 by assumption; reflexivity);
        try (rewrite bool_decide_eq_false_2 by assumption; reflexivity).
    + unfold ChessEngine._execute_normal_move. simpl.
      destruct (Move.promotion_piece m); board_simp; repeat case_decide; congruence.
Qed.

Section ExecutedBoard.
Context `{BuiltinHash}.

(** X12.  The board after a move.  Executing a pseudo-legal move on a
    valid state gives an 8x8 board on which the destination holds the
    moved piece (the promoted piece when a promotion type is set), the
    origin is empty, the pawn taken en passant is gone, the castling rook
    stands next to the king with its corner empty, and every other square
    holds what it held before. *)
Theorem executed_board (p : GameState) (c : Color) (m : Move) (p' : GameState) :
  state_wf p ->
  In m (MoveGenerator.generate_pseudo_legal_moves p c) ->
  ChessEngine.execute_move p m = Ok p' ->
  board_wf (GameState.board p') /\
  forall s, valid_square s ->
    Board.get_piece (GameState.board p') s = content_after (GameState.board p) m s.
Proof.
  intros [Hwf _] Hin Hexec.
  apply generate_pseudo_legal_moves_shape in Hin as (Hv & _ & _ & Hgen).
  apply execute_move_Ok in Hexec as (_ & _ & Hboard & _).
  rewrite Hboard. split; [by apply exec_board_wf|].
  intros s Hs. by eapply exec_board_content.
Qed.

Lemma play_quiet_clock (moves : list Move) :
  forall p0 p, play p0 moves = Ok p -> Forall quiet moves ->
    GameState.halfmove_clock p =
      GameState.halfmove_clock p0 + Z.of_nat (length moves).
Proof.
  induction moves as [|m rest IH]; intros p0 p Hplay Hquiet.
  - simpl in Hplay. injection Hplay as <-. simpl. lia.
  - apply play_cons in Hplay as (p1 & Hexec & Hplay).
    inversion Hquiet as [|? ? [Hpawn Hcap] Hrest]; subst.
    apply execute_move_Ok in Hexec as (_ & _ & _ & _ & _ & _ & Hclock & _).
    rewrite (IH p1 p Hplay Hrest), Hclock.
    unfold exec_halfmove_clock, is_pawn_move, is_capture in *.
    rewrite Hpawn, Hcap. cbn [orb].
    change (length (m :: rest)) with (S (length rest)).
    rewrite Nat2Z.inj_succ. lia.
Qed.

(** X13.  The fifty-move rule and the executor.  Right after a pawn move
    or a capture [is_fifty_move_rule] is false; after any other move it
    holds exactly when the clock before the move was at least 99; and
    after a run of moves that are neither pawn moves nor captures the
    clock has grown by the length of the run, so that from a new game the
    rule holds exactly once the run has 100 moves. *)
Theorem fifty_move_rule_after_moves (p : GameState) (m : Move) (p' : GameState) :
  ChessEngine.execute_move p m = Ok p' ->
  ChessEngine.is_fifty_move_rule p' =
    negb (is_pawn_move m || is_capture m) && (99 <=? GameState.halfmove_clock p) /\
  (forall mode moves q,
     play (GameState.new_game mode) moves = Ok q -> Forall quiet moves ->
     ChessEngine.is_fifty_move_rule q = (100 <=? length moves)%nat).
Proof.
  intros Hexec. split.
  - apply execute_move_Ok in Hexec as (_ & _ & _ & _ & _ & _ & Hclock & _).
    unfold ChessEngine.is_fifty_move_rule. rewrite Hclock.
    unfold exec_halfmove_clock, is_pawn_move, is_capture.
    destruct (_ || _); simpl; lia.
  - intros mode moves q Hplay Hquiet.
    unfold ChessEngine.is_fifty_move_rule.
    rewrite (play_quiet_clock moves _ _ Hplay Hquiet).
    change (GameState.halfmove_clock (GameState.new_game mode)) with 0.
    destruct (100 <=? length moves)%nat eqn:E.
    + apply Nat.leb_le in E. lia.
    + apply Nat.leb_gt in E. lia.
Qed.

End ExecutedBoard.

(** ** Insufficient material *)

Lemma _count_pieces_by_type_fold (pieces : list (Square * Piece))
    (counts : ChessEngine.piece_counts) :
  ChessEngine.total (fold_left count_step pieces counts) =
    ChessEngine.total counts + Z.of_nat (length pieces) /\
  forall k, ChessEngine.count_of (fold_left count_step pieces counts) k =
            ChessEngine.count_of counts k + Z.of_nat (count_type k pieces).
Proof.
  revert counts. induction pieces as [|item rest IH]; intros counts.
  - simpl. split; [lia | intros; unfold count_type; simpl; lia].
  - cbn [fold_left]. destruct (IH (count_step counts item)) as [Ht Hc].
    split.
    + rewrite Ht. unfold count_step. cbn [ChessEngine.total length].
      rewrite Nat2Z.inj_succ. lia.
    + intros k. rewrite Hc. unfold count_step at 1. cbn [ChessEngine.count_of].
      unfold count_type. cbn [List.filter].
      destruct (decide (k = Piece.piece_type (snd item))) as [-> | Hne].
      * rewrite bool_decide_eq_true_2 by reflexivity. cbn [length].
        rewrite Nat2Z.inj_succ. lia.
      * rewrite bool_decide_eq_false_2 by congruence. lia.
Qed.

Lemma _count_pieces_by_type_spec (pieces : list (Square * Piece)) :
  ChessEngine.total (ChessEngine._count_pieces_by_type pieces) =
    Z.of_nat (length pieces) /\
  forall k, ChessEngine.count_of (ChessEngine._count_pieces_by_type pieces) k =
            Z.of_nat (count_type k pieces).
Proof.
  change (ChessEngine._count_pieces_by_type pieces)
    with (fold_left count_step pieces (ChessEngine.mk_counts (fun _ => 0) 0)).
  destruct (_count_pieces_by_type_fold pieces (ChessEngine.mk_counts (fun _ => 0) 0))
    as [Ht Hc].
  split; [rewrite Ht; simpl; lia | intros k; rewrite (Hc k); simpl; lia].
Qed.

Lemma is_insufficient_material_sides (state : GameState) :
  ChessEngine.is_insufficient_material state = true ->
  small_side (Board.get_all_pieces (GameState.board state) WHITE) /\
  small_side (Board.get_all_pieces (GameState.board state) BLACK).
Proof.
  unfold ChessEngine.is_insufficient_material, small_side.
  destruct (_count_pieces_by_type_spec
              (Board.get_all_pieces (GameState.board state) WHITE)) as [Wt Wc].
  destruct (_count_pieces_by_type_spec
              (Board.get_all_pieces (GameState.board state) BLACK)) as [Bt Bc].
  rewrite Wt, Bt, !Wc, !Bc.
  set (w := length (Board.get_all_pieces (GameState.board state) WHITE)).
  set (b := length (Board.get_all_pieces (GameState.board state) BLACK)).
  set (wb := count_type BISHOP (Board.get_all_pieces (GameState.board state) WHITE)).
  set (bb := count_type BISHOP (Board.get_all_pieces (GameState.board state) BLACK)).
  set (wn := count_type KNIGHT (Board.get_all_pieces (GameState.board state) WHITE)).
  set (bn := count_type KNIGHT (Board.get_all_pieces (GameState.board state) BLACK)).
  intros Hins.
  repeat match type of Hins with
  | (if ?c then _ else _) = true => destruct c eqn:?
  end; try discriminate; lia.
Qed.

Lemma small_side_types (pieces : list (Square * Piece)) (king item : Square * Piece) :
  small_side pieces ->
  In king pieces -> Piece.piece_type (snd king) = KING ->
  In item pieces ->
  Piece.piece_type (snd item) = KING \/ Piece.piece_type (snd item) = BISHOP \/
  Piece.piece_type (snd item) = KNIGHT.
Proof.
  unfold small_side, count_type. intros Hsmall Hking Hk Hitem.
  destruct pieces as [|a [|b [|c rest]]]; simpl in *;
    try (destruct Hsmall as [? | [? _]]; discriminate).
  - destruct Hking as [<- | []], Hitem as [<- | []]. by left.
  - destruct Hsmall as [? | [_ Hcount]]; [discriminate|].
    destruct (Piece.piece_type (snd a)) eqn:Ea, (Piece.piece_type (snd b)) eqn:Eb;
      simpl in Hcount;
      destruct Hking as [<- | [<- | []]]; try congruence;
      destruct Hitem as [<- | [<- | []]]; rewrite ?Ea, ?Eb; auto;
      destruct Hcount; discriminate.
Qed.

(** X14.  When both kings are on the board and [is_insufficient_material]
    answers true, each side has at most two pieces and every piece on the
    board is a king, a bishop or a knight: with a pawn, a rook or a queen
    anywhere the answer is false. *)
Theorem insufficient_material_sound (state : GameState) :
  has_king state WHITE -> has_king state BLACK ->
  ChessEngine.is_insufficient_material state = true ->
  (forall c, (length (Board.get_all_pieces (GameState.board state) c) <= 2)%nat) /\
  forall sq q, valid_square sq ->
    Board.get_piece (GameState.board state) sq = Some q ->
    Piece.piece_type q = KING \/ Piece.piece_type q = BISHOP \/
    Piece.piece_type q = KNIGHT.
Proof.
  intros (kw & Hvw & Hkw) (kb & Hvb & Hkb) Hins.
  destruct (is_insufficient_material_sides state Hins) as [Hw Hb].
  split.
  - intros []; [destruct Hw as [-> | [-> _]] | destruct Hb as [-> | [-> _]]]; lia.
  - intros sq q Hsq Hget. destruct (Piece.color q) eqn:Hc.
    + apply (small_side_types _ (kw, Piece.mk KING WHITE) (sq, q) Hw);
        try reflexivity; by apply in_get_all_pieces.
    + apply (small_side_types _ (kb, Piece.mk KING BLACK) (sq, q) Hb);
        try reflexivity; by apply in_get_all_pieces.
Qed.

(** ** Algebraic notation of moves *)

Lemma string_app_nil_r (s : string) : (s ++ "")%string = s.
Proof. induction s as [|a s IH]; simpl; [reflexivity | by rewrite IH]. Qed.

Lemma to_algebraic_notation_suffix (m : Move) (chk mate df dr : bool) :
  match Move.to_algebraic_notation m false false df dr with
  | Found body =>
      Move.to_algebraic_notation m chk mate df dr =
      Found (body ++ Move.check_suffix chk mate)%string
  | KeyError key => Move.to_algebraic_notation m chk mate df dr = KeyError key
  end.
Proof.
  unfold Move.to_algebraic_notation.
  destruct (Move.is_castling m).
  - change (Move.check_suffix false false) with EmptyString.
    by rewrite string_app_nil_r.
  - destruct (decide (Piece.piece_type (Move.piece m) = PAWN)).
    + destruct (Move.promotion_piece m) as [promotion|].
      * destruct (Move.promotion_letters promotion); [|reflexivity].
        change (Move.check_suffix false false) with EmptyString.
        by rewrite string_app_nil_r.
      * change (Move.check_suffix false false) with EmptyString.
        by rewrite string_app_nil_r.
    + destruct (Move.piece_letters (Piece.piece_type (Move.piece m))); [|reflexivity].
      destruct (Move.promotion_piece m) as [promotion|].
      * destruct (Move.promotion_letters promotion); [|reflexivity].
        change (Move.check_suffix false false) with EmptyString.
        by rewrite string_app_nil_r.
      * change (Move.check_suffix false false) with EmptyString.
        by rewrite string_app_nil_r.
Qed.

Lemma to_algebraic_notation_KeyError (m : Move) (chk mate df dr : bool)
    (key : PieceType) :
  Move.to_algebraic_notation m chk mate df dr = KeyError key <->
  Move.is_castling m = false /\ Move.promotion_piece m = Some key /\
  (key = PAWN \/ key = KING).
Proof.
  unfold Move.to_algebraic_notation.
  destruct (Move.is_castling m); [split; [discriminate | intros [? _]; discriminate]|].
  destruct (decide (Piece.piece_type (Move.piece m) = PAWN)) as [Hp|Hp].
  - destruct (Move.promotion_piece m) as [[]|]; simpl;
      split; try discriminate; try (intros [= <-]; tauto);
      try (intros (_ & [= <-] & [? | ?]); done);
      intros (_ & ? & _); discriminate.
  - destruct (Piece.piece_type (Move.piece m)) eqn:Et; [done| | | | |];
      simpl;
      (destruct (Move.promotion_piece m) as [[]|]; simpl;
       split; try discriminate; try (intros [= <-]; tauto);
       try (intros (_ & [= <-] & [? | ?]); done);
       intros (_ & ? & _); discriminate).
Qed.

(** X15.  [to_algebraic_notation] fails with a [KeyError] exactly for a
    move that is not castling and whose promotion type is pawn or king,
    the two types missing from [promotion_letters]; no pseudo-legal move
    is such a move.  The check and checkmate flags only append a suffix,
    the mark of checkmate taking precedence, and the disambiguation flags
    have no effect on castling and on pawn moves. *)
Theorem to_algebraic_notation_spec (m : Move) (chk mate df dr : bool) :
  (forall key,
     Move.to_algebraic_notation m chk mate df dr = KeyError key <->
     Move.is_castling m = false /\ Move.promotion_piece m = Some key /\
     (key = PAWN \/ key = KING)) /\
  (forall state c,
     In m (MoveGenerator.generate_pseudo_legal_moves state c) ->
     exists s, Move.to_algebraic_notation m chk mate df dr = Found s) /\
  (forall body,
     Move.to_algebraic_notation m false false df dr = Found body ->
     Move.to_algebraic_notation m chk mate df dr =
     Found (body ++ (if mate then "#" else if chk then "+" else ""))%string) /\
  (Move.is_castling m = true \/ Piece.piece_type (Move.piece m) = PAWN ->
   Move.to_algebraic_notation m chk mate df dr =
   Move.to_algebraic_notation m chk mate false false).
Proof.
  split; [intros key; apply to_algebraic_notation_KeyError|].
  split; [|split].
  - intros state c Hin.
    destruct (Move.to_algebraic_notation m chk mate df dr) as [s|key] eqn:E;
      [eauto|].
    apply to_algebraic_notation_KeyError in E as (_ & Hpromo & Hkey).
    apply generate_pseudo_legal_moves_shape in Hin as (_ & _ & _ & Hgen).
    pose proof (gen_promotion _ _ _ _ Hgen key Hpromo) as Ht. simpl in Ht.
    destruct Hkey as [-> | ->]; intuition discriminate.
  - intros body Hbody.
    pose proof (to_algebraic_notation_suffix m chk mate df dr) as Hs.
    by rewrite Hbody in Hs.
  - unfold Move.to_algebraic_notation. intros [-> | Hp]; [reflexivity|].
    destruct (Move.is_castling m); [reflexivity|].
    destruct (decide (Piece.piece_type (Move.piece m) = PAWN));
      [reflexivity | contradiction].
Qed.

Lemma is_checkmate_total (p : GameState) :
  exists in_check mate,
    CheckDetector.is_check p (GameState.current_player p) = Ok in_check /\
    ChessEngine.is_checkmate p = Ok mate /\ (mate = true -> in_check = true).
Proof.
  destruct (is_check_total p (GameState.current_player p)) as [in_check Hc].
  destruct (get_legal_moves_total p (GameState.current_player p)) as [ms Hms].
  unfold ChessEngine.is_checkmate. rewrite Hc. unfold bind.
  destruct in_check; cbn [negb].
  - rewrite Hms. eauto.
  - exists false, false. split; [reflexivity|]. split; [reflexivity | discriminate].
Qed.

(** The other legal moves of pieces of the same type to the same square,
    as [_get_disambiguation] collects them. *)
Lemma same_destination_moves_In (legal : list Move) (m m' : Move) :
  In m' (List.filter (fun other_move =>
        bool_decide (Piece.piece_type (Move.piece other_move) =
                     Piece.piece_type (Move.piece m)) &&
        bool_decide (Move.to_square other_move = Move.to_square m) &&
        bool_decide (Move.from_square other_move <> Move.from_square m)) legal) <->
  In m' legal /\
  Piece.piece_type (Move.piece m') = Piece.piece_type (Move.piece m) /\
  Move.to_square m' = Move.to_square m /\
  Move.from_square m' <> Move.from_square m.
Proof.
  rewrite List.filter_In, !andb_true_iff, !bool_decide_eq_true. tauto.
Qed.

Lemma _get_disambiguation_cases (p : GameState) (m : Move) (legal : list Move) :
  ChessEngine.get_legal_moves p (GameState.current_player p) = Ok legal ->
  exists flags,
    ChessEngine._get_disambiguation p m = Ok flags /\
    (Piece.piece_type (Move.piece m) = PAWN \/
     Piece.piece_type (Move.piece m) = KING \/ Move.is_castling m = true ->
     flags = (false, false)) /\
    (Piece.piece_type (Move.piece m) <> PAWN ->
     Piece.piece_type (Move.piece m) <> KING -> Move.is_castling m = false ->
     let rival m' :=
       In m' legal /\
       Piece.piece_type (Move.piece m') = Piece.piece_type (Move.piece m) /\
       Move.to_square m' = Move.to_square m /\
       Move.from_square m' <> Move.from_square m in
     (flags = (false, false) <-> forall m', ~ rival m') /\
     (fst flags = true -> snd flags = false ->
      forall m', rival m' ->
        Square.file (Move.from_square m') <> Square.file (Move.from_square m)) /\
     (fst flags = false -> snd flags = true ->
      (forall m', rival m' ->
         Square.rank (Move.from_square m') <> Square.rank (Move.from_square m)) /\
      exists m', rival m' /\
         Square.file (Move.from_square m') = Square.file (Move.from_square m)) /\
     (fst flags = true -> snd flags = true ->
      (exists m', rival m' /\
         Square.file (Move.from_square m') = Square.file (Move.from_square m)) /\
      (exists m', rival m' /\
         Square.rank (Move.from_square m') = Square.rank (Move.from_square m)))).
Proof.
  intros Hl. unfold ChessEngine._get_disambiguation.
  destruct (bool_decide (Piece.piece_type (Move.piece m) = PAWN) ||
            bool_decide (Piece.piece_type (Move.piece m) = KING)) eqn:Epk.
  { exists (false, false). split; [reflexivity|]. split; [reflexivity|].
    intros Hp Hk _. apply orb_true_iff in Epk as [E|E];
      apply bool_decide_eq_true in E; contradiction. }
  apply orb_false_iff in Epk as [Ep Ek].
  apply bool_decide_eq_false in Ep, Ek.
  destruct (Move.is_castling m) eqn:Ec.
  { exists (false, false). split; [reflexivity|]. split; [reflexivity|].
    intros _ _ ?. discriminate. }
  rewrite Hl. unfold bind.
  pose proof (same_destination_moves_In legal m) as Hrv.
  set (rv := List.filter _ legal) in *. clearbody rv.
  destruct rv as [|r0 rv'].
  { exists (false, false). split; [reflexivity|]. split; [reflexivity|].
    intros _ _ _. cbn zeta. split; [|split; [|split]]; try discriminate.
    split; [|reflexivity]. intros _ m' Hm'. by apply Hrv in Hm'. }
  set (others := r0 :: rv') in *.
  assert (Hnonempty : exists m', In m' others) by (exists r0; by left).
  clearbody others.
  destruct (existsb (fun other_move =>
              Square.file (Move.from_square other_move) =?
              Square.file (Move.from_square m)) others) eqn:Ef; cbn [negb].
  - apply existsb_exists in Ef as (mf & Hmf & Ef). apply Z.eqb_eq in Ef.
    destruct (existsb (fun other_move =>
                Square.rank (Move.from_square other_move) =?
                Square.rank (Move.from_square m)) others) eqn:Er; cbn [negb].
    + apply existsb_exists in Er as (mr & Hmr & Er). apply Z.eqb_eq in Er.
      exists (true, true). split; [reflexivity|].
      split; [intros [? | [? | ?]]; congruence|].
      intros _ _ _. cbn zeta. split; [|split; [|split]]; try discriminate.
      * split; [discriminate|]. intros Hnone. destruct Hnonempty as [m' Hm'].
        by apply Hrv, Hnone in Hm'.
      * intros _ _. split; [exists mf | exists mr]; split; auto; by apply Hrv.
    + exists (false, true). split; [reflexivity|].
      split; [intros [? | [? | ?]]; congruence|].
      intros _ _ _. cbn zeta. split; [|split; [|split]]; try discriminate.
      * split; [discriminate|]. intros Hnone. destruct Hnonempty as [m' Hm'].
        by apply Hrv, Hnone in Hm'.
      * intros _ _. split; [|exists mf; split; auto; by apply Hrv].
        intros m' Hm' Heq. apply Hrv in Hm'.
        assert (Hex : existsb (fun other_move =>
                  Square.rank (Move.from_square other_move) =?
                  Square.rank (Move.from_square m)) others = true).
        { apply existsb_exists. exists m'. split; [assumption|]. by apply Z.eqb_eq. }
        congruence.
  - exists (true, false). split; [reflexivity|].
    split; [intros [? | [? | ?]]; congruence|].
    intros _ _ _. cbn zeta. split; [|split; [|split]]; try discriminate.
    + split; [discriminate|]. intros Hnone. destruct Hnonempty as [m' Hm'].
      by apply Hrv, Hnone in Hm'.
    + intros _ _ m' Hm' Heq. apply Hrv in Hm'.
      assert (Hex : existsb (fun other_move =>
                Square.file (Move.from_square other_move) =?
                Square.file (Move.from_square m)) others = true).
      { apply existsb_exists. exists m'. split; [assumption|]. by apply Z.eqb_eq. }
      congruence.
Qed.

(** X16.  Disambiguation.  [_get_disambiguation] never raises.  For a pawn
    move, a king move and castling both flags are off.  For any other
    move both flags are off exactly when no other legal move takes a piece
    of the same type from another square to the same destination; the
    rank flag is set only when such a rival starts on the moved piece's
    file; and in every case a legal move of a piece of the same type to
    the same destination that agrees with the origin coordinates the
    flags select starts on the very square of the move. *)
Theorem disambiguation_identifies_origin (p : GameState) (m : Move) :
  exists flags legal,
    ChessEngine.get_legal_moves p (GameState.current_player p) = Ok legal /\
    ChessEngine._get_disambiguation p m = Ok flags /\
    (Piece.piece_type (Move.piece m) = PAWN \/
     Piece.piece_type (Move.piece m) = KING \/ Move.is_castling m = true ->
     flags = (false, false)) /\
    (Piece.piece_type (Move.piece m) <> PAWN ->
     Piece.piece_type (Move.piece m) <> KING -> Move.is_castling m = false ->
     (flags = (false, false) <->
      forall m', In m' legal ->
        Piece.piece_type (Move.piece m') = Piece.piece_type (Move.piece m) ->
        Move.to_square m' = Move.to_square m ->
        Move.from_square m' = Move.from_square m) /\
     (snd flags = true ->
      exists m', In m' legal /\
        Piece.piece_type (Move.piece m') = Piece.piece_type (Move.piece m) /\
        Move.to_square m' = Move.to_square m /\
        Move.from_square m' <> Move.from_square m /\
        Square.file (Move.from_square m') = Square.file (Move.from_square m)) /\
     forall m', In m' legal ->
       Piece.piece_type (Move.piece m') = Piece.piece_type (Move.piece m) ->
       Move.to_square m' = Move.to_square m ->
       (fst flags = true ->
        Square.file (Move.from_square m') = Square.file (Move.from_square m)) ->
       (snd flags = true ->
        Square.rank (Move.from_square m') = Square.rank (Move.from_square m)) ->
       Move.from_square m' = Move.from_square m).
Proof.
  destruct (get_legal_moves_total p (GameState.current_player p)) as [legal Hl].
  destruct (_get_disambiguation_cases p m legal Hl) as (flags & Hd & Hoff & Hon).
  exists flags, legal. split; [assumption|]. split; [assumption|].
  split; [assumption|]. intros Hp Hk Hc.
  destruct (Hon Hp Hk Hc) as (Hnone & Hfile & Hrank & Hboth). clear Hon.
  split; [|split].
  - rewrite Hnone. split.
    + intros Hno m' Hin Ht Hto.
      destruct (decide (Move.from_square m' = Move.from_square m)) as [|Hne];
        [assumption|].
      destruct (Hno m'). tauto.
    + intros Hall m' (Hin & Ht & Hto & Hne). apply Hne. by apply Hall.
  - intros Hr. destruct flags as [[] r]; simpl in Hr; subst r.
    + destruct (Hboth eq_refl eq_refl) as [(m' & Hm' & Hf) _].
      exists m'. tauto.
    + destruct (Hrank eq_refl eq_refl) as [_ (m' & Hm' & Hf)].
      exists m'. tauto.
  - intros m' Hin Ht Hto Hf Hr.
    destruct (decide (Move.from_square m' = Move.from_square m)) as [|Hne];
      [assumption|].
    assert (Hrival : In m' legal /\
              Piece.piece_type (Move.piece m') = Piece.piece_type (Move.piece m) /\
              Move.to_square m' = Move.to_square m /\
              Move.from_square m' <> Move.from_square m) by tauto.
    destruct flags as [[] []]; simpl in *.
    + destruct Hne. destruct (Move.from_square m'), (Move.from_square m).
      simpl in *. f_equal; auto.
    + destruct (Hfile eq_refl eq_refl m' Hrival). auto.
    + destruct (Hrank eq_refl eq_refl) as [Hnr _]. destruct (Hnr m' Hrival). auto.
    + destruct (proj1 Hnone eq_refl m' Hrival).
Qed.

Section Notation.
Context `{BuiltinHash}.

(** X17.  The notation of a pseudo-legal move.  [get_algebraic_notation]
    neither raises nor fails with a [KeyError] on a pseudo-legal move: the
    move is executed, the disambiguation flags are computed on the state
    before the move, and the result is the notation of the move without
    marks followed by the mark of checkmate when the side to move after
    the move is checkmated, else by the mark of check when it is in check,
    else by nothing. *)
Theorem get_algebraic_notation_returns (p : GameState) (c : Color) (m : Move) :
  In m (MoveGenerator.generate_pseudo_legal_moves p c) ->
  exists p' chk mate flags body,
    ChessEngine.execute_move p m = Ok p' /\
    CheckDetector.is_check p' (GameState.current_player p') = Ok chk /\
    ChessEngine.is_checkmate p' = Ok mate /\
    ChessEngine._get_disambiguation p m = Ok flags /\
    Move.to_algebraic_notation m false false (fst flags) (snd flags) = Found body /\
    ChessEngine.get_algebraic_notation p m =
      Ok (Found (body ++ (if mate then "#" else if chk then "+" else ""))%string).
Proof.
  intros Hin.
  pose proof (generate_pseudo_legal_moves_shape p c m Hin) as (Hv & _ & _ & Hgen).
  destruct (_calculate_en_passant_target_generated p m Hv Hgen) as [ep Hep].
  destruct (execute_move_returns p m ep Hep) as [p' Hexec].
  destruct (is_checkmate_total p') as (chk & mate & Hchk & Hmate & Himp).
  destruct (get_legal_moves_total p (GameState.current_player p)) as [legal Hl].
  destruct (_get_disambiguation_cases p m legal Hl) as (flags & Hd & _).
  destruct (Move.to_algebraic_notation m false false (fst flags) (snd flags))
    as [body|key] eqn:Hbody.
  - exists p', chk, mate, flags, body.
    split; [assumption|]. split; [assumption|]. split; [assumption|].
    split; [assumption|]. split; [exact Hbody|].
    unfold ChessEngine.get_algebraic_notation.
    rewrite Hexec. unfold bind at 1. rewrite Hchk. unfold bind at 1.
    assert (Hm : (if chk then ChessEngine.is_checkmate p' else Ok false) = Ok mate).
    { destruct chk; [assumption|]. destruct mate; [|reflexivity].
      by specialize (Himp eq_refl). }
    rewrite Hm. unfold bind at 1. rewrite Hd. unfold bind.
    pose proof (to_algebraic_notation_suffix m chk mate (fst flags) (snd flags))
      as Hs.
    rewrite Hbody in Hs. by rewrite Hs.
  - apply to_algebraic_notation_KeyError in Hbody as (_ & Hpromo & Hkey).
    pose proof (gen_promotion _ _ _ _ Hgen key Hpromo) as Ht. simpl in Ht.
    destruct Hkey as [-> | ->]; intuition discriminate.
Qed.

End Notation.

(** ** The opponent's helpers *)

Section OpponentHelpers.
Context `{BuiltinHash}.

Lemma find_checkmate_in_one_first (state : GameState) (legal_moves : list Move) :
  (forall m, In m legal_moves -> exists q, ChessEngine.execute_move state m = Ok q) ->
  exists r,
    AIOpponent.find_checkmate_in_one state legal_moves = Ok r /\
    match r with
    | Some m =>
        exists before after q,
          legal_moves = before ++ m :: after /\
          ChessEngine.execute_move state m = Ok q /\
          ChessEngine.is_checkmate q = Ok true /\
          Forall (fun m' => exists q',
                    ChessEngine.execute_move state m' = Ok q' /\
                    ChessEngine.is_checkmate q' = Ok false) before
    | None =>
        Forall (fun m' => exists q',
                  ChessEngine.execute_move state m' = Ok q' /\
                  ChessEngine.is_checkmate q' = Ok false) legal_moves
    end.
Proof.
  induction legal_moves as [|m rest IH]; intros Hexec.
  - exists None. split; [reflexivity | constructor].
  - destruct (Hexec m) as [q Hq]; [by left|].
    destruct (is_checkmate_total q) as (chk & mate & _ & Hmate & _).
    cbn [AIOpponent.find_checkmate_in_one]. rewrite Hq. unfold bind at 1.
    rewrite Hmate. unfold bind at 1. destruct mate.
    + exists (Some m). split; [reflexivity|].
      exists [], rest, q. split; [reflexivity|]. split; [assumption|].
      split; [assumption | constructor].
    + destruct IH as (r & Hr & Hspec); [intros; apply Hexec; by right|].
      exists r. split; [assumption|]. destruct r as [m0|].
      * destruct Hspec as (before & after & q0 & -> & Hq0 & Hm0 & Hbefore).
        exists (m :: before), after, q0. split; [reflexivity|].
        split; [assumption|]. split; [assumption|].
        constructor; [eauto | assumption].
      * constructor; [eauto | assumption].
Qed.

(** X18.  Mate in one.  On a list of pseudo-legal moves
    [find_checkmate_in_one] returns; when it returns a move, the move is
    the first of the list after which the side to move is checkmated, and
    when it returns [None] no move of the list gives checkmate. *)
Theorem find_checkmate_in_one_spec (state : GameState) (c : Color)
    (legal_moves : list Move) :
  (forall m, In m legal_moves ->
             In m (MoveGenerator.generate_pseudo_legal_moves state c)) ->
  exists r,
    AIOpponent.find_checkmate_in_one state legal_moves = Ok r /\
    match r with
    | Some m =>
        exists before after q,
          legal_moves = before ++ m :: after /\
          ChessEngine.execute_move state m = Ok q /\
          ChessEngine.is_checkmate q = Ok true /\
          Forall (fun m' => exists q',
                    ChessEngine.execute_move state m' = Ok q' /\
                    ChessEngine.is_checkmate q' = Ok false) before
    | None =>
        Forall (fun m' => exists q',
                  ChessEngine.execute_move state m' = Ok q' /\
                  ChessEngine.is_checkmate q' = Ok false) legal_moves
    end.
Proof.
  intros Hsub. apply find_checkmate_in_one_first. intros m Hin.
  apply Hsub, generate_pseudo_legal_moves_shape in Hin as (Hv & _ & _ & Hgen).
  destruct (_calculate_en_passant_target_generated state m Hv Hgen) as [ep Hep].
  by eapply execute_move_returns.
Qed.

End OpponentHelpers.

(** X19.  Hanging pieces.  [_is_hanging] never raises; it answers true
    exactly when the square is occupied and some legal move of the side to
    move lands on it and records a capture.  The piece it reports then
    belongs to the side that is not to move, unless the square is the
    state's en-passant target. *)
Theorem _is_hanging_spec (state : GameState) (square : Square) :
  exists b legal,
    ChessEngine.get_legal_moves state (GameState.current_player state) = Ok legal /\
    AIOpponent._is_hanging state square = Ok b /\
    (b = true <->
     Board.get_piece (GameState.board state) square <> None /\
     exists m, In m legal /\ Move.to_square m = square /\
               Move.captured_piece m <> None) /\
    (b = true ->
     exists q, Board.get_piece (GameState.board state) square = Some q /\
       (Piece.color q = Color.opposite (GameState.current_player state) \/
        GameState.en_passant_target state = Some square)).
Proof.
  destruct (get_legal_moves_total state (GameState.current_player state))
    as [legal Hl].
  unfold AIOpponent._is_hanging. rewrite Hl. unfold bind.
  destruct (Board.get_piece (GameState.board state) square) as [q|] eqn:Hq.
  - eexists _, legal. split; [reflexivity|]. split; [reflexivity|].
    assert (Hex : forall l,
      existsb (fun move =>
        bool_decide (Move.to_square move = square) &&
        match Move.captured_piece move with Some _ => true | None => false end) l
      = true <->
      exists m, In m l /\ Move.to_square m = square /\ Move.captured_piece m <> None).
    { intros l. rewrite existsb_exists. split; intros (m & Hin & Hm); exists m.
      - apply andb_true_iff in Hm as [Hto Hcap]. apply bool_decide_eq_true in Hto.
        split; [assumption|]. split; [assumption|].
        by destruct (Move.captured_piece m).
      - split; [assumption|]. destruct Hm as [Hto Hcap].
        apply andb_true_iff. split; [by apply bool_decide_eq_true|].
        by destruct (Move.captured_piece m). }
    split.
    + rewrite Hex. split; [intros ?; split; [discriminate | assumption] | tauto].
    + intros Hb. apply Hex in Hb as (m & Hin & Hto & Hcap).
      exists q. split; [reflexivity|].
      apply (get_legal_moves_In _ _ _ _ Hl) in Hin as [Hin _].
      pose proof (generate_pseudo_legal_moves_fields _ _ _ Hin) as Hfields.
      apply generate_pseudo_legal_moves_shape in Hin as (_ & _ & Hc & Hgen).
      destruct (Move.is_en_passant m) eqn:Hep.
      * right. destruct (gen_en_passant _ _ _ _ Hgen Hep) as (_ & _ & Ht & _).
        by rewrite Ht, Hto.
      * left. pose proof (fields_capture _ _ _ _ Hfields Hep) as Hcapt.
        rewrite Hto, Hq in Hcapt.
        pose proof (fields_not_own _ _ _ _ Hfields Hep q Hcapt) as Hown.
        rewrite Hc in Hown. revert Hown.
        destruct (Piece.color q), (GameState.current_player state);
          simpl; intros N; first [reflexivity | by destruct N].
  - exists false, legal. split; [reflexivity|]. split; [reflexivity|].
    split; [|discriminate]. split; [discriminate | intros [N _]; by destruct N].
Qed.

Lemma material_fold (pieces : list (Square * Piece)) (acc : Z) :
  fold_left (fun acc item =>
      acc + AIOpponent.PIECE_VALUES (Piece.piece_type (snd item))) pieces acc =
  acc + material_by_count pieces.
Proof.
  revert acc. induction pieces as [|item rest IH]; intros acc.
  - unfold material_by_count, count_type. simpl. lia.
  - cbn [fold_left]. rewrite IH. unfold material_by_count, count_type.
    cbn [List.filter].
    destruct (Piece.piece_type (snd item));
      repeat (case_bool_decide; try congruence);
      cbn [AIOpponent.PIECE_VALUES length]; rewrite ?Nat2Z.inj_succ; lia.
Qed.

(** X20.  Evaluation.  [evaluate_position] is the material of the side to
    move minus the material of the other side, a pawn counting 1, a knight
    and a bishop 3, a rook 5, a queen 9 and a king nothing; the same
    position with the other side to move gets the opposite score. *)
Theorem evaluate_position_material (state : GameState) :
  AIOpponent.evaluate_position state =
    material_by_count
      (Board.get_all_pieces (GameState.board state) (GameState.current_player state)) -
    material_by_count
      (Board.get_all_pieces (GameState.board state)
         (Color.opposite (GameState.current_player state))) /\
  AIOpponent.evaluate_position (with_opponent_to_move state) =
    - AIOpponent.evaluate_position state.
Proof.
  assert (Hm : forall pieces, AIOpponent.material pieces = material_by_count pieces).
  { intros pieces. unfold AIOpponent.material. rewrite material_fold. lia. }
  unfold AIOpponent.evaluate_position, with_opponent_to_move.
  cbn [GameState.board GameState.current_player]. rewrite !Hm.
  split; [reflexivity|].
  assert (Hopp : Color.opposite (Color.opposite (GameState.current_player state)) =
                 GameState.current_player state)
    by (by destruct (GameState.current_player state)).
  rewrite Hopp. lia.
Qed.

(** ** The controller's helpers *)

(** X21.  The moves offered for a square.  With no game in progress the
    controller offers no move.  Otherwise [_get_legal_moves_for_square]
    never raises and returns the legal moves of the side to move that
    start on the square, so none for an empty square or a square holding
    a piece of the other side; [_find_move] on that list finds a move
    exactly when one of them goes to the given destination, and the move
    found is such a move. *)
Theorem _get_legal_moves_for_square_spec (state : GameState) (square : Square) :
  GameController._get_legal_moves_for_square None square = Ok [] /\
  exists moves legal,
    ChessEngine.get_legal_moves state (GameState.current_player state) = Ok legal /\
    GameController._get_legal_moves_for_square (Some state) square = Ok moves /\
    (forall m, In m moves <-> In m legal /\ Move.from_square m = square) /\
    (Board.get_piece (GameState.board state) square = None -> moves = []) /\
    (forall q, Board.get_piece (GameState.board state) square = Some q ->
               Piece.color q <> GameState.current_player state -> moves = []) /\
    forall to_square,
      (GameController._find_move moves square to_square = None <->
       forall m, In m moves -> Move.to_square m <> to_square) /\
      (forall m, GameController._find_move moves square to_square = Some m ->
                 In m legal /\ Move.from_square m = square /\
                 Move.to_square m = to_square).
Proof.
  split; [reflexivity|].
  destruct (get_legal_moves_total state (GameState.current_player state))
    as [legal Hl].
  assert (Hfrom : forall m, In m legal ->
            Board.get_piece (GameState.board state) (Move.from_square m) =
              Some (Move.piece m) /\
            Piece.color (Move.piece m) = GameState.current_player state).
  { intros m Hin. apply (get_legal_moves_In _ _ _ _ Hl) in Hin as [Hin _].
    apply generate_pseudo_legal_moves_shape in Hin. tauto. }
  assert (Hspec : exists moves,
            GameController._get_legal_moves_for_square (Some state) square = Ok moves /\
            forall m, In m moves <-> In m legal /\ Move.from_square m = square).
  { unfold GameController._get_legal_moves_for_square. rewrite Hl. unfold bind.
    destruct (Board.get_piece (GameState.board state) square) as [q|] eqn:Hq.
    - eexists. split; [reflexivity|]. intros m.
      rewrite List.filter_In, bool_decide_eq_true. tauto.
    - exists []. split; [reflexivity|]. intros m. split; [intros []|].
      intros [Hin <-]. apply Hfrom in Hin as [Hget _]. congruence. }
  destruct Hspec as (moves & Hmoves & Hin).
  exists moves, legal. split; [assumption|]. split; [assumption|].
  split; [assumption|].
  assert (Hempty : (forall m, ~ In m moves) -> moves = []).
  { destruct moves as [|m0 ?]; [reflexivity|]. intros N. destruct (N m0). by left. }
  split; [|split].
  - intros Hnone. apply Hempty. intros m Hm. apply Hin in Hm as [Hm <-].
    apply Hfrom in Hm as [Hget _]. congruence.
  - intros q Hq Hcol. apply Hempty. intros m Hm. apply Hin in Hm as [Hm <-].
    apply Hfrom in Hm as [Hget Hc]. congruence.
  - intros to_square. unfold GameController._find_move. split.
    + split.
      * intros Hnone m Hm Hto. apply Hin in Hm as Hm'.
        pose proof (List.find_none _ _ Hnone m Hm) as Hf. simpl in Hf.
        rewrite !bool_decide_eq_true_2 in Hf by tauto. discriminate.
      * intros Hall.
        destruct (List.find _ moves) as [m|] eqn:Hf; [|reflexivity].
        apply List.find_some in Hf as [Hm Hf].
        apply andb_true_iff in Hf as [_ Hto]. apply bool_decide_eq_true in Hto.
        by destruct (Hall m Hm).
    + intros m Hf. apply List.find_some in Hf as [Hm Hf].
      apply andb_true_iff in Hf as [Hfr Hto].
      apply bool_decide_eq_true in Hfr, Hto. apply Hin in Hm. tauto.
Qed.

(** ** Piece symbols *)

(** X22.  [to_symbol] tells the twelve pieces apart: two pieces have the
    same symbol exactly when they have the same type and colour. *)
Theorem to_symbol_injective (p q : Piece) :
  Piece.to_symbol p = Piece.to_symbol q <-> p = q.
Proof.
  split; [|by intros ->].
  destruct p as [[] []], q as [[] []]; vm_compute; intros E;
    first [reflexivity | discriminate E].
Qed.

(** ** The generator and the detector *)

Lemma step_moves_In (state : GameState) (square : Square) (p : Piece)
    (offsets : list (Z * Z)) (m : Move) :
  In m (MoveGenerator.step_moves state square p offsets) <->
  exists fo ro, In (fo, ro) offsets /\
    valid_square (Square.mk (Square.file square + fo) (Square.rank square + ro)) /\
    may_land state p (Square.mk (Square.file square + fo) (Square.rank square + ro)) /\
    m = plain_move state square p
          (Square.mk (Square.file square + fo) (Square.rank square + ro)).
Proof.
  unfold MoveGenerator.step_moves, may_land, plain_move. rewrite in_flat_map. split.
  - intros ([fo ro] & Hoff & Hin). exists fo, ro. split; [assumption|].
    cbv beta iota zeta in Hin.
    destruct (in_bounds _ _) eqn:Hb; [|destruct Hin]. apply in_bounds_true in Hb.
    split; [assumption|].
    destruct (Board.get_piece _ _) as [t|] eqn:Hget.
    + destruct (bool_decide _) eqn:Hc; [|destruct Hin].
      apply bool_decide_eq_true in Hc. destruct Hin as [<- | []].
      split; [intros q [= <-]; assumption | reflexivity].
    + destruct Hin as [<- | []]. split; [discriminate | reflexivity].
  - intros (fo & ro & Hoff & Hv & Hland & ->). exists (fo, ro).
    split; [assumption|]. cbv beta iota zeta.
    apply in_bounds_true in Hv. rewrite Hv.
    destruct (Board.get_piece _ _) as [t|] eqn:Hget.
    + rewrite bool_decide_eq_true_2 by (by apply Hland). by left.
    + by left.
Qed.

Lemma _generate_sliding_moves_loop_In (state : GameState) (square : Square)
    (p : Piece) (fd rd : Z) (m : Move) :
  valid_square square -> -1 <= fd <= 1 -> -1 <= rd <= 1 -> (fd <> 0 \/ rd <> 0) ->
  forall (fuel : nat) (k : Z),
    1 <= k -> 9 <= Z.of_nat fuel + k ->
    In m (MoveGenerator._generate_sliding_moves_loop fuel state square p fd rd
            (Square.file square + k * fd) (Square.rank square + k * rd)) <->
    exists d, k <= d /\
      valid_square (Square.mk (Square.file square + d * fd)
                              (Square.rank square + d * rd)) /\
      (forall j, k <= j < d ->
         Board.get_piece (GameState.board state)
           (Square.mk (Square.file square + j * fd)
                      (Square.rank square + j * rd)) = None) /\
      may_land state p (Square.mk (Square.file square + d * fd)
                                  (Square.rank square + d * rd)) /\
      m = plain_move state square p
            (Square.mk (Square.file square + d * fd) (Square.rank square + d * rd)).
Proof.
  intros [Hf Hr] Hfd Hrd Hdir.
  assert (Cf : fd = -1 \/ fd = 0 \/ fd = 1) by lia.
  assert (Cr : rd = -1 \/ rd = 0 \/ rd = 1) by lia.
  unfold may_land, plain_move.
  induction fuel as [|fuel IH]; intros k Hk Hfuel;
    cbn [MoveGenerator._generate_sliding_moves_loop].
  - split; [intros []|]. intros (d & Hd & [Hvf Hvr] & _). simpl in Hvf, Hvr.
    exfalso. destruct Cf as [-> | [-> | ->]], Cr as [-> | [-> | ->]]; lia.
  - destruct (in_bounds _ _) eqn:Hb; cbn [negb].
    + apply in_bounds_true in Hb.
      destruct (Board.get_piece (GameState.board state)
                  (Square.mk (Square.file square + k * fd)
                             (Square.rank square + k * rd))) as [t|] eqn:Hget.
      * destruct (decide (Piece.color t <> Piece.color p)) as [Hc|Hc].
        -- split.
           ++ intros [<- | []]. exists k. split; [lia|]. split; [assumption|].
              split; [intros j Hj; lia|]. rewrite Hget.
              split; [intros q [= <-]; assumption | reflexivity].
           ++ intros (d & Hd & Hv & Hempty & Hland & ->).
              destruct (decide (d = k)) as [-> | Hne].
              ** rewrite Hget. by left.
              ** rewrite Hempty in Hget by lia. discriminate.
        -- split; [intros []|].
           intros (d & Hd & Hv & Hempty & Hland & _).
           destruct (decide (d = k)) as [-> | Hne].
           ++ by apply (Hland t) in Hget.
           ++ rewrite Hempty in Hget by lia. discriminate.
      * replace (Square.file square + k * fd + fd)
          with (Square.file square + (k + 1) * fd) by lia.
        replace (Square.rank square + k * rd + rd)
          with (Square.rank square + (k + 1) * rd) by lia.
        cbn [In]. rewrite IH by lia. split.
        -- intros [<- | (d & Hd & Hv & Hempty & Hland & ->)].
           ++ exists k. split; [lia|]. split; [assumption|].
              split; [intros j Hj; lia|]. rewrite Hget.
              split; [discriminate | reflexivity].
           ++ exists d. split; [lia|]. split; [assumption|].
              split; [|split; [assumption | reflexivity]].
              intros j Hj. destruct (decide (j = k)) as [-> | ]; [assumption|].
              apply Hempty. lia.
        -- intros (d & Hd & Hv & Hempty & Hland & ->).
           destruct (decide (d = k)) as [-> | Hne].
           ++ left. by rewrite Hget.
           ++ right. exists d. split; [lia|]. split; [assumption|].
              split; [|split; [assumption | reflexivity]].
              intros j Hj. apply Hempty. lia.
    + split; [intros []|]. intros (d & Hd & [Hvf Hvr] & _). simpl in Hvf, Hvr.
      exfalso. unfold in_bounds in Hb.
      destruct Cf as [-> | [-> | ->]], Cr as [-> | [-> | ->]]; lia.
Qed.

Lemma step_of_scaled (d s : Z) : 1 <= d -> -1 <= s <= 1 -> step_of (d * s) = s.
Proof.
  intros Hd Hs. destruct (step_of_cases (d * s)) as [[? ->] | [[? ->] | [? ->]]]; nia.
Qed.

Lemma sliding_directions_In (state : GameState) (square : Square) (p : Piece)
    (directions : list (Z * Z)) (m : Move) :
  valid_square square ->
  (forall fd rd, In (fd, rd) directions ->
     -1 <= fd <= 1 /\ -1 <= rd <= 1 /\ (fd <> 0 \/ rd <> 0)) ->
  In m (flat_map (fun '(file_dir, rank_dir) =>
          MoveGenerator._generate_sliding_moves state square p file_dir rank_dir)
        directions) <->
  exists target, valid_square target /\
    In (step_of (Square.file target - Square.file square),
        step_of (Square.rank target - Square.rank square)) directions /\
    clear_line state square target /\ may_land state p target /\
    m = plain_move state square p target.
Proof.
  intros Hsq Hdirs. rewrite in_flat_map. split.
  - intros ([fd rd] & Hin & Hm). destruct (Hdirs fd rd Hin) as (Hfd & Hrd & Hnz).
    cbv beta iota in Hm. unfold MoveGenerator._generate_sliding_moves in Hm.
    rewrite <- (Z.mul_1_l fd) in Hm at 2. rewrite <- (Z.mul_1_l rd) in Hm at 2.
    apply (_generate_sliding_moves_loop_In state square p fd rd m Hsq Hfd Hrd Hnz
             8%nat 1 ltac:(lia) ltac:(lia)) in Hm
      as (d & Hd & Hv & Hempty & Hland & ->).
    eexists. split; [exact Hv|]. cbn [Square.file Square.rank].
    replace (Square.file square + d * fd - Square.file square) with (d * fd) by lia.
    replace (Square.rank square + d * rd - Square.rank square) with (d * rd) by lia.
    rewrite !step_of_scaled by lia.
    split; [assumption|]. split; [|split; [assumption | reflexivity]].
    unfold clear_line. cbn [Square.file Square.rank].
    replace (Square.file square + d * fd - Square.file square) with (d * fd) by lia.
    replace (Square.rank square + d * rd - Square.rank square) with (d * rd) by lia.
    rewrite !step_of_scaled by lia.
    exists d. split; [assumption|]. split; [reflexivity|]. split; [reflexivity|].
    assumption.
  - intros (target & Hv & Hin & Hline & Hland & ->).
    destruct (Hdirs _ _ Hin) as (Hfd & Hrd & Hnz).
    unfold clear_line in Hline. cbv zeta in Hline.
    set (fs := step_of (Square.file target - Square.file square)) in *.
    set (rs := step_of (Square.rank target - Square.rank square)) in *.
    destruct Hline as (d & Hd & Hfile & Hrank & Hempty).
    exists (fs, rs). split; [assumption|]. cbv beta iota.
    unfold MoveGenerator._generate_sliding_moves.
    rewrite <- (Z.mul_1_l fs) at 2. rewrite <- (Z.mul_1_l rs) at 2.
    apply (_generate_sliding_moves_loop_In state square p fs rs _ Hsq Hfd Hrd Hnz
             8%nat 1 ltac:(lia) ltac:(lia)).
    assert (Et : target = Square.mk (Square.file square + d * fs)
                                    (Square.rank square + d * rs)).
    { destruct target as [tf tr]. simpl in Hfile, Hrank. by rewrite Hfile, Hrank. }
    exists d. rewrite <- Et. split; [assumption|]. split; [assumption|].
    split; [assumption|]. split; [assumption | reflexivity].
Qed.

Lemma generate_piece_moves_attacks (state : GameState) (square : Square) (p : Piece)
    (m : Move) :
  valid_square square ->
  Board.get_piece (GameState.board state) square = Some p ->
  Piece.piece_type p <> PAWN ->
  In m (MoveGenerator.generate_piece_moves state square) /\
  Move.is_castling m = false <->
  exists target, valid_square target /\ attacks state square p target /\
    may_land state p target /\ m = plain_move state square p target.
Proof.
  intros Hsq Hget Hp. unfold MoveGenerator.generate_piece_moves, attacks.
  rewrite Hget.
  assert (Hsteps : forall offsets (shape : Z -> Z -> Prop),
    (forall fo ro, In (fo, ro) offsets <-> shape fo ro) ->
    In m (MoveGenerator.step_moves state square p offsets) <->
    exists target, valid_square target /\
      shape (Square.file target - Square.file square)
            (Square.rank target - Square.rank square) /\
      may_land state p target /\ m = plain_move state square p target).
  { intros offsets shape Hshape. rewrite step_moves_In. split.
    - intros (fo & ro & Hin & Hv & Hland & ->). eexists. split; [exact Hv|].
      cbn [Square.file Square.rank].
      replace (Square.file square + fo - Square.file square) with fo by lia.
      replace (Square.rank square + ro - Square.rank square) with ro by lia.
      split; [by apply Hshape|]. split; [assumption | reflexivity].
    - intros (target & Hv & Hs & Hland & ->).
      exists (Square.file target - Square.file square),
             (Square.rank target - Square.rank square).
      assert (Et : Square.mk
                (Square.file square + (Square.file target - Square.file square))
                (Square.rank square + (Square.rank target - Square.rank square)) =
              target).
      { destruct target as [tf tr]. simpl. f_equal; lia. }
      rewrite Et. split; [by apply Hshape|]. tauto. }
  assert (Hslides : forall directions (shape : Z -> Z -> Prop),
    (forall fd rd, In (fd, rd) directions ->
       -1 <= fd <= 1 /\ -1 <= rd <= 1 /\ (fd <> 0 \/ rd <> 0)) ->
    (forall target, clear_line state square target ->
       In (step_of (Square.file target - Square.file square),
           step_of (Square.rank target - Square.rank square)) directions <->
       shape (Square.file target - Square.file square)
             (Square.rank target - Square.rank square)) ->
    In m (flat_map (fun '(file_dir, rank_dir) =>
            MoveGenerator._generate_sliding_moves state square p file_dir rank_dir)
          directions) <->
    exists target, valid_square target /\
      (shape (Square.file target - Square.file square)
             (Square.rank target - Square.rank square) /\
       clear_line state square target) /\
      may_land state p target /\ m = plain_move state square p target).
  { intros directions shape Hdirs Hshape.
    rewrite (sliding_directions_In state square p directions m Hsq Hdirs).
    split; intros (target & Hv & H1 & H2); exists target; (split; [assumption|]).
    - destruct H2 as (Hline & Hrest). split; [|assumption].
      split; [by apply Hshape | assumption].
    - destruct H1 as [Hs Hline]. split; [by apply Hshape|]. tauto. }
  assert (Hplain : forall target, Move.is_castling (plain_move state square p target) = false)
    by reflexivity.
  assert (Hfalse : forall P : Prop,
    (P <-> exists target, valid_square target /\
       attacks state square p target /\ may_land state p target /\
       m = plain_move state square p target) ->
    (P /\ Move.is_castling m = false <->
     exists target, valid_square target /\
       attacks state square p target /\ may_land state p target /\
       m = plain_move state square p target)).
  { intros P HP. rewrite HP. split; [tauto|]. intros Hex. split; [assumption|].
    destruct Hex as (target & _ & _ & _ & ->). reflexivity. }
  unfold attacks in Hfalse.
  destruct (Piece.piece_type p) eqn:Ht; [done| | | | |].
  - (* knight *)
    apply Hfalse. unfold MoveGenerator._generate_knight_moves.
    apply (Hsteps MoveGenerator.knight_offsets
             (fun fo ro => (Z.abs fo = 2 /\ Z.abs ro = 1) \/
                           (Z.abs fo = 1 /\ Z.abs ro = 2))).
    intros fo ro. split.
    + intros Hin. simpl in Hin.
      repeat destruct Hin as [[= <- <-] | Hin]; lia.
    + intros Hshape.
      assert (Cf : fo = 2 \/ fo = -2 \/ fo = 1 \/ fo = -1) by lia.
      assert (Cr : ro = 2 \/ ro = -2 \/ ro = 1 \/ ro = -1) by lia.
      destruct Cf as [-> | [-> | [-> | ->]]], Cr as [-> | [-> | [-> | ->]]];
        try lia; simpl; tauto.
  - (* bishop *)
    apply Hfalse. unfold MoveGenerator._generate_bishop_moves.
    rewrite (Hslides MoveGenerator.bishop_directions
               (fun fo ro => Z.abs fo = Z.abs ro /\ fo <> 0)).
    + split; intros (target & Hv & Hs & Hrest); exists target; tauto.
    + intros fd rd Hin. simpl in Hin.
      repeat destruct Hin as [[= <- <-] | Hin]; lia.
    + intros target (d & Hd & Hfile & Hrank & _).
      pose proof (step_of_cases (Square.file target - Square.file square)) as Cf.
      pose proof (step_of_cases (Square.rank target - Square.rank square)) as Cr.
      revert Hfile Hrank Cf Cr.
      generalize (step_of (Square.file target - Square.file square)) as fs.
      generalize (step_of (Square.rank target - Square.rank square)) as rs.
      intros rs fs Hfile Hrank Cf Cr. simpl. split.
      * intros Hin. repeat destruct Hin as [[= <- <-] | Hin]; lia.
      * intros [Habs Hnz].
        assert (Hf : fs = 1 \/ fs = -1) by lia.
        assert (Hr' : rs = 1 \/ rs = -1) by lia.
        destruct Hf as [-> | ->], Hr' as [-> | ->]; tauto.
  - (* rook *)
    apply Hfalse. unfold MoveGenerator._generate_rook_moves.
    rewrite (Hslides MoveGenerator.rook_directions
               (fun fo ro => (fo = 0 /\ ro <> 0) \/ (fo <> 0 /\ ro = 0))).
    + split; intros (target & Hv & Hs & Hrest); exists target; tauto.
    + intros fd rd Hin. simpl in Hin.
      repeat destruct Hin as [[= <- <-] | Hin]; lia.
    + intros target (d & Hd & Hfile & Hrank & _).
      pose proof (step_of_cases (Square.file target - Square.file square)) as Cf.
      pose proof (step_of_cases (Square.rank target - Square.rank square)) as Cr.
      revert Hfile Hrank Cf Cr.
      generalize (step_of (Square.file target - Square.file square)) as fs.
      generalize (step_of (Square.rank target - Square.rank square)) as rs.
      intros rs fs Hfile Hrank Cf Cr. simpl. split.
      * intros Hin. repeat destruct Hin as [[= <- <-] | Hin]; lia.
      * intros Hshape.
        assert (Hcase : (fs = 1 /\ rs = 0) \/ (fs = -1 /\ rs = 0) \/
                        (fs = 0 /\ rs = 1) \/ (fs = 0 /\ rs = -1)) by lia.
        destruct Hcase as [[-> ->] | [[-> ->] | [[-> ->] | [-> ->]]]]; tauto.
  - (* queen *)
    apply Hfalse. unfold MoveGenerator._generate_queen_moves.
    rewrite (Hslides MoveGenerator.queen_directions
               (fun fo ro => (Z.abs fo = Z.abs ro /\ fo <> 0) \/
                             (fo = 0 /\ ro <> 0) \/ (fo <> 0 /\ ro = 0))).
    + split; intros (target & Hv & Hs & Hrest); exists target; tauto.
    + intros fd rd Hin. simpl in Hin.
      repeat destruct Hin as [[= <- <-] | Hin]; lia.
    + intros target (d & Hd & Hfile & Hrank & _).
      pose proof (step_of_cases (Square.file target - Square.file square)) as Cf.
      pose proof (step_of_cases (Square.rank target - Square.rank square)) as Cr.
      revert Hfile Hrank Cf Cr.
      generalize (step_of (Square.file target - Square.file square)) as fs.
      generalize (step_of (Square.rank target - Square.rank square)) as rs.
      intros rs fs Hfile Hrank Cf Cr. simpl. split.
      * intros Hin. repeat destruct Hin as [[= <- <-] | Hin]; lia.
      * intros Hshape.
        assert (Hf : fs = 1 \/ fs = -1 \/ fs = 0) by lia.
        assert (Hr' : rs = 1 \/ rs = -1 \/ rs = 0) by lia.
        destruct Hf as [-> | [-> | ->]], Hr' as [-> | [-> | ->]];
          try lia; tauto.
  - (* king *)
    unfold MoveGenerator._generate_king_moves. rewrite in_app_iff.
    pose proof (Hsteps MoveGenerator.queen_directions
             (fun fo ro => Z.abs fo <= 1 /\ Z.abs ro <= 1 /\ (fo <> 0 \/ ro <> 0)))
      as Hking.
    split.
    + intros [[Hin | Hin] Hc].
      * apply Hking in Hin; [|clear]. 
        -- destruct Hin as (target & Hin). exists target. tauto.
        -- intros fo ro. split.
           ++ intros Hin. simpl in Hin.
              repeat destruct Hin as [[= <- <-] | Hin]; lia.
           ++ intros Hshape.
              assert (Cf : fo = 1 \/ fo = -1 \/ fo = 0) by lia.
              assert (Cr : ro = 1 \/ ro = -1 \/ ro = 0) by lia.
              destruct Cf as [-> | [-> | ->]], Cr as [-> | [-> | ->]];
                try lia; simpl; tauto.
      * apply (_generate_castling_moves_shape state square p m Ht) in Hin as [_ Hin].
        congruence.
    + intros (target & Hv & Hs & Hland & ->). split; [|reflexivity]. left.
      apply Hking.
      * intros fo ro. split.
        -- intros Hin. simpl in Hin.
           repeat destruct Hin as [[= <- <-] | Hin]; lia.
        -- intros Hshape.
           assert (Cf : fo = 1 \/ fo = -1 \/ fo = 0) by lia.
           assert (Cr : ro = 1 \/ ro = -1 \/ ro = 0) by lia.
           destruct Cf as [-> | [-> | ->]], Cr as [-> | [-> | ->]];
             try lia; simpl; tauto.
      * exists target. tauto.
Qed.

(** X23.  The generator follows the detector.  A move that is not castling
    and moves no pawn is pseudo-legal for a colour exactly when it moves a
    piece of that colour from the square it stands on to a square of the
    board which that piece attacks and which holds no piece of the same
    colour, records what stands on that square as captured, and carries
    neither a promotion nor the en-passant mark. *)
Theorem generated_moves_are_attacks (state : GameState) (c : Color) (m : Move) :
  Piece.piece_type (Move.piece m) <> PAWN -> Move.is_castling m = false ->
  In m (MoveGenerator.generate_pseudo_legal_moves state c) <->
  valid_square (Move.from_square m) /\ valid_square (Move.to_square m) /\
  Board.get_piece (GameState.board state) (Move.from_square m) = Some (Move.piece m) /\
  Piece.color (Move.piece m) = c /\
  attacks state (Move.from_square m) (Move.piece m) (Move.to_square m) /\
  (forall q, Board.get_piece (GameState.board state) (Move.to_square m) = Some q ->
             Piece.color q <> c) /\
  Move.captured_piece m =
    Board.get_piece (GameState.board state) (Move.to_square m) /\
  Move.promotion_piece m = None /\ Move.is_en_passant m = false.
Proof.
  intros Hp Hc. split.
  - intros Hin.
    pose proof (generate_pseudo_legal_moves_shape state c m Hin)
      as (Hv & Hget & Hcol & Hgen).
    unfold MoveGenerator.generate_pseudo_legal_moves in Hin.
    apply in_flat_map in Hin as ([sq p] & Hpiece & Hin).
    apply in_get_all_pieces in Hpiece as (Hvs & Hgets & Hcs).
    pose proof (generate_piece_moves_shape state sq m Hvs Hin) as (q & Hq & Hgenq).
    assert (q = p) by congruence. subst q.
    pose proof (gen_from _ _ _ _ Hgenq) as Hfrom.
    pose proof (gen_piece _ _ _ _ Hgenq) as Hpc. subst sq p.
    destruct (proj1 (generate_piece_moves_attacks state _ _ m Hv Hget Hp)
                (conj Hin Hc)) as (target & Hvt & Hatt & Hland & Hm).
    assert (Hto : Move.to_square m = target) by (by rewrite Hm).
    subst target.
    split; [assumption|]. split; [assumption|]. split; [assumption|].
    split; [assumption|]. split; [assumption|].
    split; [intros q Hq'; rewrite <- Hcol; by apply Hland|].
    rewrite Hm at 1 3 4. by cbn.
  - intros (Hv & Hvt & Hget & Hcol & Hatt & Hland & Hcap & Hpromo & Hep).
    unfold MoveGenerator.generate_pseudo_legal_moves. apply in_flat_map.
    exists (Move.from_square m, Move.piece m).
    split; [by apply in_get_all_pieces|].
    apply (generate_piece_moves_attacks state _ _ m Hv Hget Hp).
    exists (Move.to_square m). split; [assumption|]. split; [assumption|].
    split; [intros q Hq; rewrite Hcol; by apply Hland|].
    unfold plain_move. clear -Hc Hcap Hpromo Hep.
    destruct m as [f t pc cap pr cs ep]. simpl in *. congruence.
Qed.

(** ** Pawn moves *)

Lemma _generate_pawn_moves_sound (state : GameState) (square : Square) (p : Piece)
    (m : Move) :
  valid_square square ->
  In m (MoveGenerator._generate_pawn_moves state square p) ->
  pawn_move state square p m.
Proof.
  intros [Hf Hr] Hin. unfold MoveGenerator._generate_pawn_moves in Hin.
  simpl in Hin. unfold in_bounds in *.
  explode_in; repeat case_match; try discriminate; bool_facts; subst;
    (constructor; cbn [Move.from_square Move.piece Move.is_castling Move.to_square];
     [reflexivity | reflexivity | reflexivity | unfold valid_square; simpl; lia | | ]).
  all: unfold pawn_promotion, pawn_push, pawn_double_push, pawn_capture,
         pawn_en_passant, pawn_direction, pawn_start_rank;
       cbn [Move.from_square Move.piece Move.is_castling Move.to_square
            Move.is_en_passant Move.promotion_piece Move.captured_piece
            Square.file Square.rank].
  all: repeat match goal with H : decide _ = _ |- _ => rewrite ?H; clear H end.
  all: try (case_bool_decide;
            first [ reflexivity | lia
                  | eexists; split; [|reflexivity]; simpl; tauto ]).
  all: try reflexivity.
  all: try (left; repeat split; first [assumption | reflexivity | lia]).
  all: try (right; left; repeat split; first [assumption | reflexivity | lia]).
  all: try (right; right; left;
            split; [lia|]; split; [lia|]; split; [|reflexivity];
            eexists; split; [eassumption|]; split; [assumption | reflexivity]).
  all: right; right; right;
    split; [lia|]; split; [lia|];
    split; [|split; [assumption | split; reflexivity]];
    intros q Hq;
    match goal with
    | Hget : Board.get_piece _ _ = _ |- _ =>
        rewrite Hget in Hq;
        first [discriminate | injection Hq as <-; by apply dec_stable]
    end.
Qed.

Lemma _generate_pawn_moves_complete (state : GameState) (square : Square) (p : Piece)
    (m : Move) :
  valid_square square ->
  pawn_move state square p m ->
  In m (MoveGenerator._generate_pawn_moves state square p).
Proof.
  intros [Hf Hr] [Hfrom Hpiece Hcast [Htf Htr] Hpromo Hkind].
  destruct m as [f [tf tr] pc cap pr cs ep].
  unfold pawn_promotion, pawn_push, pawn_double_push, pawn_capture, pawn_en_passant,
    pawn_direction, pawn_start_rank in *.
  cbn [Move.from_square Move.piece Move.is_castling Move.to_square
       Move.is_en_passant Move.promotion_piece Move.captured_piece
       Square.file Square.rank] in *.
  subst f pc cs.
  unfold MoveGenerator._generate_pawn_moves. cbv zeta.
  cbn [Square.file Square.rank].
  apply in_or_app.
  destruct (decide (Piece.color p = WHITE)) as [Hw|Hw];
    destruct Hkind as [Hk | [Hk | [Hk | Hk]]].
  1, 5: destruct Hk as (-> & -> & Hget & -> & ->); left; rewrite Hget;
    match goal with
    | |- In _ (if ?c then _ else _) => replace c with true by lia
    end;
    destruct ((_ =? 7) || (_ =? 0)) eqn:E; case_bool_decide; try lia;
    [ destruct Hpromo as (t & Ht & ->); apply in_map_iff; exists t; by split
    | subst pr; by left ].
  1, 4: destruct Hk as (-> & -> & Hstart & Hmid & Hget & -> & ->); left;
    rewrite Hmid;
    match goal with
    | |- In _ (if ?c then _ else _) => replace c with true by lia
    end;
    match goal with
    | |- In _ (if ?c then _ else _) => replace c with false by lia
    end;
    right;
    match goal with
    | |- In _ (if ?c then _ else _) => replace c with true by lia
    end;
    rewrite Hget; case_bool_decide; try lia; subst pr; by left.
  1, 3: destruct Hk as (Habs & -> & (q & Hget & Hcol & ->) & ->); right;
    apply in_flat_map; exists (tf - Square.file square);
    (split; [simpl; lia|]);
    cbv beta;
    replace (Square.file square + (tf - Square.file square)) with tf by lia;
    match goal with
    | |- In _ (if ?c then _ else _) =>
        replace c with true by (unfold in_bounds; lia)
    end;
    rewrite Hget; rewrite bool_decide_eq_true_2 by assumption;
    destruct ((_ =? 7) || (_ =? 0)) eqn:E; case_bool_decide; try lia;
    [ destruct Hpromo as (t & Ht & ->); apply in_map_iff; exists t; by split
    | subst pr; by left ].
  all: destruct Hk as (Habs & -> & Hown & Hep & -> & ->); right;
    apply in_flat_map; exists (tf - Square.file square);
    (split; [simpl; lia|]);
    cbv beta;
    replace (Square.file square + (tf - Square.file square)) with tf by lia;
    match goal with
    | |- In _ (if ?c then _ else _) =>
        replace c with true by (unfold in_bounds; lia)
    end;
    rewrite Hep; rewrite (bool_decide_eq_true_2 _ eq_refl); subst pr;
    destruct (Board.get_piece (GameState.board state) _) as [q|] eqn:Hget;
    [ rewrite bool_decide_eq_false_2
        by (intros N; apply N; by apply Hown); by left
    | by left ].
Qed.

(** X24.  Pawn moves.  A move of a pawn is pseudo-legal for a colour
    exactly when the pawn is of that colour and stands on the origin, the
    destination is on the board, and the move is one step ahead onto an
    empty square, or two steps ahead from the start rank over two empty
    squares, or a diagonal step onto a piece of the other colour recorded
    as captured, or a diagonal step onto the en-passant target marked as
    en passant; it is never castling, and it carries a promotion type,
    one of the four, exactly when it is not en passant and lands on the
    first or the last rank. *)
Theorem pawn_moves_spec (state : GameState) (c : Color) (m : Move) :
  Piece.piece_type (Move.piece m) = PAWN ->
  In m (MoveGenerator.generate_pseudo_legal_moves state c) <->
  valid_square (Move.from_square m) /\
  Board.get_piece (GameState.board state) (Move.from_square m) = Some (Move.piece m) /\
  Piece.color (Move.piece m) = c /\
  pawn_move state (Move.from_square m) (Move.piece m) m.
Proof.
  intros Hp. split.
  - intros Hin.
    pose proof (generate_pseudo_legal_moves_shape state c m Hin)
      as (Hv & Hget & Hcol & Hgen).
    split; [assumption|]. split; [assumption|]. split; [assumption|].
    unfold MoveGenerator.generate_pseudo_legal_moves in Hin.
    apply in_flat_map in Hin as ([sq p] & Hpiece & Hin).
    apply in_get_all_pieces in Hpiece as (Hvs & Hgets & Hcs).
    pose proof (generate_piece_moves_shape state sq m Hvs Hin) as (q & Hq & Hgenq).
    assert (q = p) by congruence. subst q.
    pose proof (gen_from _ _ _ _ Hgenq) as Hfrom.
    pose proof (gen_piece _ _ _ _ Hgenq) as Hpc. subst sq p.
    unfold MoveGenerator.generate_piece_moves in Hin. rewrite Hget, Hp in Hin.
    by apply _generate_pawn_moves_sound.
  - intros (Hv & Hget & Hcol & Hpawn).
    unfold MoveGenerator.generate_pseudo_legal_moves. apply in_flat_map.
    exists (Move.from_square m, Move.piece m).
    split; [by apply in_get_all_pieces|].
    unfold MoveGenerator.generate_piece_moves. rewrite Hget, Hp.
    by apply _generate_pawn_moves_complete.
Qed.

(** ** The validator's simulation and the executor *)

Section Simulation.
Context `{BuiltinHash}.

(** X25.  Simulation and execution agree.  For a pseudo-legal move on a
    valid state the board the validator builds in
    [_apply_move_temporarily] is the board [execute_move] returns, so
    [would_leave_in_check] is the check query on the executed state; and a
    pseudo-legal move other than castling is among the legal moves exactly
    when the mover's king is not in check after executing it. *)
Theorem simulation_agrees_with_execution (p : GameState) (c : Color) (m : Move)
    (p' : GameState) :
  state_wf p ->
  In m (MoveGenerator.generate_pseudo_legal_moves p c) ->
  ChessEngine.execute_move p m = Ok p' ->
  GameState.board (MoveValidator._apply_move_temporarily p m) = GameState.board p' /\
  MoveValidator.would_leave_in_check p m = CheckDetector.is_check p' c /\
  (Move.is_castling m = false ->
   forall legal, ChessEngine.get_legal_moves p c = Ok legal ->
     (In m legal <-> CheckDetector.is_check p' c = Ok false)).
Proof.
  intros [Hwf _] Hin Hexec.
  pose proof (generate_pseudo_legal_moves_shape p c m Hin) as (Hv & _ & Hc & Hgen).
  apply execute_move_Ok in Hexec as (_ & _ & Hboard & _).
  assert (Hb : GameState.board (MoveValidator._apply_move_temporarily p m) =
               GameState.board p').
  { rewrite Hboard, _apply_move_temporarily_board. symmetry.
    by eapply exec_board_eq_temp. }
  assert (Hleave : MoveValidator.would_leave_in_check p m =
                   CheckDetector.is_check p' c).
  { unfold MoveValidator.would_leave_in_check. rewrite Hc. by apply is_check_board. }
  split; [assumption|]. split; [assumption|].
  intros Hcast legal Hlegal.
  rewrite (get_legal_moves_In p c legal m Hlegal).
  assert (Hl : MoveValidator.is_legal_move p m = Ok true <->
               CheckDetector.is_check p' c = Ok false).
  { rewrite <- Hleave. unfold MoveValidator.is_legal_move. rewrite Hcast.
    destruct (Move.is_en_passant m) eqn:Hep.
    - unfold MoveValidator.validate_en_passant.
      destruct (gen_en_passant _ _ _ _ Hgen Hep) as (_ & _ & Ht & _).
      rewrite Ht. rewrite bool_decide_eq_false_2 by (intros N; by apply N).
      destruct (MoveValidator.would_leave_in_check p m) as [[]|e]; simpl;
        split; congruence.
    - destruct (MoveValidator.would_leave_in_check p m) as [[]|e]; simpl;
        split; congruence. }
  tauto.
Qed.

End Simulation.

(** ** Castling moves *)

Lemma castling_wing_In (state : GameState) (square : Square) (p : Piece)
    (right : bool) (start : Square) (between : list Square)
    (rook_square to_square : Square) (rook_color : Color) (m : Move) :
  In m (MoveGenerator.castling_wing state square p right start between
          rook_square to_square rook_color) <->
  right = true /\ square = start /\
  (forall sq, In sq between -> Board.get_piece (GameState.board state) sq = None) /\
  Board.get_piece (GameState.board state) rook_square =
    Some (Piece.mk ROOK rook_color) /\
  m = Move.mk square to_square p None None true false.
Proof.
  unfold MoveGenerator.castling_wing. split.
  - intros Hin.
    destruct right; [|destruct Hin].
    destruct (bool_decide (square = start)) eqn:Hs; [|destruct Hin].
    apply bool_decide_eq_true in Hs. cbn [andb] in Hin.
    destruct (forallb _ between) eqn:Hb; [|destruct Hin].
    rewrite forallb_forall in Hb.
    destruct (Board.get_piece (GameState.board state) rook_square)
      as [[rt rc]|] eqn:Hrook; [|destruct Hin].
    destruct (bool_decide _ && bool_decide _) eqn:Hr; [|destruct Hin].
    apply andb_true_iff in Hr as [Hrt Hrc].
    apply bool_decide_eq_true in Hrt, Hrc. simpl in Hrt, Hrc. subst rt rc.
    destruct Hin as [<- | []].
    split; [reflexivity|]. split; [assumption|]. split; [|split; reflexivity].
    intros sq Hsq. specialize (Hb sq Hsq).
    by destruct (Board.get_piece (GameState.board state) sq).
  - intros (-> & -> & Hempty & Hrook & ->).
    rewrite bool_decide_eq_true_2 by reflexivity. cbn [andb].
    assert (Hb : forallb (fun sq =>
                match Board.get_piece (GameState.board state) sq with
                | None => true
                | Some _ => false
                end) between = true).
    { apply forallb_forall. intros sq Hsq. by rewrite (Hempty sq Hsq). }
    rewrite Hb, Hrook. rewrite !bool_decide_eq_true_2 by reflexivity. by left.
Qed.

Lemma _generate_castling_moves_In (state : GameState) (square : Square) (p : Piece)
    (m : Move) :
  In m (MoveGenerator._generate_castling_moves state square p) <->
  let c := Piece.color p in
  let at_home file :=
    Board.get_piece (GameState.board state) (Square.mk file (home_rank c)) in
  square = Square.mk 4 (home_rank c) /\
  ((kingside (GameState.castling_rights state) c = true /\
    at_home 5 = None /\ at_home 6 = None /\ at_home 7 = Some (Piece.mk ROOK c) /\
    m = Move.mk square (Square.mk 6 (home_rank c)) p None None true false) \/
   (queenside (GameState.castling_rights state) c = true /\
    at_home 1 = None /\ at_home 2 = None /\ at_home 3 = None /\
    at_home 0 = Some (Piece.mk ROOK c) /\
    m = Move.mk square (Square.mk 2 (home_rank c)) p None None true false)).
Proof.
  unfold MoveGenerator._generate_castling_moves, kingside, queenside, home_rank.
  cbv zeta.
  destruct (decide (Piece.color p = WHITE)) as [Hw|Hw].
  - rewrite Hw.
    rewrite in_app_iff, !castling_wing_In. split.
    + intros [(Hr & Hs & He & Hrook & Hm) | (Hr & Hs & He & Hrook & Hm)];
        (split; [assumption|]); [left | right]; repeat split;
        try assumption; apply He; simpl; tauto.
    + intros (Hs & [(Hr & H5 & H6 & Hrook & Hm)
                   | (Hr & H1 & H2 & H3 & Hrook & Hm)]); [left | right];
        (split; [assumption|]); (split; [assumption|]);
        (split; [|split; assumption]);
        intros sq Hsq; simpl in Hsq;
        repeat destruct Hsq as [<- | Hsq]; try assumption; destruct Hsq.
  - assert (Hb : Piece.color p = BLACK) by (by destruct (Piece.color p)).
    rewrite Hb.
    rewrite in_app_iff, !castling_wing_In. split.
    + intros [(Hr & Hs & He & Hrook & Hm) | (Hr & Hs & He & Hrook & Hm)];
        (split; [assumption|]); [left | right]; repeat split;
        try assumption; apply He; simpl; tauto.
    + intros (Hs & [(Hr & H5 & H6 & Hrook & Hm)
                   | (Hr & H1 & H2 & H3 & Hrook & Hm)]); [left | right];
        (split; [assumption|]); (split; [assumption|]);
        (split; [|split; assumption]);
        intros sq Hsq; simpl in Hsq;
        repeat destruct Hsq as [<- | Hsq]; try assumption; destruct Hsq.
Qed.

Lemma generate_piece_moves_castling (state : GameState) (square : Square) (p : Piece)
    (m : Move) :
  valid_square square ->
  Board.get_piece (GameState.board state) square = Some p ->
  Move.is_castling m = true ->
  In m (MoveGenerator.generate_piece_moves state square) <->
  Piece.piece_type p = KING /\
  In m (MoveGenerator._generate_castling_moves state square p).
Proof.
  intros Hsq Hget Hc. unfold MoveGenerator.generate_piece_moves. rewrite Hget.
  destruct (Piece.piece_type p) eqn:Ht.
  - split; [|intros [? _]; discriminate]. intros Hin.
    apply (_generate_pawn_moves_sound state square p m Hsq) in Hin.
    pose proof (pawn_not_castling _ _ _ _ Hin). congruence.
  - split; [|intros [? _]; discriminate]. intros Hin.
    apply step_moves_shape in Hin as [_ Hin]; congruence.
  - split; [|intros [? _]; discriminate]. intros Hin.
    apply sliding_directions_shape in Hin as [_ Hin]; congruence.
  - split; [|intros [? _]; discriminate]. intros Hin.
    apply sliding_directions_shape in Hin as [_ Hin]; congruence.
  - split; [|intros [? _]; discriminate]. intros Hin.
    apply sliding_directions_shape in Hin as [_ Hin]; congruence.
  - unfold MoveGenerator._generate_king_moves. rewrite in_app_iff. split.
    + intros [Hin | Hin]; [|by split].
      apply step_moves_shape in Hin as [_ Hin]; congruence.
    + intros [_ Hin]. by right.
Qed.

(** X27.  Castling moves.  A move flagged as castling is pseudo-legal for
    a colour exactly when it moves the king of that colour from the e-file
    square of its home rank two files towards a corner in which a rook of
    that colour stands, with the right for that wing held and every square
    between king and rook empty; it records no capture, no promotion and
    no en-passant mark. *)
Theorem castling_moves_spec (state : GameState) (c : Color) (m : Move) :
  Move.is_castling m = true ->
  In m (MoveGenerator.generate_pseudo_legal_moves state c) <->
  castling_move state c m.
Proof.
  intros Hc. unfold castling_move. cbv zeta. split.
  - intros Hin.
    pose proof (generate_pseudo_legal_moves_shape state c m Hin)
      as (Hv & Hget & Hcol & Hgen).
    unfold MoveGenerator.generate_pseudo_legal_moves in Hin.
    apply in_flat_map in Hin as ([sq p] & Hpiece & Hin).
    apply in_get_all_pieces in Hpiece as (Hvs & Hgets & Hcs).
    apply (generate_piece_moves_castling state sq p m Hvs Hgets Hc) in Hin
      as [Ht Hin].
    apply _generate_castling_moves_In in Hin. cbv zeta in Hin. rewrite Hcs in Hin.
    destruct Hin as (-> & Hwing).
    assert (Hm : Move.from_square m = Square.mk 4 (home_rank c) /\ Move.piece m = p /\
                 Move.captured_piece m = None /\ Move.promotion_piece m = None /\
                 Move.is_en_passant m = false).
    { destruct Hwing as [(_ & _ & _ & _ & ->) | (_ & _ & _ & _ & _ & ->)];
        repeat split. }
    destruct Hm as (Hfrom & Hp & Hcap & Hpromo & Hep). subst p.
    split; [assumption|]. split; [assumption|]. split; [assumption|].
    split; [assumption|]. split; [assumption|]. split; [assumption|].
    split; [assumption|].
    destruct Hwing as [(Hr & H5 & H6 & Hrook & Hm) | (Hr & H1 & H2 & H3 & Hrook & Hm)];
      [left | right]; repeat split; try assumption; by rewrite Hm.
  - intros (Hfrom & Hget & Ht & Hcol & Hcap & Hpromo & Hep & Hwing).
    unfold MoveGenerator.generate_pseudo_legal_moves. apply in_flat_map.
    exists (Square.mk 4 (home_rank c), Move.piece m).
    assert (Hv : valid_square (Square.mk 4 (home_rank c))).
    { unfold valid_square, home_rank. simpl. case_decide; lia. }
    split; [by apply in_get_all_pieces|].
    apply (generate_piece_moves_castling state _ _ m Hv Hget Hc).
    split; [assumption|]. apply _generate_castling_moves_In. cbv zeta.
    rewrite Hcol. split; [reflexivity|].
    assert (Hm : forall to_square, Move.to_square m = to_square ->
              m = Move.mk (Square.mk 4 (home_rank c)) to_square (Move.piece m)
                    None None true false).
    { intros to_square <-. clear -Hfrom Hcap Hpromo Hep Hc.
      destruct m as [f t pc cap pr cs ep]. simpl in *. congruence. }
    destruct Hwing as [(Hto & Hr & H5 & H6 & Hrook)
                      | (Hto & Hr & H1 & H2 & H3 & Hrook)];
      [left | right]; repeat split; try assumption; by apply Hm.
Qed.

(** ** Castling: simulation and legality *)

Lemma generated_castling_move (state : GameState) (c : Color) (m : Move) :
  In m (MoveGenerator.generate_pseudo_legal_moves state c) ->
  Move.is_castling m = true ->
  castling_move state c m.
Proof.
  intros Hin Hc. unfold castling_move. cbv zeta.
  pose proof (generate_pseudo_legal_moves_shape state c m Hin)
    as (Hv & Hget & Hcol & Hgen).
  unfold MoveGenerator.generate_pseudo_legal_moves in Hin.
  apply in_flat_map in Hin as ([sq p] & Hpiece & Hin).
  apply in_get_all_pieces in Hpiece as (Hvs & Hgets & Hcs).
  apply (generate_piece_moves_castling state sq p m Hvs Hgets Hc) in Hin
    as [Ht Hin].
  apply _generate_castling_moves_In in Hin. cbv zeta in Hin. rewrite Hcs in Hin.
  destruct Hin as (-> & Hwing).
  assert (Hm : Move.from_square m = Square.mk 4 (home_rank c) /\ Move.piece m = p /\
               Move.captured_piece m = None /\ Move.promotion_piece m = None /\
               Move.is_en_passant m = false).
  { destruct Hwing as [(_ & _ & _ & _ & ->) | (_ & _ & _ & _ & _ & ->)];
      repeat split. }
  destruct Hm as (Hfrom & Hp & Hcap & Hpromo & Hep). subst p.
  split; [assumption|]. split; [assumption|]. split; [assumption|].
  split; [assumption|]. split; [assumption|]. split; [assumption|].
  split; [assumption|].
  destruct Hwing as [(Hr & H5 & H6 & Hrook & Hm) | (Hr & H1 & H2 & H3 & Hrook & Hm)];
    [left | right]; repeat split; try assumption; by rewrite Hm.
Qed.

(** What stands on each square after a generated castling move. *)
Lemma content_after_castling (p : GameState) (c : Color) (m : Move) (s : Square) :
  castling_move p c m -> Move.is_castling m = true ->
  content_after (GameState.board p) m s =
    if decide (s = Move.to_square m) then Some (Piece.mk KING c)
    else if decide (s = passed_over m) then Some (Piece.mk ROOK c)
    else if decide (s = Move.from_square m) then None
    else if decide (s = rook_corner m) then None
    else Board.get_piece (GameState.board p) s.
Proof.
  unfold castling_move. cbv zeta.
  intros (Hfrom & Hking & Ht & Hcol & Hcap & Hpromo & Hep & Hwing) Hc.
  assert (Hpiece : Move.piece m = Piece.mk KING c).
  { destruct (Move.piece m) as [pt pc]. simpl in Ht, Hcol. by subst. }
  unfold content_after, passed_over, rook_corner.
  rewrite Hpromo, Hc, Hfrom, Hpiece. cbn [Square.file Square.rank].
  destruct Hwing as [(Hto & _ & _ & _ & Hrook) | (Hto & _ & _ & _ & _ & Hrook)];
    rewrite Hto; cbn [Square.file Square.rank]; rewrite Hrook;
    change (6 =? 6) with true; change (2 =? 6) with false;
    change (6 >? 4) with true; change (2 >? 4) with false;
    cbv iota; change (4 + 1) with 5; change (4 - 1) with 3;
    repeat case_decide; subst; try reflexivity; congruence.
Qed.

(** C3.  Castling gating.  With king and rooks of [c] at home, the squares
    between them empty and both rights held, exactly two of the
    pseudo-legal moves of [c] are flagged [is_castling].  For a generated
    castling move, the state the validator builds in
    [_apply_move_temporarily] is the position after the full move: the
    king on its destination, the rook brought from its corner to the
    square the king passed over, origin and corner empty, every other
    square untouched.  The move is in [get_legal_moves] exactly when the
    king is not in check now, the square it passes over is not attacked by
    the opponent, and the king is not in check in that position. *)
Theorem castling_gating (p : GameState) (c : Color) :
  state_wf p ->
  (castling_ready p c ->
   count_castling (MoveGenerator.generate_pseudo_legal_moves p c) = 2%nat) /\
  (forall m,
     In m (MoveGenerator.generate_pseudo_legal_moves p c) ->
     Move.is_castling m = true ->
     exists ms : list Move,
       ChessEngine.get_legal_moves p c = Ok ms /\
       valid_square (passed_over m) /\
       castled_position p c m (MoveValidator._apply_move_temporarily p m) /\
       forall castled, castled_position p c m castled ->
         (In m ms <->
          CheckDetector.is_check p c = Ok false /\
          CheckDetector.is_square_attacked p (passed_over m) (Color.opposite c) =
            Ok false /\
          CheckDetector.is_check castled c = Ok false)).
Proof.
  intros Hwf. destruct (castling_gating_validator p c Hwf) as [Hcount Hlegal].
  split; [assumption|]. intros m Hin Hc.
  destruct (Hlegal m Hin Hc) as (ms & through & Hms & -> & Hiff).
  fold (passed_over m) in Hiff.
  pose proof (generated_castling_move p c m Hin Hc) as Hmove.
  pose proof (generate_pseudo_legal_moves_shape p c m Hin)
    as (Hv & _ & Hcol & Hgen).
  destruct Hwf as [Hb _].
  assert (Htemp : forall s, valid_square s ->
            Board.get_piece
              (GameState.board (MoveValidator._apply_move_temporarily p m)) s =
            content_after (GameState.board p) m s).
  { intros s Hs. rewrite _apply_move_temporarily_board.
    rewrite <- (exec_board_eq_temp p (GameState.board p) m Hb Hv Hgen).
    by apply (exec_board_content p). }
  pose proof Hmove as Hfacts. unfold castling_move in Hfacts. cbv zeta in Hfacts.
  destruct Hfacts as (Hfrom & _ & _ & _ & _ & _ & _ & Hwing).
  assert (Hto : Move.to_square m = Square.mk 6 (home_rank c) \/
                Move.to_square m = Square.mk 2 (home_rank c))
    by (destruct Hwing as [(? & _) | (? & _)]; auto).
  assert (Hh : 0 <= home_rank c <= 7) by (unfold home_rank; case_decide; lia).
  assert (Hvt : valid_square (Move.to_square m))
    by exact (gen_to_valid _ _ _ _ Hgen).
  assert (Hvo : valid_square (passed_over m)).
  { unfold passed_over, valid_square. rewrite Hfrom.
    destruct Hto as [-> | ->]; simpl; lia. }
  assert (Hvc : valid_square (rook_corner m)).
  { unfold rook_corner, valid_square. rewrite Hfrom.
    destruct Hto as [-> | ->]; simpl; lia. }
  assert (Hne : Move.to_square m <> passed_over m /\
                Move.to_square m <> Move.from_square m /\
                Move.to_square m <> rook_corner m /\
                passed_over m <> Move.from_square m /\
                passed_over m <> rook_corner m /\
                Move.from_square m <> rook_corner m).
  { unfold passed_over, rook_corner. rewrite Hfrom.
    destruct Hto as [-> | ->]; simpl; repeat split; intros [= ?]; lia. }
  destruct Hne as (N1 & N2 & N3 & N4 & N5 & N6).
  assert (Hsim : castled_position p c m (MoveValidator._apply_move_temporarily p m)).
  { constructor.
    - rewrite _apply_move_temporarily_board. by apply temp_board_wf.
    - rewrite Htemp, (content_after_castling p c m _ Hmove Hc) by assumption.
      by rewrite decide_True.
    - rewrite Htemp, (content_after_castling p c m _ Hmove Hc) by assumption.
      rewrite decide_False by congruence. by rewrite decide_True.
    - rewrite Htemp, (content_after_castling p c m _ Hmove Hc) by assumption.
      rewrite !decide_False by congruence. by rewrite decide_True.
    - rewrite Htemp, (content_after_castling p c m _ Hmove Hc) by assumption.
      rewrite !decide_False by congruence. by rewrite decide_True.
    - intros sq Hsq M1 M2 M3 M4.
      rewrite Htemp, (content_after_castling p c m _ Hmove Hc) by assumption.
      by rewrite !decide_False. }
  exists ms. split; [assumption|]. split; [assumption|]. split; [assumption|].
  intros castled Hcastled.
  assert (Hboard : GameState.board (MoveValidator._apply_move_temporarily p m) =
                   GameState.board castled).
  { apply board_ext; [exact (castled_wf _ _ _ _ Hsim)
                     | exact (castled_wf _ _ _ _ Hcastled) |].
    intros sq Hsq.
    destruct (decide (sq = Move.to_square m)) as [-> | M1];
      [by rewrite (castled_king _ _ _ _ Hsim), (castled_king _ _ _ _ Hcastled)|].
    destruct (decide (sq = passed_over m)) as [-> | M2];
      [by rewrite (castled_rook _ _ _ _ Hsim), (castled_rook _ _ _ _ Hcastled)|].
    destruct (decide (sq = Move.from_square m)) as [-> | M3];
      [by rewrite (castled_origin _ _ _ _ Hsim), (castled_origin _ _ _ _ Hcastled)|].
    destruct (decide (sq = rook_corner m)) as [-> | M4];
      [by rewrite (castled_corner _ _ _ _ Hsim), (castled_corner _ _ _ _ Hcastled)|].
    by rewrite (castled_rest _ _ _ _ Hsim), (castled_rest _ _ _ _ Hcastled). }
  assert (Hleave : MoveValidator.would_leave_in_check p m =
                   CheckDetector.is_check castled c).
  { unfold MoveValidator.would_leave_in_check. rewrite Hcol.
    by apply is_check_board. }
  by rewrite <- Hleave.
Qed.

(** ** The result of the game *)

Section GameResult.
Context `{BuiltinHash}.

(** X26.  The result shown for a game.  [is_draw] and [_get_game_result]
    never raise.  [is_draw] holds exactly when the position is a
    stalemate, a threefold repetition, under the fifty-move rule or of
    insufficient material.  [_get_game_result] announces checkmate, with
    the side not to move as winner, before any draw; otherwise it names
    the first draw condition that holds, in that order; it says the game
    is in progress exactly when there is neither checkmate nor draw, and
    it never reports a draw by unknown reason. *)
Theorem _get_game_result_spec (state : GameState) :
  exists mate stale,
    ChessEngine.is_checkmate state = Ok mate /\
    ChessEngine.is_stalemate state = Ok stale /\
    ChessEngine.is_draw state =
      Ok (stale || ChessEngine.is_threefold_repetition state ||
          ChessEngine.is_fifty_move_rule state ||
          ChessEngine.is_insufficient_material state) /\
    GameController._get_game_result state =
      Ok (if mate then
            if decide (GameState.current_player state = WHITE)
            then "Checkmate! Black wins!" else "Checkmate! White wins!"
          else if stale then "Draw by stalemate"
          else if ChessEngine.is_threefold_repetition state
          then "Draw by threefold repetition"
          else if ChessEngine.is_fifty_move_rule state
          then "Draw by fifty-move rule"
          else if ChessEngine.is_insufficient_material state
          then "Draw by insufficient material"
          else "Game in progress")%string /\
    GameController._get_game_result state <> Ok "Draw by unknown reason"%string.
Proof.
  destruct (is_check_total state (GameState.current_player state)) as [chk Hchk].
  destruct (get_legal_moves_total state (GameState.current_player state))
    as [ms Hms].
  assert (Hmate : ChessEngine.is_checkmate state = Ok (chk && (length ms =? 0)%nat)).
  { unfold ChessEngine.is_checkmate. rewrite Hchk. unfold bind.
    destruct chk; cbn [negb andb]; [by rewrite Hms | reflexivity]. }
  assert (Hstale : ChessEngine.is_stalemate state =
                   Ok (negb chk && (length ms =? 0)%nat)).
  { unfold ChessEngine.is_stalemate. rewrite Hchk. unfold bind.
    destruct chk; cbn [negb andb]; [reflexivity | by rewrite Hms]. }
  exists (chk && (length ms =? 0)%nat), (negb chk && (length ms =? 0)%nat).
  split; [assumption|]. split; [assumption|].
  assert (Hdraw : ChessEngine.is_draw state =
            Ok (negb chk && (length ms =? 0)%nat ||
                ChessEngine.is_threefold_repetition state ||
                ChessEngine.is_fifty_move_rule state ||
                ChessEngine.is_insufficient_material state)).
  { unfold ChessEngine.is_draw. rewrite Hstale. unfold bind.
    destruct (negb chk && (length ms =? 0)%nat); [reflexivity|].
    destruct (ChessEngine.is_threefold_repetition state); [reflexivity|].
    by destruct (ChessEngine.is_fifty_move_rule state). }
  split; [assumption|].
  assert (Hres : GameController._get_game_result state =
      Ok (if chk && (length ms =? 0)%nat then
            if decide (GameState.current_player state = WHITE)
            then "Checkmate! Black wins!" else "Checkmate! White wins!"
          else if negb chk && (length ms =? 0)%nat then "Draw by stalemate"
          else if ChessEngine.is_threefold_repetition state
          then "Draw by threefold repetition"
          else if ChessEngine.is_fifty_move_rule state
          then "Draw by fifty-move rule"
          else if ChessEngine.is_insufficient_material state
          then "Draw by insufficient material"
          else "Game in progress")%string).
  { unfold GameController._get_game_result, GameController._get_draw_reason.
    rewrite Hmate, Hdraw, Hstale. unfold bind.
    destruct (chk && (length ms =? 0)%nat).
    - by destruct (GameState.current_player state).
    - destruct (negb chk && (length ms =? 0)%nat); [reflexivity|].
      destruct (ChessEngine.is_threefold_repetition state); [reflexivity|].
      destruct (ChessEngine.is_fifty_move_rule state); [reflexivity|].
      by destruct (ChessEngine.is_insufficient_material state). }
  split; [assumption|]. rewrite Hres.
  destruct (chk && (length ms =? 0)%nat);
    [by destruct (decide (GameState.current_player state = WHITE))|].
  destruct (negb chk && (length ms =? 0)%nat); [discriminate|].
  destruct (ChessEngine.is_threefold_repetition state); [discriminate|].
  destruct (ChessEngine.is_fifty_move_rule state); [discriminate|].
  by destruct (ChessEngine.is_insufficient_material state).
Qed.

End GameResult.

(** ** Instances *)

Ltac solve_concrete_board := split; [reflexivity | vm_compute; repeat constructor].

Ltac solve_concrete_square := unfold valid_square; simpl; lia.

Lemma board_write_then_read_witness :
  board_wf (Board.set_piece (GameState.board sample_start) (Square.mk 4 3)
              (Some (Piece.mk PAWN WHITE))) /\
  Board.get_piece
    (Board.set_piece (GameState.board sample_start) (Square.mk 4 3)
       (Some (Piece.mk PAWN WHITE))) (Square.mk 4 1) =
    (if decide (Square.mk 4 1 = Square.mk 4 3) then Some (Piece.mk PAWN WHITE)
     else Board.get_piece (GameState.board sample_start) (Square.mk 4 1)) /\
  Board.get_piece
    (Board.remove_piece (GameState.board sample_start) (Square.mk 4 3))
    (Square.mk 4 1) =
    (if decide (Square.mk 4 1 = Square.mk 4 3) then None
     else Board.get_piece (GameState.board sample_start) (Square.mk 4 1)).
Proof.
  apply (board_write_then_read (GameState.board sample_start)
           (Square.mk 4 3) (Square.mk 4 1)).
  - solve_concrete_board.
  - solve_concrete_square.
  - solve_concrete_square.
Defined.

Lemma copies_are_equal_witness :
  Board.copy (GameState.board sample_start) = GameState.board sample_start /\
  GameState.copy sample_start = sample_start /\
  (forall q, valid_square q -> q <> Square.mk 4 3 ->
     Board.get_piece
       (Board.set_piece (Board.copy (GameState.board sample_start))
          (Square.mk 4 3) None) q =
     Board.get_piece (GameState.board sample_start) q).
Proof.
  apply (copies_are_equal sample_start (Square.mk 4 3) None).
  - solve_concrete_board.
  - solve_concrete_square.
Defined.

Lemma _is_path_clear_spec_witness :
  (CheckDetector._is_path_clear sample_start (Square.mk 0 1) (Square.mk 0 6) =
     Ok true <->
   clear_line sample_start (Square.mk 0 1) (Square.mk 0 6)) /\
  (aligned (Square.mk 0 1) (Square.mk 0 6) ->
   exists b,
     CheckDetector._is_path_clear sample_start (Square.mk 0 1) (Square.mk 0 6) =
     Ok b).
Proof.
  apply (_is_path_clear_spec sample_start (Square.mk 0 1) (Square.mk 0 6)).
  - solve_concrete_square.
  - solve_concrete_square.
Defined.

Lemma is_square_attacked_spec_witness :
  (CheckDetector.is_square_attacked sample_start (Square.mk 5 2) WHITE = Ok true <->
   exists s p, valid_square s /\
     Board.get_piece (GameState.board sample_start) s = Some p /\
     Piece.color p = WHITE /\ attacks sample_start s p (Square.mk 5 2)) /\
  (CheckDetector.is_check sample_start WHITE = Ok true <->
   exists king_square s p,
     CheckDetector.find_king_position sample_start WHITE = Some king_square /\
     valid_square s /\
     Board.get_piece (GameState.board sample_start) s = Some p /\
     Piece.color p = Color.opposite WHITE /\
     attacks sample_start s p king_square).
Proof.
  apply (is_square_attacked_spec sample_start (Square.mk 5 2) WHITE).
  solve_concrete_square.
Defined.

Lemma generated_move_fields_witness :
  valid_square (Move.from_square e2e4) /\ valid_square (Move.to_square e2e4) /\
  Board.get_piece (GameState.board sample_start) (Move.from_square e2e4) =
    Some (Move.piece e2e4) /\
  Piece.color (Move.piece e2e4) = WHITE /\
  (Move.is_en_passant e2e4 = false ->
   Move.captured_piece e2e4 =
     Board.get_piece (GameState.board sample_start) (Move.to_square e2e4) /\
   forall q,
     Board.get_piece (GameState.board sample_start) (Move.to_square e2e4) = Some q ->
     Piece.color q <> WHITE) /\
  (Move.is_en_passant e2e4 = true ->
   GameState.en_passant_target sample_start = Some (Move.to_square e2e4) /\
   Piece.piece_type (Move.piece e2e4) = PAWN /\
   Move.captured_piece e2e4 =
     Board.get_piece (GameState.board sample_start)
       (Square.mk (Square.file (Move.to_square e2e4))
                  (Square.rank (Move.from_square e2e4)))).
Proof. apply (generated_move_fields sample_start WHITE e2e4). pick_member. Defined.

Lemma generated_promotions_witness :
  (forall t, Move.promotion_piece e2e4 = Some t ->
     Piece.piece_type (Move.piece e2e4) = PAWN /\
     (t = QUEEN \/ t = ROOK \/ t = BISHOP \/ t = KNIGHT)) /\
  (Move.is_en_passant e2e4 = true -> Move.promotion_piece e2e4 = None) /\
  (Piece.piece_type (Move.piece e2e4) = PAWN -> Move.is_en_passant e2e4 = false ->
   (Move.promotion_piece e2e4 <> None <->
    Square.rank (Move.to_square e2e4) = 7 \/ Square.rank (Move.to_square e2e4) = 0)) /\
  (Move.is_en_passant e2e4 = false ->
   (GameController._is_promotion_move e2e4 = true <->
    Move.promotion_piece e2e4 <> None)).
Proof. apply (generated_promotions sample_start WHITE e2e4). pick_member. Defined.

Lemma en_passant_window_witness :
  (forall c m', GameState.en_passant_target sample_start = None ->
     In m' (MoveGenerator.generate_pseudo_legal_moves sample_start c) ->
     Move.is_en_passant m' = false) /\
  (moved_two_ranks e2e3 = false ->
   GameState.en_passant_target after_e2e3 = None /\
   forall c m', In m' (MoveGenerator.generate_pseudo_legal_moves after_e2e3 c) ->
                Move.is_en_passant m' = false).
Proof.
  apply (@en_passant_window sample_hash sample_start e2e3 after_e2e3).
  vm_compute. reflexivity.
Defined.

Lemma execute_move_raises_witness :
  (@ChessEngine.execute_move sample_hash sample_start e2e4 = Raise ValueError <->
   moved_two_ranks e2e4 = true /\
   Square.rank (Move.from_square e2e4) =
     (if decide (Piece.color (Move.piece e2e4) = WHITE) then 7 else 0)) /\
  (@ChessEngine.execute_move sample_hash sample_start e2e4 <> Raise ValueError ->
   exists p', @ChessEngine.execute_move sample_hash sample_start e2e4 = Ok p').
Proof.
  apply (@execute_move_raises sample_hash sample_start e2e4).
  split; solve_concrete_square.
Defined.

Lemma play_bookkeeping_witness :
  GameState.move_history after_knight_cycle = knight_cycle /\
  length (GameState.position_history after_knight_cycle) = S (length knight_cycle) /\
  last (GameState.position_history after_knight_cycle) =
    Some (@GameState.compute_position_hash sample_hash after_knight_cycle) /\
  GameState.game_mode after_knight_cycle = MULTIPLAYER /\
  GameState.current_player after_knight_cycle =
    (if Nat.even (length knight_cycle) then WHITE else BLACK) /\
  GameState.fullmove_number after_knight_cycle =
    1 + Z.of_nat (length knight_cycle) / 2.
Proof.
  apply (@play_bookkeeping sample_hash MULTIPLAYER knight_cycle after_knight_cycle).
  vm_compute. reflexivity.
Defined.

Lemma executed_board_witness :
  board_wf (GameState.board after_e2e4) /\
  forall s, valid_square s ->
    Board.get_piece (GameState.board after_e2e4) s =
    content_after (GameState.board sample_start) e2e4 s.
Proof.
  apply (@executed_board sample_hash sample_start WHITE e2e4 after_e2e4).
  - solve_concrete_wf.
  - pick_member.
  - vm_compute. reflexivity.
Defined.

Lemma fifty_move_rule_after_moves_witness :
  @ChessEngine.is_fifty_move_rule after_e2e4 =
    negb (is_pawn_move e2e4 || is_capture e2e4) &&
    (99 <=? GameState.halfmove_clock sample_start) /\
  (forall mode moves q,
     @play sample_hash (@GameState.new_game sample_hash mode) moves = Ok q ->
     Forall quiet moves ->
     ChessEngine.is_fifty_move_rule q = (100 <=? length moves)%nat).
Proof.
  apply (@fifty_move_rule_after_moves sample_hash sample_start e2e4 after_e2e4).
  vm_compute. reflexivity.
Defined.

Lemma insufficient_material_sound_witness :
  (forall c,
     (length (Board.get_all_pieces (GameState.board bare_kings_state) c) <= 2)%nat) /\
  forall sq q, valid_square sq ->
    Board.get_piece (GameState.board bare_kings_state) sq = Some q ->
    Piece.piece_type q = KING \/ Piece.piece_type q = BISHOP \/
    Piece.piece_type q = KNIGHT.
Proof.
  apply (insufficient_material_sound bare_kings_state).
  - exists (Square.mk 4 0). split; [solve_concrete_square | vm_compute; reflexivity].
  - exists (Square.mk 4 7). split; [solve_concrete_square | vm_compute; reflexivity].
  - vm_compute. reflexivity.
Defined.

Lemma get_algebraic_notation_returns_witness :
  exists p' chk mate flags body,
    @ChessEngine.execute_move sample_hash sample_start e2e4 = Ok p' /\
    CheckDetector.is_check p' (GameState.current_player p') = Ok chk /\
    ChessEngine.is_checkmate p' = Ok mate /\
    ChessEngine._get_disambiguation sample_start e2e4 = Ok flags /\
    Move.to_algebraic_notation e2e4 false false (fst flags) (snd flags) =
      Found body /\
    @ChessEngine.get_algebraic_notation sample_hash sample_start e2e4 =
      Ok (Found (body ++ (if mate then "#" else if chk then "+" else ""))%string).
Proof.
  apply (@get_algebraic_notation_returns sample_hash sample_start WHITE e2e4).
  pick_member.
Defined.

Lemma find_checkmate_in_one_spec_witness :
  exists r,
    @AIOpponent.find_checkmate_in_one sample_hash sample_start [e2e4; e2e3] = Ok r /\
    match r with
    | Some m =>
        exists before after q,
          [e2e4; e2e3] = before ++ m :: after /\
          @ChessEngine.execute_move sample_hash sample_start m = Ok q /\
          ChessEngine.is_checkmate q = Ok true /\
          Forall (fun m' => exists q',
                    @ChessEngine.execute_move sample_hash sample_start m' = Ok q' /\
                    ChessEngine.is_checkmate q' = Ok false) before
    | None =>
        Forall (fun m' => exists q',
                  @ChessEngine.execute_move sample_hash sample_start m' = Ok q' /\
                  ChessEngine.is_checkmate q' = Ok false) [e2e4; e2e3]
    end.
Proof.
  apply (@find_checkmate_in_one_spec sample_hash sample_start WHITE [e2e4; e2e3]).
  intros m [<- | [<- | []]]; pick_member.
Defined.

Lemma generated_moves_are_attacks_witness :
  In Nf3 (MoveGenerator.generate_pseudo_legal_moves sample_start WHITE) <->
  valid_square (Move.from_square Nf3) /\ valid_square (Move.to_square Nf3) /\
  Board.get_piece (GameState.board sample_start) (Move.from_square Nf3) =
    Some (Move.piece Nf3) /\
  Piece.color (Move.piece Nf3) = WHITE /\
  attacks sample_start (Move.from_square Nf3) (Move.piece Nf3) (Move.to_square Nf3) /\
  (forall q,
     Board.get_piece (GameState.board sample_start) (Move.to_square Nf3) = Some q ->
     Piece.color q <> WHITE) /\
  Move.captured_piece Nf3 =
    Board.get_piece (GameState.board sample_start) (Move.to_square Nf3) /\
  Move.promotion_piece Nf3 = None /\ Move.is_en_passant Nf3 = false.
Proof.
  apply (generated_moves_are_attacks sample_start WHITE Nf3).
  - discriminate.
  - reflexivity.
Defined.

Lemma pawn_moves_spec_witness :
  In e2e4 (MoveGenerator.generate_pseudo_legal_moves sample_start WHITE) <->
  valid_square (Move.from_square e2e4) /\
  Board.get_piece (GameState.board sample_start) (Move.from_square e2e4) =
    Some (Move.piece e2e4) /\
  Piece.color (Move.piece e2e4) = WHITE /\
  pawn_move sample_start (Move.from_square e2e4) (Move.piece e2e4) e2e4.
Proof. apply (pawn_moves_spec sample_start WHITE e2e4). reflexivity. Defined.

Lemma simulation_agrees_with_execution_witness :
  GameState.board (MoveValidator._apply_move_temporarily sample_start e2e4) =
    GameState.board after_e2e4 /\
  MoveValidator.would_leave_in_check sample_start e2e4 =
    CheckDetector.is_check after_e2e4 WHITE /\
  (Move.is_castling e2e4 = false ->
   forall legal, ChessEngine.get_legal_moves sample_start WHITE = Ok legal ->
     (In e2e4 legal <-> CheckDetector.is_check after_e2e4 WHITE = Ok false)).
Proof.
  apply (@simulation_agrees_with_execution sample_hash sample_start WHITE e2e4
           after_e2e4).
  - solve_concrete_wf.
  - pick_member.
  - vm_compute. reflexivity.
Defined.

Lemma castling_moves_spec_witness :
  In castle_kingside (MoveGenerator.generate_pseudo_legal_moves castle_state WHITE) <->
  castling_move castle_state WHITE castle_kingside.
Proof. apply (castling_moves_spec castle_state WHITE castle_kingside). reflexivity. Defined.

Lemma castling_gating_witness :
  count_castling (MoveGenerator.generate_pseudo_legal_moves castle_state WHITE) = 2%nat /\
  exists ms : list Move,
    ChessEngine.get_legal_moves castle_state WHITE = Ok ms /\
    valid_square (passed_over castle_kingside) /\
    castled_position castle_state WHITE castle_kingside
      (MoveValidator._apply_move_temporarily castle_state castle_kingside) /\
    forall castled, castled_position castle_state WHITE castle_kingside castled ->
      (In castle_kingside ms <->
       CheckDetector.is_check castle_state WHITE = Ok false /\
       CheckDetector.is_square_attacked castle_state (passed_over castle_kingside)
         (Color.opposite WHITE) = Ok false /\
       CheckDetector.is_check castled WHITE = Ok false).
Proof.
  destruct (castling_gating castle_state WHITE) as [Hcount Hlegal].
  - solve_concrete_wf.
  - split.
    + apply Hcount. constructor; vm_compute; auto.
    + apply Hlegal; [pick_member | reflexivity].
Defined.
